(** * The run trigger pipeline of the webapp: [TriggerTaskServiceV2]

    A shallow embedding of
    [apps/webapp/app/v3/services/triggerTaskV2.server.ts]: the duration
    grammar ([stringifyDuration], [parseNaturalLanguageDuration],
    [parseDelay]), the payload packet handler, the queue name resolver and
    the service operation [call], as computations on a world made of the
    tables of the database, the counter store, the object store and the log
    of the calls on the collaborators; then concurrent calls as schedules of
    their steps; then the properties the specification states. *)

From Stdlib Require Import ZArith String Ascii List Bool Lia Permutation.
From Stdlib Require Import DecimalString DecimalN.
Import ListNotations.

Local Open Scope string_scope.
Local Open Scope Z_scope.

(** ** JavaScript numbers and strings

    Numbers are integers ([Z]); every number the service prints or parses in
    the properties below is far under 2^53, where JavaScript's doubles are
    exact and [String(n)] is the plain decimal numeral. *)

Module Js.

(** [`${n}`] for an integer [n]. *)
Definition Number_toString (n : Z) : string :=
  match n with
  | Zneg p => "-" ++ NilEmpty.string_of_uint (N.to_uint (Npos p))
  | _ => NilEmpty.string_of_uint (N.to_uint (Z.to_N n))
  end.

(** [Number(s)] for a string of decimal digits; [None] stands for NaN. *)
Definition Number (s : string) : option Z :=
  option_map (fun d => Z.of_N (N.of_uint d)) (NilEmpty.uint_of_string s).

(** [s.slice(0, -1)]: the string without its last character. *)
Fixpoint slice_0_m1 (s : string) : string :=
  match s with
  | EmptyString => EmptyString
  | String _ EmptyString => EmptyString
  | String c s' => String c (slice_0_m1 s')
  end.

(** Truthiness of a string: every string but the empty one. *)
Definition truthy (s : string) : bool :=
  match s with EmptyString => false | _ => true end.

(** The class [\d] of a regular expression: the ASCII digits. *)
Definition isDigit (c : ascii) : bool :=
  ((48 <=? nat_of_ascii c) && (nat_of_ascii c <=? 57))%nat.

End Js.

(** ** Dates

    A [Date] is its time value, milliseconds since the epoch.  The setters
    the service uses work on local time; ECMA-262 defines them through
    [LocalTime(t) = t + LocalTZA(t, true)] and
    [UTC(t) = t - LocalTZA(t, false)], where [LocalTZA] is the offset of the
    process's time zone.  The time values of the service stay inside the
    range on which [TimeClip] is the identity. *)

Module JsDate.
Section WithTimeZone.

(** [LocalTZA(t, isUTC)]: the local offset in milliseconds at the UTC time
  [t] ([isUTC = true]) or at the local time [t] ([isUTC = false]). *)
Variable LocalTZA : Z -> bool -> Z.

Definition msPerSecond : Z := 1000.
Definition msPerMinute : Z := 60000.
Definition msPerHour : Z := 3600000.
Definition msPerDay : Z := 86400000.

Definition LocalTime (t : Z) : Z := t + LocalTZA t true.
Definition UTC (t : Z) : Z := t - LocalTZA t false.

(** [d.setDate(d.getDate() + k)].  [setDate(dt)] stores
  [UTC(MakeDate(MakeDay(Year(l), Month(l), dt), TimeWithinDay(l)))] for
  [l = LocalTime(t)]; [MakeDay] is linear in its day argument, so with
  [dt = DateFromTime(l) + k] the day is [Day(l) + k]. *)
Definition setDate_plus (k : Z) (t : Z) : Z := UTC (LocalTime t + k * msPerDay).

(** [d.setHours(d.getHours() + k)]: [MakeTime] is linear in the hour. *)
Definition setHours_plus (k : Z) (t : Z) : Z := UTC (LocalTime t + k * msPerHour).

(** [d.setMinutes(d.getMinutes() + k)]. *)
Definition setMinutes_plus (k : Z) (t : Z) : Z := UTC (LocalTime t + k * msPerMinute).

(** [d.setSeconds(d.getSeconds() + k)]. *)
Definition setSeconds_plus (k : Z) (t : Z) : Z := UTC (LocalTime t + k * msPerSecond).

End WithTimeZone.

(** A zone whose offset never changes, such as UTC. *)
Definition fixed_offset (LocalTZA : Z -> bool -> Z) : Prop :=
  exists c, forall t b, LocalTZA t b = c.

Definition utc_zone : Z -> bool -> Z := fun _ _ => 0.

(** Central European time around the change to summer time of 2026:
    at 2026-03-29T01:00:00Z the offset goes from one hour to two.  A local
    time in the skipped hour is read with the offset before the change. *)
Definition cet_change_2026 : Z := 1774746000000.
Definition europe_berlin : Z -> bool -> Z := fun t isUTC =>
  if isUTC
  then (if t <? cet_change_2026 then 3600000 else 7200000)
  else (if t <? cet_change_2026 + 7200000 then 3600000 else 7200000).

End JsDate.

(** ** The duration grammar *)

Section Durations.

Variable LocalTZA : Z -> bool -> Z.

(** The longest prefix of digits of a string, and what follows it. *)
Fixpoint span_digits (s : string) : string * string :=
  match s with
  | EmptyString => (EmptyString, EmptyString)
  | String c s' =>
      if Js.isDigit c
      then let (d, r) := span_digits s' in (String c d, r)
      else (EmptyString, s)
  end.

(** One optional group [(\d+u)?] of the pattern, matched at the head of
    [s]: the capture (digits and unit letter) and the rest of the string.
    Only the longest run of digits can be followed by the unit letter, so
    the greedy match is the only one; when it fails the group is skipped
    and matches the empty string. *)
Definition match_group (u : ascii) (s : string) : option string * string :=
  match span_digits s with
  | (String d ds, String c r) =>
      if Ascii.eqb c u then (Some (String d ds ++ String u EmptyString), r)
      else (None, s)
  | _ => (None, s)
  end.

(** [duration.match(/^(\d+w)?(\d+d)?(\d+h)?(\d+m)?(\d+s)?$/)]: the five
    captures [elements[1..5]], or [None] when the string does not match. *)
Definition duration_match (duration : string)
  : option (option string * option string * option string * option string * option string) :=
  let (e1, r1) := match_group "w" duration in
  let (e2, r2) := match_group "d" r1 in
  let (e3, r3) := match_group "h" r2 in
  let (e4, r4) := match_group "m" r3 in
  let (e5, r5) := match_group "s" r4 in
  match r5 with
  | EmptyString => Some (e1, e2, e3, e4, e5)
  | _ => None
  end.

(** One of the five blocks
    [if (elements[i]) { const v = Number(elements[i].slice(0, -1));
                        if (v >= 0) { result.setX(result.getX() + v); hasMatch = true; } }]
    on the pair [(result, hasMatch)]. *)
Definition add_element (setter : Z -> Z -> Z) (element : option string)
           (st : Z * bool) : Z * bool :=
  match element with
  | Some e =>
      if Js.truthy e then
        match Js.Number (Js.slice_0_m1 e) with
        | Some v => if 0 <=? v then (setter v (fst st), true) else st
        | None => st
        end
      else st
  | None => st
  end.

(** [parseNaturalLanguageDuration(duration)], with [now] the value of
    [new Date()]. *)
Definition parseNaturalLanguageDuration (now : Z) (duration : string) : option Z :=
  let st := (now, false) in
  let st :=
    match duration_match duration with
    | Some (e1, e2, e3, e4, e5) =>
        let st := add_element (fun weeks => JsDate.setDate_plus LocalTZA (7 * weeks)) e1 st in
        let st := add_element (JsDate.setDate_plus LocalTZA) e2 st in
        let st := add_element (JsDate.setHours_plus LocalTZA) e3 st in
        let st := add_element (JsDate.setMinutes_plus LocalTZA) e4 st in
        add_element (JsDate.setSeconds_plus LocalTZA) e5 st
    | None => st
    end in
  if snd st then Some (fst st) else None.

(** [stringifyDuration(seconds)] for a whole number of seconds: [%] is
    the remainder of the truncating division, [Math.floor(a / b)] the floor
    of the quotient.  The code computes on doubles: for whole numbers up to
    [2^53 - 1] its quotients, remainders and the numerals it prints are
    those of the integers, and what is proved of positive numbers is
    stated inside this range.  A number of seconds that is not whole is
    outside the model. *)
Definition stringifyDuration (seconds : Z) : option string :=
  if seconds <=? 0 then None
  else
    let units :=
      [ ("w", seconds / 604800);
        ("d", Z.rem seconds 604800 / 86400);
        ("h", Z.rem seconds 86400 / 3600);
        ("m", Z.rem seconds 3600 / 60);
        ("s", Z.rem seconds 60) ] in
    Some (String.concat EmptyString
            (map (fun e : string * Z => Js.Number_toString (snd e) ++ fst e)
                 (filter (fun e : string * Z => negb (snd e =? 0)) units))).

End Durations.

(** ** The data model *)

Inductive EnvironmentType := DEVELOPMENT | PRODUCTION | STAGING | PREVIEW.

Definition EnvironmentType_eqb (a b : EnvironmentType) : bool :=
  match a, b with
  | DEVELOPMENT, DEVELOPMENT | PRODUCTION, PRODUCTION
  | STAGING, STAGING | PREVIEW, PREVIEW => true
  | _, _ => false
  end.

Record AuthenticatedEnvironment := {
  env_id : string;
  env_type : EnvironmentType;
  env_projectId : string;
  env_organizationId : string
}.

(** A value of type [any] (payload, metadata, context).  The service only
    asks whether it is a string, whether it is truthy, and for its JSON text;
    a value that is not a string is carried with that text. *)
Inductive JsValue :=
| JsUndefined
| JsString (s : string)
| JsOther (json : string).

Definition JsValue_truthy (v : JsValue) : bool :=
  match v with
  | JsUndefined => false
  | JsString s => Js.truthy s
  | JsOther json =>
      negb (String.eqb json "null" || String.eqb json "false" || String.eqb json "0")
  end.

Record IOPacket := {
  data : option string;
  dataType : string
}.

Record QueueOptions := {
  queue_name : option string;
  queue_concurrencyLimit : option Z
}.

Inductive Ttl := TtlNumber (seconds : Z) | TtlString (s : string).
Inductive Tags := TagsString (tag : string) | TagsArray (tags : list string).
Inductive Delay := DelayString (s : string) | DelayDate (time : Z).

(** [TriggerTaskRequestBody["options"]]. *)
Record RequestOptions := {
  opt_idempotencyKey : option string;
  opt_delay : option Delay;
  opt_ttl : option Ttl;
  opt_tags : option Tags;
  opt_metadata : option JsValue;
  opt_metadataType : option string;
  opt_payloadType : option string;
  opt_concurrencyKey : option string;
  opt_queue : option QueueOptions;
  opt_lockToVersion : option string;
  opt_maxAttempts : option Z;
  opt_test : option bool;
  opt_dependentAttempt : option string;
  opt_parentAttempt : option string;
  opt_dependentBatch : option string;
  opt_parentBatch : option string
}.

Record TriggerTaskRequestBody := {
  body_payload : JsValue;
  body_context : option JsValue;
  body_options : option RequestOptions
}.

Inductive ParentAsLinkType := replay | trigger.

Record TriggerTaskServiceOptions := {
  so_idempotencyKey : option string;
  so_triggerVersion : option string;
  so_traceContext : option string;
  so_spanParentAsLink : option bool;
  so_parentAsLinkType : option ParentAsLinkType;
  so_batchId : option string;
  so_customIcon : option string
}.

(** The columns of a run that the lookups of attempts and batches select. *)
Record TaskRunJoin := {
  tr_id : string;
  tr_status : string;
  tr_taskIdentifier : string;
  tr_rootTaskRunId : option string;
  tr_depth : Z
}.

Record TaskRunAttempt := {
  att_friendlyId : string;
  att_status : string;
  att_taskRun : TaskRunJoin
}.

Record BatchTaskRun := {
  batch_id : string;
  batch_friendlyId : string;
  batch_status : string;
  batch_dependentTaskAttempt : option TaskRunAttempt
}.

Record BackgroundWorker := {
  worker_id : string;
  worker_projectId : string;
  worker_runtimeEnvironmentId : string;
  worker_version : string
}.

(** What [QueueOptions.optional().nullable().safeParse(task.queueConfig)]
    makes of the stored configuration. *)
Inductive QueueConfigParse :=
| ParseFailure
| ParseNullish
| ParseSuccess (config : QueueOptions).

Record BackgroundWorkerTask := {
  bwt_workerId : string;
  bwt_slug : string;
  bwt_queueConfig : QueueConfigParse
}.

Record TaskRunNumberCounter := {
  cnt_taskIdentifier : string;
  cnt_environmentId : string;
  cnt_lastNumber : Z
}.

(** The object handed to [engine.trigger]; a run row keeps these fields. *)
Record TaskRun := {
  number : Z;
  friendlyId : string;
  environment : AuthenticatedEnvironment;
  idempotencyKey : option string;
  taskIdentifier : string;
  payload : string;
  payloadType : string;
  context : option JsValue;
  traceContext : option string;
  traceId : string;
  spanId : string;
  parentSpanId : option string;
  lockedToVersionId : option string;
  concurrencyKey : option string;
  queueName : string;
  queue : option QueueOptions;
  masterQueue : string;
  isTest : bool;
  delayUntil : option Z;
  queuedAt : option Z;
  maxAttempts : option Z;
  ttl : option string;
  tags : list string;
  parentTaskRunId : option string;
  rootTaskRunId : option string;
  batchId : option string;
  resumeParentOnCompletion : bool;
  depth : Z;
  metadata : option string;
  metadataType : option string;
  seedMetadata : option string;
  seedMetadataType : option string
}.

(** The calls the service makes on its collaborators, in the order made. *)
Inductive Effect :=
| span_setAttribute (key value : string)
| getEntitlement_call (organizationId : string)
| uploadToObjectStore_call (filename body contentType environmentId : string)
| traceEvent_call (taskSlug icon : string) (runIsTest : bool)
                  (batch idempotency : option string)
| event_setAttribute (key value : string)
| incrementInTransaction_call (key : string)
| createTag_call (tag projectId : string)
| engine_trigger_call (run : TaskRun).

Record StoredObject := {
  obj_filename : string;
  obj_body : string;
  obj_contentType : string
}.

(** The database, the counter store, the object store and the trace of
    collaborator calls; [clock] is the time the next reading of the clock
    shows. *)
Record World := {
  taskRun : list TaskRun;
  taskRunAttempt : list TaskRunAttempt;
  batchTaskRun : list BatchTaskRun;
  backgroundWorker : list BackgroundWorker;
  backgroundWorkerTask : list BackgroundWorkerTask;
  taskRunNumberCounter : list TaskRunNumberCounter;
  counters : list (string * Z);
  objectStore : list StoredObject;
  clock : Z;
  generated : nat;
  log : list Effect
}.

Definition with_taskRun (f : list TaskRun -> list TaskRun) (w : World) : World :=
  {| taskRun := f (taskRun w); taskRunAttempt := taskRunAttempt w;
     batchTaskRun := batchTaskRun w; backgroundWorker := backgroundWorker w;
     backgroundWorkerTask := backgroundWorkerTask w;
     taskRunNumberCounter := taskRunNumberCounter w; counters := counters w;
     objectStore := objectStore w; clock := clock w; generated := generated w;
     log := log w |}.

Definition with_counters (f : list (string * Z) -> list (string * Z)) (w : World) : World :=
  {| taskRun := taskRun w; taskRunAttempt := taskRunAttempt w;
     batchTaskRun := batchTaskRun w; backgroundWorker := backgroundWorker w;
     backgroundWorkerTask := backgroundWorkerTask w;
     taskRunNumberCounter := taskRunNumberCounter w; counters := f (counters w);
     objectStore := objectStore w; clock := clock w; generated := generated w;
     log := log w |}.

Definition with_objectStore (f : list StoredObject -> list StoredObject) (w : World) : World :=
  {| taskRun := taskRun w; taskRunAttempt := taskRunAttempt w;
     batchTaskRun := batchTaskRun w; backgroundWorker := backgroundWorker w;
     backgroundWorkerTask := backgroundWorkerTask w;
     taskRunNumberCounter := taskRunNumberCounter w; counters := counters w;
     objectStore := f (objectStore w); clock := clock w; generated := generated w;
     log := log w |}.

Definition with_generated (f : nat -> nat) (w : World) : World :=
  {| taskRun := taskRun w; taskRunAttempt := taskRunAttempt w;
     batchTaskRun := batchTaskRun w; backgroundWorker := backgroundWorker w;
     backgroundWorkerTask := backgroundWorkerTask w;
     taskRunNumberCounter := taskRunNumberCounter w; counters := counters w;
     objectStore := objectStore w; clock := clock w; generated := f (generated w);
     log := log w |}.

Definition with_clock (f : Z -> Z) (w : World) : World :=
  {| taskRun := taskRun w; taskRunAttempt := taskRunAttempt w;
     batchTaskRun := batchTaskRun w; backgroundWorker := backgroundWorker w;
     backgroundWorkerTask := backgroundWorkerTask w;
     taskRunNumberCounter := taskRunNumberCounter w; counters := counters w;
     objectStore := objectStore w; clock := f (clock w); generated := generated w;
     log := log w |}.

Definition with_log (f : list Effect -> list Effect) (w : World) : World :=
  {| taskRun := taskRun w; taskRunAttempt := taskRunAttempt w;
     batchTaskRun := batchTaskRun w; backgroundWorker := backgroundWorker w;
     backgroundWorkerTask := backgroundWorkerTask w;
     taskRunNumberCounter := taskRunNumberCounter w; counters := counters w;
     objectStore := objectStore w; clock := clock w; generated := generated w;
     log := f (log w) |}.

(** ** Errors and the service monad *)

Inductive ServiceError :=
| OutOfEntitlementError
| ServiceValidationError (message : string)
| CollaboratorError (message : string).

(** An [async] computation of the service: it reads and changes the world
    and either returns or throws. *)
Definition M (A : Type) : Type := World -> (ServiceError + A) * World.

Definition ret {A} (a : A) : M A := fun w => (inr a, w).
Definition throw {A} (e : ServiceError) : M A := fun w => (inl e, w).
Definition bind {A B} (m : M A) (k : A -> M B) : M B :=
  fun w => match m w with
           | (inr a, w') => k a w'
           | (inl e, w') => (inl e, w')
           end.
Definition gets {A} (f : World -> A) : M A := fun w => (inr (f w), w).
Definition modify (f : World -> World) : M unit := fun w => (inr tt, f w).
Definition emit (e : Effect) : M unit := modify (with_log (fun l => (l ++ [e])%list)).

Declare Scope service_scope.
Delimit Scope service_scope with service.
Notation "x <- m ;; k" := (bind m (fun x => k))
  (at level 100, m at next level, right associativity) : service_scope.
Notation "m ;;; k" := (bind m (fun _ => k))
  (at level 100, right associativity) : service_scope.
Local Open Scope service_scope.

(** [for (const x of l) { ... }] collecting what each round pushes. *)
Fixpoint for_each {A B} (f : A -> M (option B)) (l : list A) : M (list B) :=
  match l with
  | [] => ret []
  | x :: l' =>
      r <- f x ;;
      rs <- for_each f l' ;;
      ret (match r with Some b => b :: rs | None => rs end)
  end.

(** [a ?? b]. *)
Definition nullish {A} (a b : option A) : option A :=
  match a with Some _ => a | None => b end.

(** [body.options?.field]. *)
Definition option_field {A} (body : TriggerTaskRequestBody)
           (field : RequestOptions -> option A) : option A :=
  match body_options body with Some o => field o | None => None end.

(** ** Collaborators

    What the service imports and this file does not contain: each is taken
    as it is called, a function of its arguments.  [Date_next] is the
    passage of time: what the clock shows at the reading that follows a
    reading. *)

Record TagRecord := { tag_id : string }.
Record Entitlement := { hasAccess : bool }.

(** The event and trace context [eventRepository.traceEvent] hands to its
    callback. *)
Record TraceEvent := {
  ev_traceId : string;
  ev_spanId : string;
  ev_traceContext : option string;
  ev_traceparent_spanId : option string
}.

Record Collaborators := {
  LocalTZA : Z -> bool -> Z;
  Date_parse : string -> option Z;
  Date_next : Z -> Z;
  JSON_quote : string -> string;
  TASK_PAYLOAD_OFFLOAD_THRESHOLD : Z;
  packetRequiresOffloading : IOPacket -> Z -> bool * Z;
  handleMetadataPacket : JsValue -> string -> option IOPacket;
  isFinalAttemptStatus : string -> bool;
  isFinalRunStatus : string -> bool;
  getEntitlement : string -> option Entitlement;
  generateFriendlyId : string -> nat -> string;
  sanitizeQueueName : string -> string;
  findCurrentWorkerFromEnvironment : AuthenticatedEnvironment -> option BackgroundWorker;
  createTag : string -> string -> option TagRecord;
  startEvent : option string -> nat -> TraceEvent
}.

(** Modelled from the spec: the constant [MAX_TAGS_PER_RUN] of
    [~/models/taskRunTag.server], which the specification gives as 8. *)
Definition MAX_TAGS_PER_RUN : Z := 8.

(** The local variables of [call] that the callbacks of the tracing and
    counter envelopes close over. *)
Record Prepared := {
  p_idempotencyKey : option string;
  p_delayUntil : option Z;
  p_ttl : option string;
  p_runFriendlyId : string;
  p_payloadPacket : IOPacket;
  p_metadataPacket : option IOPacket;
  p_dependentAttempt : option TaskRunAttempt;
  p_parentAttempt : option TaskRunAttempt;
  p_dependentBatchRun : option BatchTaskRun;
  p_parentBatchRun : option BatchTaskRun
}.

(** How the part of [call] above the tracing envelope ends when it does not
    throw: with the run of the idempotency gate, or ready to create one. *)
Inductive Prepare :=
| ExistingRun (run : TaskRun)
| Proceed (p : Prepared).

Section Service.

Variable C : Collaborators.

(** [new Date()] and [Date.now()]: the time the clock shows.  Time passes
    between two readings: after a reading [t] the clock shows
    [Date_next C t], of which nothing is assumed. *)
Definition Date_now : M Z :=
  now <- gets clock ;;
  modify (with_clock (Date_next C)) ;;;
  ret now.

(** [parseDelay(value)], with [now] the value of [Date.now()]. *)
Definition parseDelay (now : Z) (value : option Delay) : option Z :=
  match value with
  | None => None
  | Some (DelayDate time) => Some time
  | Some (DelayString s) =>
      if negb (Js.truthy s) then None
      else
        match Date_parse C s with
        | None => parseNaturalLanguageDuration (LocalTZA C) now s
        | Some time => if time <=? now then None else Some time
        end
  end.

(** [await parseDelay(value)] as [call] runs it: the clock is read once,
    when the value is a string that is not empty ([Date.now()] of line 497
    or [new Date()] of line 510), and not otherwise. *)
Definition parseDelay_call (value : option Delay) : M (option Z) :=
  match value with
  | Some (DelayString s) =>
      if Js.truthy s
      then now <- Date_now ;; ret (parseDelay now value)
      else ret None
  | Some (DelayDate time) => ret (Some time)
  | None => ret None
  end.

(** [JSON.stringify(v)]: nothing for [undefined], the quoted string for a
    string, the JSON text otherwise. *)
Definition JSON_stringify (v : JsValue) : option string :=
  match v with
  | JsUndefined => None
  | JsString s => Some (JSON_quote C s)
  | JsOther json => Some json
  end.

(** [#createPayloadPacket(payload, payloadType)]. *)
Definition createPayloadPacket (payload : JsValue) (payloadType : string) : IOPacket :=
  if String.eqb payloadType "application/json"
  then {| data := JSON_stringify payload; dataType := "application/json" |}
  else
    match payload with
    | JsString s => {| data := Some s; dataType := payloadType |}
    | _ => {| data := None; dataType := payloadType |}
    end.

(** Modelled from the spec: [uploadToObjectStore] of [../r2.server],
    [objectStore.upload(filename, bytes, contentType, environment)]: the
    object is stored under the file name. *)
Definition uploadToObjectStore (filename body contentType : string)
           (env : AuthenticatedEnvironment) : M unit :=
  emit (uploadToObjectStore_call filename body contentType (env_id env)) ;;;
  modify (with_objectStore (fun l =>
    (l ++ [ {| obj_filename := filename; obj_body := body;
               obj_contentType := contentType |} ])%list)).

(** [#handlePayloadPacket(payload, payloadType, pathPrefix, environment)]. *)
Definition handlePayloadPacket (payload : JsValue) (payloadType pathPrefix : string)
           (env : AuthenticatedEnvironment) : M IOPacket :=
  let packet := createPayloadPacket payload payloadType in
  match data packet with
  | None => ret packet
  | Some packet_data =>
      if negb (Js.truthy packet_data) then ret packet
      else
        let (needsOffloading, size) :=
          packetRequiresOffloading C packet (TASK_PAYLOAD_OFFLOAD_THRESHOLD C) in
        if negb needsOffloading then ret packet
        else
          let filename := pathPrefix ++ "/payload.json" in
          uploadToObjectStore filename packet_data (dataType packet) env ;;;
          ret {| data := Some filename; dataType := "application/store" |}
  end.

(** [prisma.taskRun.findUnique] on the unique key
    [runtimeEnvironmentId_taskIdentifier_idempotencyKey]. *)
Definition same_idempotency (runtimeEnvironmentId key taskId : string)
           (r : TaskRun) : bool :=
  String.eqb (env_id (environment r)) runtimeEnvironmentId
  && String.eqb (taskIdentifier r) taskId
  && match idempotencyKey r with
     | Some k => String.eqb k key
     | None => false
     end.

Definition taskRun_findUnique (runtimeEnvironmentId key taskId : string)
  : M (option TaskRun) :=
  gets (fun w => find (same_idempotency runtimeEnvironmentId key taskId) (taskRun w)).

Definition taskRunAttempt_findUnique (friendly : string) : M (option TaskRunAttempt) :=
  gets (fun w => find (fun a => String.eqb (att_friendlyId a) friendly)
                      (taskRunAttempt w)).

Definition batchTaskRun_findUnique (friendly : string) : M (option BatchTaskRun) :=
  gets (fun w => find (fun b => String.eqb (batch_friendlyId b) friendly)
                      (batchTaskRun w)).

Definition backgroundWorker_findUnique (projectId runtimeEnvironmentId version : string)
  : M (option BackgroundWorker) :=
  gets (fun w => find (fun b => String.eqb (worker_projectId b) projectId
                                && String.eqb (worker_runtimeEnvironmentId b) runtimeEnvironmentId
                                && String.eqb (worker_version b) version)
                      (backgroundWorker w)).

Definition backgroundWorkerTask_findUnique (workerId slug : string)
  : M (option BackgroundWorkerTask) :=
  gets (fun w => find (fun t => String.eqb (bwt_workerId t) workerId
                                && String.eqb (bwt_slug t) slug)
                      (backgroundWorkerTask w)).

Definition taskRunNumberCounter_findUnique (taskId environmentId : string)
  : M (option TaskRunNumberCounter) :=
  gets (fun w => find (fun c => String.eqb (cnt_taskIdentifier c) taskId
                                && String.eqb (cnt_environmentId c) environmentId)
                      (taskRunNumberCounter w)).

(** [x ? await findUnique(x) : undefined] for a reference by friendly id. *)
Definition lookup_reference {A} (reference : option string)
           (findUnique : string -> M (option A)) : M (option A) :=
  match reference with
  | Some friendly => if Js.truthy friendly then findUnique friendly else ret None
  | None => ret None
  end.

(** The check on a dependent attempt (of the request or of its batch):
    throw when the attempt or its run is in a final status. *)
Definition check_not_terminal (taskId : string) (attempt : TaskRunAttempt) : M unit :=
  if isFinalAttemptStatus C (att_status attempt)
     || isFinalRunStatus C (tr_status (att_taskRun attempt))
  then
    if isFinalAttemptStatus C (att_status attempt)
    then throw (ServiceValidationError
                  ("Cannot trigger " ++ taskId
                   ++ " as the parent attempt has a status of " ++ att_status attempt))
    else throw (ServiceValidationError
                  ("Cannot trigger " ++ taskId
                   ++ " as the parent run has a status of "
                   ++ tr_status (att_taskRun attempt)))
  else ret tt.

(** [#getQueueName(taskId, environment, queueName)]. *)
Definition getQueueName (taskId : string) (env : AuthenticatedEnvironment)
           (queueName : option string) : M string :=
  let defaultQueueName := "task/" ++ taskId in
  let fromWorker : M string :=
    match findCurrentWorkerFromEnvironment C env with
    | None => ret defaultQueueName
    | Some worker =>
        task <- backgroundWorkerTask_findUnique (worker_id worker) taskId ;;
        match task with
        | None => ret defaultQueueName
        | Some task =>
            match bwt_queueConfig task with
            | ParseFailure => ret defaultQueueName
            | ParseNullish => ret defaultQueueName
            | ParseSuccess config =>
                ret (match queue_name config with
                     | Some n => n
                     | None => defaultQueueName
                     end)
            end
        end
    end in
  match queueName with
  | Some name => if Js.truthy name then ret name else fromWorker
  | None => fromWorker
  end.

(** Modelled from the spec: [engine.trigger(runShape, tx)] of
    [../runEngine.server] persists the run row and returns it.  The table
    is unique on [(environmentId, taskIdentifier, idempotencyKey)] for a
    key that is not null; an insert that breaks it throws. *)
Definition engine_trigger (run : TaskRun) : M TaskRun :=
  emit (engine_trigger_call run) ;;;
  clash <- match idempotencyKey run with
           | Some key => gets (fun w => existsb (same_idempotency
                                  (env_id (environment run)) key (taskIdentifier run))
                                  (taskRun w))
           | None => ret false
           end ;;
  if clash : bool
  then throw (CollaboratorError "Unique constraint failed")
  else modify (with_taskRun (fun l => (l ++ [run])%list)) ;;; ret run.

(** The counter store of [autoIncrementCounter]. *)
Fixpoint counter_get (key : string) (m : list (string * Z)) : option Z :=
  match m with
  | [] => None
  | (k, v) :: m' => if String.eqb k key then Some v else counter_get key m'
  end.

Fixpoint counter_set (key : string) (v : Z) (m : list (string * Z)) : list (string * Z) :=
  match m with
  | [] => [(key, v)]
  | (k, v') :: m' =>
      if String.eqb k key then (k, v) :: m' else (k, v') :: counter_set key v m'
  end.

(** What a transaction that throws leaves behind: the rows of the
    database as they were, the calls made and the objects stored as they
    are. *)
Definition rollback (before after : World) : World :=
  with_counters (fun _ => counters before)
    (with_taskRun (fun _ => taskRun before) after).

(** Modelled from the spec: [autoIncrementCounter.incrementInTransaction
    (key, callback, deriveInitial, tx)] of
    [~/services/autoIncrementCounter.server].  It runs [callback(num, tx)]
    once with [num = lastNumber + 1] and commits the counter together with
    the work of the callback; [deriveInitial] gives [lastNumber] when the
    counter is first seeded.  This is the operation as one call runs
    through it; what concurrent callers of one key do to each other is in
    the steps of the pool of calls below. *)
Definition incrementInTransaction {A} (key : string) (callback : Z -> M A)
           (deriveInitial : M (option Z)) : M A :=
  emit (incrementInTransaction_call key) ;;;
  fun before =>
    (row <- gets (fun w => counter_get key (counters w)) ;;
     lastNumber <- match row with
                   | Some n => ret n
                   | None =>
                       initial <- deriveInitial ;;
                       ret (match initial with Some n => n | None => 0 end)
                   end ;;
     let num := lastNumber + 1 in
     fun w =>
       match (result <- callback num ;;
              modify (with_counters (counter_set key num)) ;;;
              ret result) w with
       | (inr result, after) => (inr result, after)
       | (inl e, after) => (inl e, rollback before after)
       end) before.

(** Modelled from the spec: [eventRepository.traceEvent(taskSlug, opts,
    body)] creates one server-kind event and runs [body(event,
    traceContext, traceparent)]. *)
Definition traceEvent {A} (taskSlug : string) (traceCtx : option string)
           (icon : string) (runIsTest : bool) (batch idempotency : option string)
           (callback : TraceEvent -> M A) : M A :=
  n <- gets generated ;;
  modify (with_generated S) ;;;
  emit (traceEvent_call taskSlug icon runIsTest batch idempotency) ;;;
  callback (startEvent C traceCtx n).

(** [generateFriendlyId("run")]: a fresh identifier at every call. *)
Definition generateFriendlyId_run : M string :=
  n <- gets generated ;;
  modify (with_generated S) ;;;
  ret (generateFriendlyId C "run" n).

Section Call.

Variable taskId : string.
Variable env : AuthenticatedEnvironment.
Variable body : TriggerTaskRequestBody.
Variable options : TriggerTaskServiceOptions.

(** Lines 64 to 239 of [call]: everything above the tracing envelope.
    The span that [traceWithEnv] opens and its attribute [taskId] (lines
    61 and 62, before the lookup) and the span that [startActiveSpan]
    opens around [#handlePayloadPacket] (line 440) are tracing only: the
    log of collaborator calls starts at the lookup and does not record
    them. *)
Definition call_prepare : M Prepare :=
  let idempotencyKey := nullish (so_idempotencyKey options)
                                (option_field body opt_idempotencyKey) in
  delayUntil <- parseDelay_call (option_field body opt_delay) ;;
  let ttl :=
    match option_field body opt_ttl with
    | Some (TtlNumber seconds) => stringifyDuration seconds
    | Some (TtlString s) => Some s
    | None =>
        if EnvironmentType_eqb (env_type env) DEVELOPMENT then Some "10m" else None
    end in
  existingRun <- match idempotencyKey with
                 | Some key =>
                     if Js.truthy key
                     then taskRun_findUnique (env_id env) key taskId
                     else ret None
                 | None => ret None
                 end ;;
  match existingRun with
  | Some existingRun =>
      emit (span_setAttribute "runId" (friendlyId existingRun)) ;;;
      ret (ExistingRun existingRun)
  | None =>
      (if negb (EnvironmentType_eqb (env_type env) DEVELOPMENT)
       then
         emit (getEntitlement_call (env_organizationId env)) ;;;
         match getEntitlement C (env_organizationId env) with
         | Some result =>
             if negb (hasAccess result) then throw OutOfEntitlementError else ret tt
         | None => ret tt
         end
       else ret tt) ;;;
      match option_field body opt_tags with
      | Some (TagsArray tags) =>
          if MAX_TAGS_PER_RUN <? Z.of_nat (length tags)
          then throw (ServiceValidationError
                        ("Runs can only have " ++ Js.Number_toString MAX_TAGS_PER_RUN
                         ++ " tags, you're trying to set "
                         ++ Js.Number_toString (Z.of_nat (length tags)) ++ "."))
          else ret tt
      | _ => ret tt
      end ;;;
      runFriendlyId <- generateFriendlyId_run ;;
      payloadPacket <- handlePayloadPacket (body_payload body)
                         (match option_field body opt_payloadType with
                          | Some t => t
                          | None => "application/json"
                          end)
                         runFriendlyId env ;;
      let metadataPacket :=
        match option_field body opt_metadata with
        | Some metadata =>
            if JsValue_truthy metadata
            then handleMetadataPacket C metadata
                   (match option_field body opt_metadataType with
                    | Some t => t
                    | None => "application/json"
                    end)
            else None
        | None => None
        end in
      dependentAttempt <- lookup_reference (option_field body opt_dependentAttempt)
                                           taskRunAttempt_findUnique ;;
      match dependentAttempt with
      | Some attempt => check_not_terminal taskId attempt
      | None => ret tt
      end ;;;
      parentAttempt <- lookup_reference (option_field body opt_parentAttempt)
                                        taskRunAttempt_findUnique ;;
      dependentBatchRun <- lookup_reference (option_field body opt_dependentBatch)
                                            batchTaskRun_findUnique ;;
      match dependentBatchRun with
      | Some batch =>
          match batch_dependentTaskAttempt batch with
          | Some attempt => check_not_terminal taskId attempt
          | None => ret tt
          end
      | None => ret tt
      end ;;;
      parentBatchRun <- lookup_reference (option_field body opt_parentBatch)
                                         batchTaskRun_findUnique ;;
      ret (Proceed {| p_idempotencyKey := idempotencyKey;
                      p_delayUntil := delayUntil;
                      p_ttl := ttl;
                      p_runFriendlyId := runFriendlyId;
                      p_payloadPacket := payloadPacket;
                      p_metadataPacket := metadataPacket;
                      p_dependentAttempt := dependentAttempt;
                      p_parentAttempt := parentAttempt;
                      p_dependentBatchRun := dependentBatchRun;
                      p_parentBatchRun := parentBatchRun |})
  end.

(** The depth of the new run, lines 308 to 314. *)
Definition run_depth (p : Prepared) : Z :=
  match p_dependentAttempt p with
  | Some dependentAttempt => tr_depth (att_taskRun dependentAttempt) + 1
  | None =>
      match p_parentAttempt p with
      | Some parentAttempt => tr_depth (att_taskRun parentAttempt) + 1
      | None =>
          match p_dependentBatchRun p with
          | Some batch =>
              match batch_dependentTaskAttempt batch with
              | Some attempt => tr_depth (att_taskRun attempt) + 1
              | None => 0
              end
          | None => 0
          end
      end
  end.

(** The callback of the counter envelope, lines 267 to 360. *)
Definition create_run (p : Prepared) (event : TraceEvent) (num : Z) : M TaskRun :=
  lockedToBackgroundWorker <-
    match option_field body opt_lockToVersion with
    | Some version =>
        if Js.truthy version
        then backgroundWorker_findUnique (env_projectId env) (env_id env) version
        else ret None
    | None => ret None
    end ;;
  name <- getQueueName taskId env
            (match option_field body opt_queue with
             | Some q => queue_name q
             | None => None
             end) ;;
  let queueName := sanitizeQueueName C name in
  let queueName := if Js.truthy queueName then queueName
                   else sanitizeQueueName C ("task/" ++ taskId) in
  emit (event_setAttribute "queueName" queueName) ;;;
  emit (span_setAttribute "queueName" queueName) ;;;
  let bodyTags :=
    match option_field body opt_tags with
    | Some (TagsString tag) => Some [tag]
    | Some (TagsArray tags) => Some tags
    | None => None
    end in
  tagIds <- match bodyTags with
            | Some bodyTags =>
                for_each (fun tag =>
                  emit (createTag_call tag (env_projectId env)) ;;;
                  ret (option_map tag_id (createTag C tag (env_projectId env))))
                  bodyTags
            | None => ret []
            end ;;
  let depth := run_depth p in
  emit (event_setAttribute "runId" (p_runFriendlyId p)) ;;;
  emit (span_setAttribute "runId" (p_runFriendlyId p)) ;;;
  queuedAt <- match p_delayUntil p with
              | Some _ => ret None
              | None => now <- Date_now ;; ret (Some now)
              end ;;
  engine_trigger
    {| number := num;
       friendlyId := p_runFriendlyId p;
       environment := env;
       idempotencyKey := p_idempotencyKey p;
       taskIdentifier := taskId;
       payload := match data (p_payloadPacket p) with Some d => d | None => EmptyString end;
       payloadType := dataType (p_payloadPacket p);
       context := body_context body;
       traceContext := ev_traceContext event;
       traceId := ev_traceId event;
       spanId := ev_spanId event;
       parentSpanId :=
         match so_parentAsLinkType options with
         | Some replay => None
         | _ => ev_traceparent_spanId event
         end;
       lockedToVersionId := option_map worker_id lockedToBackgroundWorker;
       concurrencyKey := option_field body opt_concurrencyKey;
       queueName := queueName;
       queue := option_field body opt_queue;
       masterQueue := "main";
       isTest := match option_field body opt_test with Some b => b | None => false end;
       delayUntil := p_delayUntil p;
       queuedAt := queuedAt;
       maxAttempts := option_field body opt_maxAttempts;
       ttl := p_ttl p;
       tags := tagIds;
       parentTaskRunId := option_map (fun a => tr_id (att_taskRun a)) (p_parentAttempt p);
       rootTaskRunId :=
         match p_parentAttempt p with
         | Some a => nullish (tr_rootTaskRunId (att_taskRun a))
                             (Some (tr_id (att_taskRun a)))
         | None => None
         end;
       batchId := nullish (option_map batch_id (p_dependentBatchRun p))
                          (option_map batch_id (p_parentBatchRun p));
       resumeParentOnCompletion :=
         match nullish (option_map (fun _ => tt) (p_dependentAttempt p))
                       (option_map (fun _ => tt) (p_dependentBatchRun p)) with
         | Some _ => true
         | None => false
         end;
       depth := depth;
       metadata := match p_metadataPacket p with Some m => data m | None => None end;
       metadataType := option_map dataType (p_metadataPacket p);
       seedMetadata := match p_metadataPacket p with Some m => data m | None => None end;
       seedMetadataType := option_map dataType (p_metadataPacket p) |}.

(** [deriveInitial], lines 361 to 373. *)
Definition deriveInitial : M (option Z) :=
  counter <- taskRunNumberCounter_findUnique taskId (env_id env) ;;
  ret (option_map cnt_lastNumber counter).

Definition counter_key : string := "v3-run:" ++ env_id env ++ ":" ++ taskId.

(** Lines 241 to 379 of [call]: the tracing and counter envelopes. *)
Definition call_persist (p : Prepared) : M TaskRun :=
  traceEvent taskId (so_traceContext options)
    (match so_customIcon options with Some icon => icon | None => "task" end)
    (match option_field body opt_test with Some b => b | None => false end)
    (so_batchId options) (p_idempotencyKey p)
    (fun event =>
       incrementInTransaction counter_key (create_run p event) deriveInitial).

(** [TriggerTaskServiceV2.call({ taskId, environment, body, options })]. *)
Definition call : M TaskRun :=
  prepared <- call_prepare ;;
  match prepared with
  | ExistingRun existingRun => ret existingRun
  | Proceed p => call_persist p
  end.

End Call.

End Service.

(** ** The text of a duration *)

(** The decimal numeral of a number of units. *)
Definition numeral (v : Z) : string := Js.Number_toString v.

(** The text of one unit in [stringifyDuration]: nothing for zero. *)
Definition piece (u : ascii) (v : Z) : string :=
  if v =? 0 then EmptyString else numeral v ++ String u EmptyString.

(** What the group of a unit captures in that text. *)
Definition capture (u : ascii) (v : Z) : option string :=
  if v =? 0 then None else Some (numeral v ++ String u EmptyString).

(** ** Concurrent calls

    Calls run concurrently as cooperative tasks; a schedule picks, step
    after step, the call that runs next.  A call is suspended after the part
    above the tracing envelope, after it has opened the tracing envelope and
    asked for the counter, and, once it holds the row of the counter, before
    the callback of the counter envelope runs and commits. *)

Record Request := {
  req_taskId : string;
  req_environment : AuthenticatedEnvironment;
  req_body : TriggerTaskRequestBody;
  req_options : TriggerTaskServiceOptions
}.

Inductive Thread :=
| Waiting (rq : Request)
| Ready (rq : Request) (p : Prepared)
| Queued (rq : Request) (p : Prepared) (event : TraceEvent)
| Locked (rq : Request) (p : Prepared) (event : TraceEvent) (num : Z)
| Existing (rq : Request) (run : TaskRun)
| Created (rq : Request) (run : TaskRun)
| Thrown (rq : Request) (e : ServiceError).

Definition thread_request (t : Thread) : Request :=
  match t with
  | Waiting rq | Ready rq _ | Queued rq _ _ | Locked rq _ _ _
  | Existing rq _ | Created rq _ | Thrown rq _ => rq
  end.

Section Pool.

Variable C : Collaborators.

(** The key of the counter of a request, line 266. *)
Definition request_key (rq : Request) : string :=
  counter_key (req_taskId rq) (req_environment rq).

(** Modelled from the spec: the start of [eventRepository.traceEvent],
    which creates the event of the call (lines 241 to 264), followed by
    the call of [incrementInTransaction] that its callback makes (lines 265
    and 266). *)
Definition open_envelopes (rq : Request) (p : Prepared) : M TraceEvent :=
  n <- gets generated ;;
  modify (with_generated S) ;;;
  emit (traceEvent_call (req_taskId rq)
          (match so_customIcon (req_options rq) with
           | Some icon => icon
           | None => "task"
           end)
          (match option_field (req_body rq) opt_test with
           | Some b => b
           | None => false
           end)
          (so_batchId (req_options rq)) (p_idempotencyKey p)) ;;;
  emit (incrementInTransaction_call (request_key rq)) ;;;
  ret (startEvent C (so_traceContext (req_options rq)) n).

(** Modelled from the spec: the transaction of [incrementInTransaction],
    which is not under [src/], as section 5 describes it: a row-level lock
    on the counter row, then the increment within the caller's
    transaction.  With the lock of the key the caller reads [lastNumber],
    from the counter or, when the counter is not seeded, from
    [deriveInitial]; its number is the next one. *)
Definition read_counter (rq : Request) : M Z :=
  row <- gets (fun w => counter_get (request_key rq) (counters w)) ;;
  lastNumber <- match row with
                | Some n => ret n
                | None =>
                    initial <- deriveInitial (req_taskId rq) (req_environment rq) ;;
                    ret (match initial with Some n => n | None => 0 end)
                end ;;
  ret (lastNumber + 1).

(** Modelled from the spec: the callback runs with the number and the
    counter takes the number, committed together; when the callback throws
    the transaction writes nothing. *)
Definition commit (rq : Request) (p : Prepared) (event : TraceEvent) (num : Z)
  : M TaskRun :=
  fun before =>
    match (result <- create_run C (req_taskId rq) (req_environment rq)
                       (req_body rq) (req_options rq) p event num ;;
           modify (with_counters (counter_set (request_key rq) num)) ;;;
           ret result) before with
    | (inr result, after) => (inr result, after)
    | (inl e, after) => (inl e, rollback before after)
    end.

(** Modelled from the spec: the row-level locks of section 5, as the
    keys whose counter row a call holds.  The lock of a key is free when no
    call holds it, and the call that holds it releases it. *)
Definition lock_free (key : string) (locks : list string) : bool :=
  negb (existsb (String.eqb key) locks).

Definition release (key : string) (locks : list string) : list string :=
  filter (fun k => negb (String.eqb k key)) locks.

(** One step of a call, on the locks that are held and the world.  A call
    that asks for a counter whose row another call holds waits: its step
    changes nothing. *)
Definition thread_step (t : Thread) (locks : list string) (w : World)
  : Thread * list string * World :=
  match t with
  | Waiting rq =>
      match call_prepare C (req_taskId rq) (req_environment rq)
              (req_body rq) (req_options rq) w with
      | (inr (ExistingRun run), w') => (Existing rq run, locks, w')
      | (inr (Proceed p), w') => (Ready rq p, locks, w')
      | (inl e, w') => (Thrown rq e, locks, w')
      end
  | Ready rq p =>
      match open_envelopes rq p w with
      | (inr event, w') => (Queued rq p event, locks, w')
      | (inl e, w') => (Thrown rq e, locks, w')
      end
  | Queued rq p event =>
      if lock_free (request_key rq) locks
      then
        match read_counter rq w with
        | (inr num, w') => (Locked rq p event num, request_key rq :: locks, w')
        | (inl e, w') => (Thrown rq e, locks, w')
        end
      else (t, locks, w)
  | Locked rq p event num =>
      match commit rq p event num w with
      | (inr run, w') => (Created rq run, release (request_key rq) locks, w')
      | (inl e, w') => (Thrown rq e, release (request_key rq) locks, w')
      end
  | _ => (t, locks, w)
  end.

Fixpoint replace_nth {A} (i : nat) (x : A) (l : list A) : list A :=
  match l, i with
  | [], _ => []
  | _ :: l', O => x :: l'
  | y :: l', S i' => y :: replace_nth i' x l'
  end.

Fixpoint run_schedule (schedule : list nat) (pool : list Thread)
         (locks : list string) (w : World) : list Thread * list string * World :=
  match schedule with
  | [] => (pool, locks, w)
  | i :: schedule' =>
      match nth_error pool i with
      | Some t =>
          match thread_step t locks w with
          | (t', locks', w') => run_schedule schedule' (replace_nth i t' pool) locks' w'
          end
      | None => run_schedule schedule' pool locks w
      end
  end.

End Pool.

(** The runs the calls of a pool have created, and their numbers. *)
Definition created_run (t : Thread) : list TaskRun :=
  match t with Created _ run => [run] | _ => [] end.

Definition created_runs (pool : list Thread) : list TaskRun :=
  flat_map created_run pool.

Definition created_numbers (pool : list Thread) : list Z :=
  map number (created_runs pool).

(** The numbers of the calls that hold the row of their counter. *)
Definition locked_number (t : Thread) : list Z :=
  match t with Locked _ _ _ num => [num] | _ => [] end.

Definition locked_numbers (pool : list Thread) : list Z :=
  flat_map locked_number pool.

(** The numbers from [k + 1] to [k + n]. *)
Definition numbers_after (k : Z) (n : nat) : list Z :=
  map (fun i => k + Z.of_nat i) (seq 1 n).

(** A request on the counter of [(environmentId, taskId)]. *)
Definition on_counter (taskId environmentId : string) (rq : Request) : Prop :=
  req_taskId rq = taskId /\ env_id (req_environment rq) = environmentId.

Definition all_created (pool : list Thread) : bool :=
  forallb (fun t => match t with Created _ _ => true | _ => false end) pool.

(** The state of the counter of [(environmentId, taskIdentifier)] before a
    call: its last number, what [deriveInitial] finds when the counter is
    not seeded yet, zero when there is nothing. *)
Definition last_number (taskId environmentId : string) (w : World) : Z :=
  match counter_get ("v3-run:" ++ environmentId ++ ":" ++ taskId) (counters w) with
  | Some n => n
  | None =>
      match find (fun c => String.eqb (cnt_taskIdentifier c) taskId
                           && String.eqb (cnt_environmentId c) environmentId)
                 (taskRunNumberCounter w) with
      | Some c => cnt_lastNumber c
      | None => 0
      end
  end.

(** What holds of a pool, its locks and its world at every moment of a
    schedule that started in the world [w0] with the counter at [k]: the
    lock of the counter is held by the calls that have read it, of which
    there is at most one, whose number is the next one; the rows added to the
    table are the runs the calls have created, numbered from [k + 1] on in
    the order of their commits, each handed to the engine, and the counter
    stands at the last of them. *)
Definition pool_invariant (taskId environmentId : string) (k : Z) (w0 : World)
           (pool : list Thread) (locks : list string) (w : World) : Prop :=
  Forall (fun t => on_counter taskId environmentId (thread_request t)) pool
  /\ locks = map (fun _ => "v3-run:" ++ environmentId ++ ":" ++ taskId)
                 (locked_numbers pool)
  /\ (length (locked_numbers pool) <= 1)%nat
  /\ Forall (fun num => num = last_number taskId environmentId w + 1)
            (locked_numbers pool)
  /\ exists rows new,
      taskRun w = (taskRun w0 ++ rows)%list
      /\ log w = (log w0 ++ new)%list
      /\ Permutation (created_runs pool) rows
      /\ map number rows = numbers_after k (length rows)
      /\ last_number taskId environmentId w = k + Z.of_nat (length rows)
      /\ Forall (fun r => In (engine_trigger_call r) new) rows.

(** ** What a request resolves to *)

(** The idempotency key of a call, line 64. *)
Definition effective_key (body : TriggerTaskRequestBody)
           (options : TriggerTaskServiceOptions) : option string :=
  nullish (so_idempotencyKey options) (option_field body opt_idempotencyKey).

(** The run the idempotency gate finds, lines 72 to 82. *)
Definition existing_run (taskId : string) (env : AuthenticatedEnvironment)
           (body : TriggerTaskRequestBody) (options : TriggerTaskServiceOptions)
           (w : World) : option TaskRun :=
  match effective_key body options with
  | Some key =>
      if Js.truthy key
      then find (same_idempotency (env_id env) key taskId) (taskRun w)
      else None
  | None => None
  end.

(** The entitlement check lets the call through, lines 90 to 95. *)
Definition entitled (C : Collaborators) (env : AuthenticatedEnvironment) : bool :=
  EnvironmentType_eqb (env_type env) DEVELOPMENT
  || match getEntitlement C (env_organizationId env) with
     | Some result => hasAccess result
     | None => true
     end.

(** The tags are within the limit, lines 97 to 105. *)
Definition tags_within_limit (body : TriggerTaskRequestBody) : bool :=
  match option_field body opt_tags with
  | Some (TagsArray tags) => negb (MAX_TAGS_PER_RUN <? Z.of_nat (length tags))
  | _ => true
  end.

(** The record a reference by friendly id stands for. *)
Definition resolve_attempt (reference : option string) (w : World) : option TaskRunAttempt :=
  match reference with
  | Some friendly =>
      if Js.truthy friendly
      then find (fun a => String.eqb (att_friendlyId a) friendly) (taskRunAttempt w)
      else None
  | None => None
  end.

Definition resolve_batch (reference : option string) (w : World) : option BatchTaskRun :=
  match reference with
  | Some friendly =>
      if Js.truthy friendly
      then find (fun b => String.eqb (batch_friendlyId b) friendly) (batchTaskRun w)
      else None
  | None => None
  end.

(** An attempt or its run is in a final status. *)
Definition terminal (C : Collaborators) (attempt : TaskRunAttempt) : bool :=
  isFinalAttemptStatus C (att_status attempt)
  || isFinalRunStatus C (tr_status (att_taskRun attempt)).

(** The message of the validation error for a terminal attempt. *)
Definition terminal_message (C : Collaborators) (taskId : string)
           (attempt : TaskRunAttempt) : string :=
  if isFinalAttemptStatus C (att_status attempt)
  then "Cannot trigger " ++ taskId ++ " as the parent attempt has a status of "
       ++ att_status attempt
  else "Cannot trigger " ++ taskId ++ " as the parent run has a status of "
       ++ tr_status (att_taskRun attempt).

(** The tables the service only reads are the same. *)
Definition static (w w' : World) : Prop :=
  taskRunAttempt w' = taskRunAttempt w
  /\ batchTaskRun w' = batchTaskRun w
  /\ backgroundWorker w' = backgroundWorker w
  /\ backgroundWorkerTask w' = backgroundWorkerTask w
  /\ taskRunNumberCounter w' = taskRunNumberCounter w.

(** A world with more calls in its log. *)
Definition logged (new : list Effect) (w : World) : World :=
  with_log (fun l => (l ++ new)%list) w.

(** The collaborator calls a call has added to the log. *)
Definition new_effects (before after : World) : list Effect :=
  skipn (length (log before)) (log after).

Definition is_engine_trigger (e : Effect) : bool :=
  match e with engine_trigger_call _ => true | _ => false end.
Definition is_traceEvent (e : Effect) : bool :=
  match e with traceEvent_call _ _ _ _ _ => true | _ => false end.
Definition is_getEntitlement (e : Effect) : bool :=
  match e with getEntitlement_call _ => true | _ => false end.
Definition is_upload (e : Effect) : bool :=
  match e with uploadToObjectStore_call _ _ _ _ => true | _ => false end.
Definition is_database_write (e : Effect) : bool :=
  match e with
  | engine_trigger_call _ | createTag_call _ _ | incrementInTransaction_call _ => true
  | _ => false
  end.

(** ** The outcome of the part of [call] above the tracing envelope *)

Section Outcome.

Variable C : Collaborators.
Variable taskId : string.
Variable env : AuthenticatedEnvironment.
Variable body : TriggerTaskRequestBody.
Variable options : TriggerTaskServiceOptions.

Definition entitlement_log : list Effect :=
  if EnvironmentType_eqb (env_type env) DEVELOPMENT then []
  else [getEntitlement_call (env_organizationId env)].

Definition tags_message : string :=
  match option_field body opt_tags with
  | Some (TagsArray tags) =>
      "Runs can only have " ++ Js.Number_toString MAX_TAGS_PER_RUN
      ++ " tags, you're trying to set "
      ++ Js.Number_toString (Z.of_nat (length tags)) ++ "."
  | _ => EmptyString
  end.

Definition request_ttl : option string :=
  match option_field body opt_ttl with
  | Some (TtlNumber seconds) => stringifyDuration seconds
  | Some (TtlString s) => Some s
  | None => if EnvironmentType_eqb (env_type env) DEVELOPMENT then Some "10m" else None
  end.

(** The packet [#createPayloadPacket] makes of the request. *)
Definition request_packet : IOPacket :=
  createPayloadPacket C (body_payload body)
    (match option_field body opt_payloadType with
     | Some t => t
     | None => "application/json"
     end).

(** The inline data of the packet when [#handlePayloadPacket] offloads it. *)
Definition offloaded : option string :=
  match data request_packet with
  | Some d =>
      if Js.truthy d
         && fst (packetRequiresOffloading C request_packet
                   (TASK_PAYLOAD_OFFLOAD_THRESHOLD C))
      then Some d else None
  | None => None
  end.

Definition run_friendlyId (w : World) : string :=
  generateFriendlyId C "run" (generated w).

Definition payload_filename (w : World) : string :=
  run_friendlyId w ++ "/payload.json".

Definition handled_packet (w : World) : IOPacket :=
  match offloaded with
  | Some _ => {| data := Some (payload_filename w); dataType := "application/store" |}
  | None => request_packet
  end.

Definition request_metadata : option IOPacket :=
  match option_field body opt_metadata with
  | Some metadata =>
      if JsValue_truthy metadata
      then handleMetadataPacket C metadata
             (match option_field body opt_metadataType with
              | Some t => t
              | None => "application/json"
              end)
      else None
  | None => None
  end.

(** [parseDelay] reads the clock for a delay that is a string and not
    empty. *)
Definition reads_clock : bool :=
  match option_field body opt_delay with
  | Some (DelayString s) => Js.truthy s
  | _ => false
  end.

(** The world after [parseDelay]. *)
Definition after_delay (w : World) : World :=
  if reads_clock then with_clock (Date_next C) w else w.

(** The world after the idempotency lookup has found a run. *)
Definition after_hit (r : TaskRun) (w : World) : World :=
  with_log (fun l => (l ++ [span_setAttribute "runId" (friendlyId r)])%list)
    (after_delay w).

(** The world after the entitlement check. *)
Definition after_entitlement (w : World) : World :=
  if EnvironmentType_eqb (env_type env) DEVELOPMENT then after_delay w
  else with_log (fun l => (l ++ [getEntitlement_call (env_organizationId env)])%list)
         (after_delay w).

(** The world after the payload handler. *)
Definition after_payload (w : World) : World :=
  match offloaded with
  | Some d =>
      with_objectStore (fun l =>
         (l ++ [ {| obj_filename := payload_filename w; obj_body := d;
                    obj_contentType := dataType request_packet |} ])%list)
        (with_log (fun l =>
           (l ++ [uploadToObjectStore_call (payload_filename w) d
                    (dataType request_packet) (env_id env)])%list)
           (with_generated S (after_entitlement w)))
  | None => with_generated S (after_entitlement w)
  end.

(** The attempt whose final status stops the call, if there is one: the
    dependent attempt first, then the attempt of the dependent batch. *)
Definition blocking_attempt (w : World) : option TaskRunAttempt :=
  match resolve_attempt (option_field body opt_dependentAttempt) w with
  | Some attempt =>
      if terminal C attempt then Some attempt
      else
        match resolve_batch (option_field body opt_dependentBatch) w with
        | Some batch =>
            match batch_dependentTaskAttempt batch with
            | Some a => if terminal C a then Some a else None
            | None => None
            end
        | None => None
        end
  | None =>
      match resolve_batch (option_field body opt_dependentBatch) w with
      | Some batch =>
          match batch_dependentTaskAttempt batch with
          | Some a => if terminal C a then Some a else None
          | None => None
          end
      | None => None
      end
  end.

(** The calls the part above the tracing envelope makes on the object
    store, and the objects it stores. *)
Definition upload_log (w : World) : list Effect :=
  match offloaded with
  | Some d => [uploadToObjectStore_call (payload_filename w) d
                 (dataType request_packet) (env_id env)]
  | None => []
  end.

Definition uploaded (w : World) : list StoredObject :=
  match offloaded with
  | Some d => [ {| obj_filename := payload_filename w; obj_body := d;
                   obj_contentType := dataType request_packet |} ]
  | None => []
  end.

Definition prepared (w : World) : Prepared :=
  {| p_idempotencyKey := effective_key body options;
     p_delayUntil := parseDelay C (clock w) (option_field body opt_delay);
     p_ttl := request_ttl;
     p_runFriendlyId := run_friendlyId w;
     p_payloadPacket := handled_packet w;
     p_metadataPacket := request_metadata;
     p_dependentAttempt := resolve_attempt (option_field body opt_dependentAttempt) w;
     p_parentAttempt := resolve_attempt (option_field body opt_parentAttempt) w;
     p_dependentBatchRun := resolve_batch (option_field body opt_dependentBatch) w;
     p_parentBatchRun := resolve_batch (option_field body opt_parentBatch) w |}.

(** The fields of a created run that the properties are about. *)
Definition built_from (p : Prepared) (num : Z) (r : TaskRun) : Prop :=
  number r = num
  /\ friendlyId r = p_runFriendlyId p
  /\ environment r = env
  /\ taskIdentifier r = taskId
  /\ idempotencyKey r = p_idempotencyKey p
  /\ payload r = match data (p_payloadPacket p) with Some d => d | None => EmptyString end
  /\ payloadType r = dataType (p_payloadPacket p)
  /\ ttl r = p_ttl p
  /\ depth r = run_depth p
  /\ resumeParentOnCompletion r
     = match p_dependentAttempt p, p_dependentBatchRun p with
       | None, None => false
       | _, _ => true
       end
  /\ masterQueue r = "main"
  /\ delayUntil r = p_delayUntil p
  /\ (queuedAt r = None <-> delayUntil r <> None).

End Outcome.

(** The world after the callback of the counter envelope has taken the
    time for [queuedAt]: it reads the clock when the run is not delayed. *)
Definition after_queued (C : Collaborators) (p : Prepared) (w : World) : World :=
  match p_delayUntil p with
  | Some _ => w
  | None => with_clock (Date_next C) w
  end.

(** The calls the envelopes make: none on the entitlement service or the
    object store. *)
Definition is_envelope_effect (e : Effect) : bool :=
  negb (is_upload e || is_getEntitlement e).

(** An insert of the run would break the unique key of the table. *)
Definition clashes (r : TaskRun) (w : World) : bool :=
  match idempotencyKey r with
  | Some key =>
      existsb (same_idempotency (env_id (environment r)) key (taskIdentifier r))
              (taskRun w)
  | None => false
  end.

(** The message of a validation error states a final status. *)
Definition states_terminal_status (C : Collaborators) (taskId message : string) : Prop :=
  exists status,
    (isFinalAttemptStatus C status = true
     /\ message = "Cannot trigger " ++ taskId
                  ++ " as the parent attempt has a status of " ++ status)
    \/ (isFinalRunStatus C status = true
        /\ message = "Cannot trigger " ++ taskId
                     ++ " as the parent run has a status of " ++ status).

(** ** Instances for examples *)

Module Examples.

Definition final_attempt_statuses : list string := ["FAILED"; "CANCELED"; "COMPLETED"].
Definition final_run_statuses : list string :=
  ["CANCELED"; "COMPLETED_SUCCESSFULLY"; "COMPLETED_WITH_ERRORS"; "SYSTEM_FAILURE";
   "CRASHED"; "EXPIRED"; "TIMED_OUT"].

(** Collaborators of a deployment in UTC, where 25 ms pass between two
    readings of the clock; payloads of 16 bytes or more are offloaded; the
    organization [org_broke] has no credit left. *)
Definition collaborators : Collaborators :=
  {| LocalTZA := JsDate.utc_zone;
     Date_parse := fun _ => None;
     Date_next := fun t => t + 25;
     JSON_quote := fun s => String (ascii_of_nat 34) (s ++ String (ascii_of_nat 34) EmptyString);
     TASK_PAYLOAD_OFFLOAD_THRESHOLD := 16;
     packetRequiresOffloading := fun packet limit =>
       match data packet with
       | Some d => (limit <=? Z.of_nat (String.length d), Z.of_nat (String.length d))
       | None => (false, 0)
       end;
     handleMetadataPacket := fun v t =>
       match v with
       | JsOther json => Some {| data := Some json; dataType := t |}
       | JsString s => Some {| data := Some s; dataType := t |}
       | JsUndefined => None
       end;
     isFinalAttemptStatus := fun s => existsb (String.eqb s) final_attempt_statuses;
     isFinalRunStatus := fun s => existsb (String.eqb s) final_run_statuses;
     getEntitlement := fun org =>
       Some {| hasAccess := negb (String.eqb org "org_broke") |};
     generateFriendlyId := fun prefix n =>
       prefix ++ "_" ++ Js.Number_toString (Z.of_nat n);
     sanitizeQueueName := fun s => s;
     findCurrentWorkerFromEnvironment := fun _ => None;
     createTag := fun tag _ => Some {| tag_id := "tag_" ++ tag |};
     startEvent := fun ctx n =>
       {| ev_traceId := "trace_" ++ Js.Number_toString (Z.of_nat n);
          ev_spanId := "span_" ++ Js.Number_toString (Z.of_nat n);
          ev_traceContext := ctx;
          ev_traceparent_spanId := None |} |}.

Definition production : AuthenticatedEnvironment :=
  {| env_id := "env_prod"; env_type := PRODUCTION;
     env_projectId := "proj_1"; env_organizationId := "org_1" |}.

Definition development : AuthenticatedEnvironment :=
  {| env_id := "env_dev"; env_type := DEVELOPMENT;
     env_projectId := "proj_1"; env_organizationId := "org_1" |}.

Definition request_options (key : option string) (ttl : option Ttl)
           (tags : option Tags)
           (dependentAttempt parentAttempt dependentBatch parentBatch : option string)
  : RequestOptions :=
  {| opt_idempotencyKey := key; opt_delay := None; opt_ttl := ttl; opt_tags := tags;
     opt_metadata := None; opt_metadataType := None; opt_payloadType := None;
     opt_concurrencyKey := None; opt_queue := None; opt_lockToVersion := None;
     opt_maxAttempts := None; opt_test := None;
     opt_dependentAttempt := dependentAttempt; opt_parentAttempt := parentAttempt;
     opt_dependentBatch := dependentBatch; opt_parentBatch := parentBatch |}.

Definition request (payload : JsValue) (o : RequestOptions) : TriggerTaskRequestBody :=
  {| body_payload := payload; body_context := None; body_options := Some o |}.

Definition service_options : TriggerTaskServiceOptions :=
  {| so_idempotencyKey := None; so_triggerVersion := None; so_traceContext := None;
     so_spanParentAsLink := None; so_parentAsLinkType := None; so_batchId := None;
     so_customIcon := None |}.

Definition small_payload : JsValue := JsOther "{}".
Definition large_payload : JsValue := JsOther "[1,2,3,4,5,6,7,8,9,10,11,12]".

Definition running_attempt : TaskRunAttempt :=
  {| att_friendlyId := "attempt_running"; att_status := "EXECUTING";
     att_taskRun := {| tr_id := "run_parent"; tr_status := "EXECUTING";
                       tr_taskIdentifier := "parent-task"; tr_rootTaskRunId := None;
                       tr_depth := 3 |} |}.

Definition failed_attempt : TaskRunAttempt :=
  {| att_friendlyId := "attempt_failed"; att_status := "FAILED";
     att_taskRun := {| tr_id := "run_failed"; tr_status := "COMPLETED_WITH_ERRORS";
                       tr_taskIdentifier := "parent-task"; tr_rootTaskRunId := None;
                       tr_depth := 1 |} |}.

Definition a_batch : BatchTaskRun :=
  {| batch_id := "batch_id_1"; batch_friendlyId := "batch_1"; batch_status := "PENDING";
     batch_dependentTaskAttempt := Some running_attempt |}.

(** A run of the task [process-order] in production, as the engine has
    stored it. *)
Definition stored_run (key : option string) : TaskRun :=
  {| number := 7; friendlyId := "run_stored"; environment := production;
     idempotencyKey := key; taskIdentifier := "process-order";
     payload := "{}"; payloadType := "application/json"; context := None;
     traceContext := None; traceId := "trace_0"; spanId := "span_0";
     parentSpanId := None; lockedToVersionId := None; concurrencyKey := None;
     queueName := "task/process-order"; queue := None; masterQueue := "main";
     isTest := false; delayUntil := None; queuedAt := Some 1700000000000;
     maxAttempts := None; ttl := None; tags := []; parentTaskRunId := None;
     rootTaskRunId := None; batchId := None; resumeParentOnCompletion := false;
     depth := 0; metadata := None; metadataType := None; seedMetadata := None;
     seedMetadataType := None |}.

Definition world (runs : list TaskRun) : World :=
  {| taskRun := runs;
     taskRunAttempt := [running_attempt; failed_attempt];
     batchTaskRun := [a_batch];
     backgroundWorker := [];
     backgroundWorkerTask := [];
     taskRunNumberCounter :=
       [ {| cnt_taskIdentifier := "process-order"; cnt_environmentId := "env_prod";
            cnt_lastNumber := 7 |} ];
     counters := [];
     objectStore := [];
     clock := 1774699200000;
     generated := 0;
     log := [] |}.

End Examples.

Module Scenario.
Import Examples.

(** A call whose idempotency key is the empty string, when a run with
    this key is stored. *)
Definition empty_key_body : TriggerTaskRequestBody :=
  request small_payload (request_options (Some EmptyString) None None None None None None).

(** The second call of a pair with the key [abc]. *)
Definition abc_body : TriggerTaskRequestBody :=
  request small_payload (request_options (Some "abc") None None None None None None).
Definition abc_world : World := world [stored_run (Some "abc")].

(** A call with a large payload that depends on a failed attempt. *)
Definition failed_parent_body : TriggerTaskRequestBody :=
  request large_payload
    (request_options None None None (Some "attempt_failed") None None None).

(** The same dependency with a small payload. *)
Definition failed_parent_small_body : TriggerTaskRequestBody :=
  request small_payload
    (request_options None None None (Some "attempt_failed") None None None).

(** The same dependency in a call that repeats the key [abc]. *)
Definition failed_parent_abc_body : TriggerTaskRequestBody :=
  request small_payload
    (request_options (Some "abc") None None (Some "attempt_failed") None None None).

Definition nine_tags : list string := ["a"; "b"; "c"; "d"; "e"; "f"; "g"; "h"; "i"].

Definition nine_tags_body : TriggerTaskRequestBody :=
  request small_payload
    (request_options None None (Some (TagsArray nine_tags)) None None None None).

Definition nine_tags_abc_body : TriggerTaskRequestBody :=
  request small_payload
    (request_options (Some "abc") None (Some (TagsArray nine_tags)) None None None None).

(** A child of a running attempt, in a batch, with one tag and a ttl of
    zero seconds. *)
Definition child_body : TriggerTaskRequestBody :=
  request small_payload
    (request_options None (Some (TtlNumber 0)) (Some (TagsString "welcome"))
       (Some "attempt_running") None None (Some "batch_1")).

(** A call that names a dependent attempt the database does not have. *)
Definition dangling_body : TriggerTaskRequestBody :=
  request small_payload
    (request_options None None None (Some "attempt_missing") None None None).

Definition large_body : TriggerTaskRequestBody :=
  request large_payload (request_options None None None None None None None).

Definition plain_body : TriggerTaskRequestBody :=
  request small_payload (request_options None None None None None None None).

Definition plain_request : Request :=
  {| req_taskId := "process-order"; req_environment := production;
     req_body := plain_body; req_options := service_options |}.

(** What the calls of the examples return and the worlds they leave. *)
Definition run_of (outcome : (ServiceError + TaskRun) * World) : TaskRun :=
  match fst outcome with
  | inr r => r
  | inl _ => stored_run None
  end.

Definition child_run : TaskRun :=
  Eval vm_compute in
    run_of (call collaborators "process-order" production child_body
              service_options (world [])).
Definition child_world : World :=
  Eval vm_compute in
    snd (call collaborators "process-order" production child_body
           service_options (world [])).

Definition child_development_run : TaskRun :=
  Eval vm_compute in
    run_of (call collaborators "process-order" development child_body
              service_options (world [])).
Definition child_development_world : World :=
  Eval vm_compute in
    snd (call collaborators "process-order" development child_body
           service_options (world [])).

Definition large_run : TaskRun :=
  Eval vm_compute in
    run_of (call collaborators "process-order" production large_body
              service_options (world [])).
Definition large_world : World :=
  Eval vm_compute in
    snd (call collaborators "process-order" production large_body
           service_options (world [])).

Definition plain_run : TaskRun :=
  Eval vm_compute in
    run_of (call collaborators "process-order" production plain_body
              service_options (world [])).
Definition plain_world : World :=
  Eval vm_compute in
    snd (call collaborators "process-order" production plain_body
           service_options (world [])).

Definition failed_parent_error : ServiceError :=
  ServiceValidationError
    "Cannot trigger process-order as the parent attempt has a status of FAILED".
Definition failed_parent_small_world : World :=
  Eval vm_compute in
    snd (call collaborators "process-order" production failed_parent_small_body
           service_options (world [])).

(** Three calls of one task in production.  All three get above the
    envelopes, then open them in the order second, first, third.  The
    second takes the row of the counter; the first asks for it and waits;
    the second commits; the first takes the row; the third waits; the
    first commits; the third takes the row and commits. *)
Definition three_requests : list Request :=
  [plain_request; plain_request; plain_request].
Definition interleaved : list nat :=
  [0; 1; 2; 1; 0; 2; 1; 0; 1; 0; 2; 0; 2; 2]%nat.
Definition interleaved_pool : list Thread :=
  Eval vm_compute in
    fst (fst (run_schedule collaborators interleaved (map Waiting three_requests)
                [] (world []))).
Definition interleaved_world : World :=
  Eval vm_compute in
    snd (run_schedule collaborators interleaved (map Waiting three_requests)
           [] (world [])).

(** The same calls when the second holds the row and the first waits. *)
Definition waiting : list nat := [0; 1; 2; 1; 0; 2; 1; 0]%nat.
Definition waiting_pool : list Thread :=
  Eval vm_compute in
    fst (fst (run_schedule collaborators waiting (map Waiting three_requests)
                [] (world []))).
Definition waiting_world : World :=
  Eval vm_compute in
    snd (run_schedule collaborators waiting (map Waiting three_requests)
           [] (world [])).

End Scenario.

(** [body] with other tags. *)
Definition set_tags (tags : option Tags) (body : TriggerTaskRequestBody)
  : TriggerTaskRequestBody :=
  {| body_payload := body_payload body;
     body_context := body_context body;
     body_options :=
       Some {| opt_idempotencyKey := option_field body opt_idempotencyKey;
               opt_delay := option_field body opt_delay;
               opt_ttl := option_field body opt_ttl;
               opt_tags := tags;
               opt_metadata := option_field body opt_metadata;
               opt_metadataType := option_field body opt_metadataType;
               opt_payloadType := option_field body opt_payloadType;
               opt_concurrencyKey := option_field body opt_concurrencyKey;
               opt_queue := option_field body opt_queue;
               opt_lockToVersion := option_field body opt_lockToVersion;
               opt_maxAttempts := option_field body opt_maxAttempts;
               opt_test := option_field body opt_test;
               opt_dependentAttempt := option_field body opt_dependentAttempt;
               opt_parentAttempt := option_field body opt_parentAttempt;
               opt_dependentBatch := option_field body opt_dependentBatch;
               opt_parentBatch := option_field body opt_parentBatch |} |}.

(** ** The task tracker

    The class [TaskTracker]: a [Map] from task ids to tasks.  A [Map] keeps
    its entries in the order in which their keys were first set, and each
    key once.  The numbers [cpu] and [memory] are JavaScript numbers; they
    are kept abstract, with their addition, of which no law is assumed. *)

Module TaskTracker.

Section WithNumbers.

Variable number : Type.
Variable zero : number.
Variable add : number -> number -> number.

Record Task := {
  id : string;
  cpu : number;
  memory : number
}.

(** [Map<string, Task>]: the entries in insertion order. *)
Definition TaskMap : Type := list (string * Task).

(** [new Map()]. *)
Definition Map_empty : TaskMap := [].

(** [m.set(key, value)]: the value of a key that is there is replaced where
    it stands; a new key goes last. *)
Fixpoint Map_set (key : string) (value : Task) (m : TaskMap) : TaskMap :=
  match m with
  | [] => [(key, value)]
  | (k, v) :: m' =>
      if String.eqb k key then (k, value) :: m' else (k, v) :: Map_set key value m'
  end.

(** [m.get(key)]. *)
Fixpoint Map_get (key : string) (m : TaskMap) : option Task :=
  match m with
  | [] => None
  | (k, v) :: m' => if String.eqb k key then Some v else Map_get key m'
  end.

(** [m.delete(key)]. *)
Fixpoint Map_delete (key : string) (m : TaskMap) : TaskMap :=
  match m with
  | [] => []
  | (k, v) :: m' => if String.eqb k key then m' else (k, v) :: Map_delete key m'
  end.

(** [m.values()] and [m.size]. *)
Definition Map_values (m : TaskMap) : list Task := map snd m.
Definition Map_size (m : TaskMap) : nat := length m.

(** The methods of the class, on the field [tasks]. *)
Definition addTask (task : Task) (tasks : TaskMap) : TaskMap :=
  Map_set (id task) task tasks.

Definition getTask (key : string) (tasks : TaskMap) : option Task :=
  Map_get key tasks.

Definition deleteTask (key : string) (tasks : TaskMap) : TaskMap :=
  Map_delete key tasks.

Definition listTasks (tasks : TaskMap) : list Task := Map_values tasks.

(** [getResourceUsage()]: the loop adds to [cpu] and [memory], which start
    at zero, task after task. *)
Definition getResourceUsage (tasks : TaskMap) : number * number :=
  fold_left (fun usage task => (add (fst usage) (cpu task), add (snd usage) (memory task)))
            (Map_values tasks) (zero, zero).

Definition totalTasks (tasks : TaskMap) : nat := Map_size tasks.

(** What the field [tasks] of a tracker always is: a map (each key once)
    whose tasks stand under their own ids. *)
Definition tracker_ok (tasks : TaskMap) : Prop :=
  NoDup (map fst tasks) /\ Forall (fun e => fst e = id (snd e)) tasks.

(** The calls that change a tracker. *)
Inductive Call :=
| call_addTask (task : Task)
| call_deleteTask (key : string).

Definition perform (tasks : TaskMap) (c : Call) : TaskMap :=
  match c with
  | call_addTask task => addTask task tasks
  | call_deleteTask key => deleteTask key tasks
  end.

End WithNumbers.

Arguments id {number} _.
Arguments cpu {number} _.
Arguments memory {number} _.
Arguments Map_empty {number}.
Arguments Map_set {number} _ _ _.
Arguments Map_get {number} _ _.
Arguments Map_delete {number} _ _.
Arguments Map_values {number} _.
Arguments Map_size {number} _.
Arguments addTask {number} _ _.
Arguments getTask {number} _ _.
Arguments deleteTask {number} _ _.
Arguments listTasks {number} _.
Arguments getResourceUsage {number} _ _ _.
Arguments totalTasks {number} _.
Arguments tracker_ok {number} _.
Arguments perform {number} _ _.

(** Three tasks with whole numbers of cpu and memory. *)
Definition web : Task Z := {| id := "web"; cpu := 2; memory := 512 |}.
Definition worker : Task Z := {| id := "worker"; cpu := 4; memory := 2048 |}.
Definition web_resized : Task Z := {| id := "web"; cpu := 1; memory := 256 |}.
Definition two_tasks : list (string * Task Z) := addTask worker (addTask web Map_empty).

End TaskTracker.

(** ** The run the envelopes make *)

(** The tags of a request, as [bodyTags] has them. *)
Definition request_tags (body : TriggerTaskRequestBody) : list string :=
  match option_field body opt_tags with
  | Some (TagsString tag) => [tag]
  | Some (TagsArray tags) => tags
  | None => []
  end.

(** The ids [createTag] gives for them, kept in order; a tag for which it
    gives nothing is left out. *)
Definition request_tag_ids (C : Collaborators) (env : AuthenticatedEnvironment)
           (body : TriggerTaskRequestBody) : list string :=
  flat_map (fun tag => match createTag C tag (env_projectId env) with
                       | Some record => [tag_id record]
                       | None => []
                       end) (request_tags body).

(** The worker that [lockToVersion] names. *)
Definition locked_worker (env : AuthenticatedEnvironment) (body : TriggerTaskRequestBody)
           (w : World) : option BackgroundWorker :=
  match option_field body opt_lockToVersion with
  | Some version =>
      if Js.truthy version
      then find (fun b => String.eqb (worker_projectId b) (env_projectId env)
                          && String.eqb (worker_runtimeEnvironmentId b) (env_id env)
                          && String.eqb (worker_version b) version)
                (backgroundWorker w)
      else None
  | None => None
  end.

(** The name [#getQueueName] returns. *)
Definition resolved_queue_name (C : Collaborators) (taskId : string)
           (env : AuthenticatedEnvironment) (queueName : option string) (w : World)
  : string :=
  let fromWorker :=
    match findCurrentWorkerFromEnvironment C env with
    | None => "task/" ++ taskId
    | Some worker =>
        match find (fun t => String.eqb (bwt_workerId t) (worker_id worker)
                             && String.eqb (bwt_slug t) taskId)
                   (backgroundWorkerTask w) with
        | None => "task/" ++ taskId
        | Some task =>
            match bwt_queueConfig task with
            | ParseSuccess config =>
                match queue_name config with
                | Some n => n
                | None => "task/" ++ taskId
                end
            | _ => "task/" ++ taskId
            end
        end
    end in
  match queueName with
  | Some name => if Js.truthy name then name else fromWorker
  | None => fromWorker
  end.

(** The queue name of the run: the sanitized name, or the sanitized default
    when that is empty. *)
Definition run_queue_name (C : Collaborators) (taskId : string)
           (env : AuthenticatedEnvironment) (body : TriggerTaskRequestBody) (w : World)
  : string :=
  let name := resolved_queue_name C taskId env
                (match option_field body opt_queue with
                 | Some q => queue_name q
                 | None => None
                 end) w in
  if Js.truthy (sanitizeQueueName C name) then sanitizeQueueName C name
  else sanitizeQueueName C ("task/" ++ taskId).

(** Where a created run comes from: its parent and root runs, its batch,
    its tags, its queue and its times; [now] is what the clock shows when
    the callback of the counter envelope reads it. *)
Definition descends_from (C : Collaborators) (taskId : string)
           (env : AuthenticatedEnvironment) (body : TriggerTaskRequestBody)
           (p : Prepared) (w : World) (now : Z) (r : TaskRun) : Prop :=
  parentTaskRunId r = option_map (fun a => tr_id (att_taskRun a)) (p_parentAttempt p)
  /\ rootTaskRunId r
     = match p_parentAttempt p with
       | Some a => Some (match tr_rootTaskRunId (att_taskRun a) with
                         | Some root => root
                         | None => tr_id (att_taskRun a)
                         end)
       | None => None
       end
  /\ batchId r = match p_dependentBatchRun p with
                 | Some b => Some (batch_id b)
                 | None => option_map batch_id (p_parentBatchRun p)
                 end
  /\ tags r = request_tag_ids C env body
  /\ queueName r = run_queue_name C taskId env body w
  /\ lockedToVersionId r = option_map worker_id (locked_worker env body w)
  /\ queuedAt r = match p_delayUntil p with
                  | Some _ => None
                  | None => Some now
                  end
  /\ metadata r = match p_metadataPacket p with Some m => data m | None => None end
  /\ metadataType r = option_map dataType (p_metadataPacket p)
  /\ seedMetadata r = metadata r
  /\ seedMetadataType r = metadataType r.

(** The calls the callback of the counter envelope makes before it hands
    the run to the engine. *)
Definition callback_log (env : AuthenticatedEnvironment) (body : TriggerTaskRequestBody)
           (r : TaskRun) : list Effect :=
  [ event_setAttribute "queueName" (queueName r);
    span_setAttribute "queueName" (queueName r) ]
  ++ map (fun tag => createTag_call tag (env_projectId env)) (request_tags body)
  ++ [ event_setAttribute "runId" (friendlyId r);
       span_setAttribute "runId" (friendlyId r) ].

(** The calls of the two envelopes around a run, in their order. *)
Definition envelope_log (taskId : string) (env : AuthenticatedEnvironment)
           (body : TriggerTaskRequestBody) (options : TriggerTaskServiceOptions)
           (r : TaskRun) : list Effect :=
  [ traceEvent_call taskId
      (match so_customIcon options with Some icon => icon | None => "task" end)
      (match option_field body opt_test with Some b => b | None => false end)
      (so_batchId options) (idempotencyKey r);
    incrementInTransaction_call ("v3-run:" ++ env_id env ++ ":" ++ taskId) ]
  ++ callback_log env body r ++ [engine_trigger_call r].

(** A string of decimal digits, at least one. *)
Definition is_digits (s : string) : bool :=
  match s with
  | EmptyString => false
  | _ => forallb Js.isDigit (list_ascii_of_string s)
  end.

(** The text of an optional group of the pattern: the digits and the unit
    letter, or nothing. *)
Definition group (u : ascii) (g : option string) : string :=
  match g with
  | Some ds => ds ++ String u EmptyString
  | None => EmptyString
  end.

Definition group_ok (g : option string) : Prop :=
  match g with
  | Some ds => is_digits ds = true
  | None => True
  end.

(** The number of units a group stands for. *)
Definition group_value (g : option string) : Z :=
  match g with
  | Some ds => match Js.Number ds with Some v => v | None => 0 end
  | None => 0
  end.

(** The text of five groups, in the order of the pattern. *)
Definition duration_text (gw gd gh gm gs : option string) : string :=
  group "w" gw ++ group "d" gd ++ group "h" gh ++ group "m" gm ++ group "s" gs.

(** What a group of the pattern captures of its text. *)
Definition captured (u : ascii) (g : option string) : option string :=
  match g with
  | Some ds => Some (ds ++ String u EmptyString)
  | None => None
  end.

(** The seconds five groups stand for. *)
Definition duration_seconds (gw gd gh gm gs : option string) : Z :=
  604800 * group_value gw + 86400 * group_value gd + 3600 * group_value gh
  + 60 * group_value gm + group_value gs.

Definition no_group (gw gd gh gm gs : option string) : bool :=
  match gw, gd, gh, gm, gs with
  | None, None, None, None, None => true
  | _, _, _, _, _ => false
  end.

(** The largest time value of a [Date]. *)
Definition max_time : Z := 8640000000000000.

(** [Number.MAX_SAFE_INTEGER], [2^53 - 1]: up to it the whole numbers are
    doubles, and the divisions, remainders and printing of
    [stringifyDuration] are exact. *)
Definition max_safe_integer : Z := 9007199254740991.

(** ** More calls of the examples *)

Module Cases.
Import Examples.

(** A child of a running attempt with the key [order-1], a delay of one
    hour, two tags and a queue of its own. *)
Definition nested_body : TriggerTaskRequestBody :=
  request small_payload
    {| opt_idempotencyKey := Some "order-1"; opt_delay := Some (DelayString "1h");
       opt_ttl := None; opt_tags := Some (TagsArray ["vip"; "eu"]);
       opt_metadata := None; opt_metadataType := None; opt_payloadType := None;
       opt_concurrencyKey := None;
       opt_queue := Some {| queue_name := Some "orders";
                            queue_concurrencyLimit := None |};
       opt_lockToVersion := None; opt_maxAttempts := None; opt_test := None;
       opt_dependentAttempt := None; opt_parentAttempt := Some "attempt_running";
       opt_dependentBatch := None; opt_parentBatch := Some "batch_1" |}.

Definition nested_run : TaskRun :=
  Eval vm_compute in
    Scenario.run_of (call collaborators "process-order" production nested_body
                       service_options (world [])).
Definition nested_world : World :=
  Eval vm_compute in
    snd (call collaborators "process-order" production nested_body
           service_options (world [])).

(** A call whose delay is a text that is neither a date nor a duration. *)
Definition unparsed_body : TriggerTaskRequestBody :=
  request small_payload
    {| opt_idempotencyKey := None; opt_delay := Some (DelayString "soon");
       opt_ttl := None; opt_tags := None; opt_metadata := None;
       opt_metadataType := None; opt_payloadType := None;
       opt_concurrencyKey := None; opt_queue := None;
       opt_lockToVersion := None; opt_maxAttempts := None; opt_test := None;
       opt_dependentAttempt := None; opt_parentAttempt := None;
       opt_dependentBatch := None; opt_parentBatch := None |}.

Definition unparsed_run : TaskRun :=
  Eval vm_compute in
    Scenario.run_of (call collaborators "process-order" production unparsed_body
                       service_options (world [])).
Definition unparsed_world : World :=
  Eval vm_compute in
    snd (call collaborators "process-order" production unparsed_body
           service_options (world [])).


(** An environment of the organization without credit. *)
Definition broke : AuthenticatedEnvironment :=
  {| env_id := "env_broke"; env_type := PRODUCTION;
     env_projectId := "proj_2"; env_organizationId := "org_broke" |}.

Definition broke_world : World :=
  Eval vm_compute in
    snd (call collaborators "process-order" broke Scenario.large_body
           service_options (world [])).

(** A call without a payload. *)
Definition undefined_body : TriggerTaskRequestBody :=
  request JsUndefined (request_options None None None None None None None).

Definition undefined_run : TaskRun :=
  Eval vm_compute in
    Scenario.run_of (call collaborators "process-order" production undefined_body
                       service_options (world [])).
Definition undefined_world : World :=
  Eval vm_compute in
    snd (call collaborators "process-order" production undefined_body
           service_options (world [])).

(** A call with metadata that locks the run to a version, in a database
    that has the worker of this version. *)
Definition locked_body : TriggerTaskRequestBody :=
  request small_payload
    {| opt_idempotencyKey := None; opt_delay := None; opt_ttl := None;
       opt_tags := None; opt_metadata := Some (JsOther "[1]");
       opt_metadataType := None; opt_payloadType := None;
       opt_concurrencyKey := None; opt_queue := None;
       opt_lockToVersion := Some "20240101.1"; opt_maxAttempts := None;
       opt_test := None; opt_dependentAttempt := None; opt_parentAttempt := None;
       opt_dependentBatch := None; opt_parentBatch := None |}.

Definition worker_world : World :=
  {| taskRun := [];
     taskRunAttempt := [running_attempt; failed_attempt];
     batchTaskRun := [a_batch];
     backgroundWorker :=
       [ {| worker_id := "worker_1"; worker_projectId := "proj_1";
            worker_runtimeEnvironmentId := "env_prod";
            worker_version := "20240101.1" |} ];
     backgroundWorkerTask := [];
     taskRunNumberCounter := [];
     counters := [];
     objectStore := [];
     clock := 1774699200000;
     generated := 0;
     log := [] |}.

Definition locked_run : TaskRun :=
  Eval vm_compute in
    Scenario.run_of (call collaborators "process-order" production locked_body
                       service_options worker_world).
Definition locked_world : World :=
  Eval vm_compute in
    snd (call collaborators "process-order" production locked_body
           service_options worker_world).

(** Two calls with the key [abc] that run concurrently: both look the key
    up before either inserts its run. *)
Definition abc_request : Request :=
  {| req_taskId := "process-order"; req_environment := production;
     req_body := Scenario.abc_body; req_options := service_options |}.
Definition racing : list nat := [0; 1; 0; 0; 0; 1; 1; 1]%nat.
Definition racing_pool : list Thread :=
  Eval vm_compute in
    fst (fst (run_schedule collaborators racing [Waiting abc_request; Waiting abc_request]
                [] (world []))).
Definition racing_world : World :=
  Eval vm_compute in
    snd (run_schedule collaborators racing [Waiting abc_request; Waiting abc_request]
           [] (world [])).

(** Two calls with the empty text as idempotency key, one after the
    other: the run and the world of the first, the world of the second. *)
Definition empty_key_run : TaskRun :=
  Eval vm_compute in
    Scenario.run_of (call collaborators "process-order" production
                       Scenario.empty_key_body service_options (world [])).
Definition empty_key_first : World :=
  Eval vm_compute in
    snd (call collaborators "process-order" production Scenario.empty_key_body
           service_options (world [])).
Definition empty_key_second : World :=
  Eval vm_compute in
    snd (call collaborators "process-order" production Scenario.empty_key_body
           service_options empty_key_first).


End Cases.

(** * Properties *)

(** ** Numerals *)

Lemma span_digits_uint (d : Decimal.uint) (c : ascii) (r : string) :
  Js.isDigit c = false ->
  span_digits (NilEmpty.string_of_uint d ++ String c r)
  = (NilEmpty.string_of_uint d, String c r).
Proof.
  intros Hc.
  induction d; cbn [NilEmpty.string_of_uint append span_digits];
    try (rewrite IHd; reflexivity).
  now rewrite Hc.
Qed.

Lemma uint_nonempty (n : N) :
  exists a s, NilEmpty.string_of_uint (N.to_uint n) = String a s.
Proof.
  destruct n as [|p]; cbn.
  - eauto.
  - pose proof (DecimalPos.Unsigned.to_uint_nonnil p) as H.
    destruct (Pos.to_uint p); try congruence; cbn; eauto.
Qed.

Lemma numeral_nonneg (v : Z) :
  0 <= v -> numeral v = NilEmpty.string_of_uint (N.to_uint (Z.to_N v)).
Proof. destruct v; cbn; intros; try reflexivity; lia. Qed.

Lemma Number_numeral (v : Z) : 0 <= v -> Js.Number (numeral v) = Some v.
Proof.
  intros Hv. rewrite numeral_nonneg by assumption.
  unfold Js.Number. rewrite NilEmpty.usu. cbn.
  rewrite DecimalN.Unsigned.of_to. f_equal. lia.
Qed.

Lemma slice_snoc (s : string) (u : ascii) :
  Js.slice_0_m1 (s ++ String u EmptyString) = s.
Proof.
  induction s as [|a s IH]; cbn; [reflexivity|].
  rewrite IH. destruct s; reflexivity.
Qed.

(** ** Matching one group of the pattern *)

Lemma match_group_empty (u : ascii) : match_group u EmptyString = (None, EmptyString).
Proof. reflexivity. Qed.

Lemma match_group_hit (u : ascii) (v : Z) (r : string) :
  0 <= v -> Js.isDigit u = false ->
  match_group u (numeral v ++ String u r)
  = (Some (numeral v ++ String u EmptyString), r).
Proof.
  intros Hv Hu. unfold match_group.
  rewrite numeral_nonneg by assumption.
  rewrite span_digits_uint by assumption.
  destruct (uint_nonempty (Z.to_N v)) as (a & s & ->).
  now rewrite Ascii.eqb_refl.
Qed.

Lemma match_group_other (u u' : ascii) (v : Z) (r : string) :
  0 <= v -> Js.isDigit u' = false -> Ascii.eqb u' u = false ->
  match_group u (numeral v ++ String u' r) = (None, numeral v ++ String u' r).
Proof.
  intros Hv Hu Hne. unfold match_group.
  rewrite numeral_nonneg by assumption.
  rewrite span_digits_uint by assumption.
  destruct (uint_nonempty (Z.to_N v)) as (a & s & ->).
  now rewrite Hne.
Qed.

Lemma append_snoc (s : string) (u : ascii) (r : string) :
  (s ++ String u EmptyString) ++ r = s ++ String u r.
Proof. induction s; cbn; congruence. Qed.

Lemma match_group_piece (u : ascii) (v : Z) (r : string) :
  0 <= v -> Js.isDigit u = false ->
  match_group u r = (None, r) ->
  match_group u (piece u v ++ r) = (capture u v, r).
Proof.
  intros Hv Hu Hr. unfold piece, capture.
  destruct (v =? 0); cbn [append]; [assumption|].
  rewrite append_snoc. now apply match_group_hit.
Qed.

Lemma match_group_skip (u u' : ascii) (v : Z) (r : string) :
  0 <= v -> Js.isDigit u' = false -> Ascii.eqb u' u = false ->
  match_group u r = (None, r) ->
  match_group u (piece u' v ++ r) = (None, piece u' v ++ r).
Proof.
  intros Hv Hu Hne Hr. unfold piece.
  destruct (v =? 0); cbn [append]; [assumption|].
  rewrite append_snoc. now apply match_group_other.
Qed.

Lemma duration_match_pieces (w d h m s : Z) :
  0 <= w -> 0 <= d -> 0 <= h -> 0 <= m -> 0 <= s ->
  duration_match (piece "w" w ++ piece "d" d ++ piece "h" h ++ piece "m" m
                  ++ piece "s" s ++ EmptyString)
  = Some (capture "w" w, capture "d" d, capture "h" h, capture "m" m, capture "s" s).
Proof.
  intros Hw Hd Hh Hm Hs. unfold duration_match.
  repeat (rewrite match_group_piece;
          [ | assumption | reflexivity
            | repeat (apply match_group_skip;
                      [assumption | reflexivity | reflexivity | ]);
              apply match_group_empty ]).
  reflexivity.
Qed.


Lemma append_empty_r (s : string) : s ++ EmptyString = s.
Proof. induction s; cbn; congruence. Qed.

Lemma concat_empty_cons (x : string) (l : list string) :
  String.concat EmptyString (x :: l) = x ++ String.concat EmptyString l.
Proof.
  destruct l; cbn [String.concat]; [now rewrite append_empty_r | reflexivity].
Qed.

Lemma concat_units (units : list (string * Z)) :
  String.concat EmptyString
    (map (fun e : string * Z => Js.Number_toString (snd e) ++ fst e)
         (filter (fun e : string * Z => negb (snd e =? 0)) units))
  = fold_right (fun e acc =>
                  (if snd e =? 0 then EmptyString else numeral (snd e) ++ fst e) ++ acc)
               EmptyString units.
Proof.
  induction units as [|[u v] units IH]; [reflexivity|].
  cbn [filter fold_right snd fst]. destruct (v =? 0); cbn [negb map].
  - exact IH.
  - rewrite concat_empty_cons, IH. reflexivity.
Qed.

Lemma stringifyDuration_pieces (seconds : Z) :
  0 < seconds ->
  stringifyDuration seconds
  = Some (piece "w" (seconds / 604800)
          ++ piece "d" (Z.rem seconds 604800 / 86400)
          ++ piece "h" (Z.rem seconds 86400 / 3600)
          ++ piece "m" (Z.rem seconds 3600 / 60)
          ++ piece "s" (Z.rem seconds 60) ++ EmptyString).
Proof.
  intros Hpos. unfold stringifyDuration.
  destruct (seconds <=? 0) eqn:E; [lia|]. f_equal.
  rewrite concat_units. reflexivity.
Qed.

Lemma add_element_capture (setter : Z -> Z -> Z) (u : ascii) (v : Z) (st : Z * bool) :
  0 <= v ->
  add_element setter (capture u v) st
  = if v =? 0 then st else (setter v (fst st), true).
Proof.
  intros Hv. unfold capture. destruct (v =? 0) eqn:E; [reflexivity|].
  unfold add_element. rewrite slice_snoc, Number_numeral by assumption.
  destruct (numeral v ++ String u EmptyString) eqn:Es.
  - destruct (numeral v); discriminate.
  - cbn [Js.truthy]. destruct (0 <=? v) eqn:E0; [reflexivity | lia].
Qed.

Lemma setter_fixed (LocalTZA : Z -> bool -> Z) (unit k t : Z) :
  JsDate.fixed_offset LocalTZA ->
  JsDate.UTC LocalTZA (JsDate.LocalTime LocalTZA t + k * unit) = t + k * unit.
Proof.
  intros [c Hc]. unfold JsDate.UTC, JsDate.LocalTime. rewrite !Hc. lia.
Qed.

Lemma roundtrip_fixed (LocalTZA : Z -> bool -> Z) (now n : Z) :
  JsDate.fixed_offset LocalTZA -> 0 < n ->
  exists s, stringifyDuration n = Some s
       /\ parseNaturalLanguageDuration LocalTZA now s = Some (now + 1000 * n).
Proof.
  intros Hfix Hn. eexists. split; [now apply stringifyDuration_pieces|].
  rewrite !Z.rem_mod_nonneg by lia.
  assert (Hw : 0 <= n / 604800) by (apply Z.div_pos; lia).
  assert (Hd : 0 <= n mod 604800 / 86400)
    by (apply Z.div_pos; [apply Z.mod_pos_bound|]; lia).
  assert (Hh : 0 <= n mod 86400 / 3600)
    by (apply Z.div_pos; [apply Z.mod_pos_bound|]; lia).
  assert (Hm : 0 <= n mod 3600 / 60)
    by (apply Z.div_pos; [apply Z.mod_pos_bound|]; lia).
  assert (Hs : 0 <= n mod 60) by (apply Z.mod_pos_bound; lia).
  unfold parseNaturalLanguageDuration.
  rewrite duration_match_pieces by assumption.
  rewrite !add_element_capture by assumption.
  unfold JsDate.setDate_plus, JsDate.setHours_plus, JsDate.setMinutes_plus,
    JsDate.setSeconds_plus.
  assert (Hsum : 7 * (n / 604800) * 86400000 + n mod 604800 / 86400 * 86400000
                 + n mod 86400 / 3600 * 3600000 + n mod 3600 / 60 * 60000
                 + n mod 60 * 1000 = 1000 * n)
    by (clear - Hn; Z.div_mod_to_equations; lia).
  unfold JsDate.msPerDay, JsDate.msPerHour, JsDate.msPerMinute, JsDate.msPerSecond.
  destruct (Z.eqb_spec (n / 604800) 0) as [Ew|Ew],
    (Z.eqb_spec (n mod 604800 / 86400) 0) as [Ed|Ed],
    (Z.eqb_spec (n mod 86400 / 3600) 0) as [Eh|Eh],
    (Z.eqb_spec (n mod 3600 / 60) 0) as [Em|Em],
    (Z.eqb_spec (n mod 60) 0) as [Es|Es];
    cbn [fst snd]; rewrite ?setter_fixed by assumption;
    try (f_equal; lia); exfalso; lia.
Qed.

(** ** Running the service monad *)

Lemma bind_run {A B} (m : M A) (k : A -> M B) (w w1 : World) (a : A) :
  m w = (inr a, w1) -> bind m k w = k a w1.
Proof. intros H. unfold bind. now rewrite H. Qed.

Lemma bind_inv {A B} (m : M A) (k : A -> M B) (w w' : World) (res : ServiceError + B) :
  bind m k w = (res, w') ->
  (exists e, m w = (inl e, w') /\ res = inl e)
  \/ (exists a w1, m w = (inr a, w1) /\ k a w1 = (res, w')).
Proof.
  unfold bind. destruct (m w) as [[e|a] w1]; intros H.
  - left. exists e. now inversion H.
  - right. eauto.
Qed.

Lemma bind_eq {A B} (m : M A) (k : A -> M B) (w w1 : World) (r : ServiceError + A) :
  m w = (r, w1) ->
  bind m k w = match r with inr a => k a w1 | inl e => (inl e, w1) end.
Proof. intros H. unfold bind. rewrite H. now destruct r. Qed.

Section PrepareFacts.

Variable C : Collaborators.
Variable taskId : string.
Variable env : AuthenticatedEnvironment.
Variable body : TriggerTaskRequestBody.
Variable options : TriggerTaskServiceOptions.

Lemma lookup_attempt_run (reference : option string) (w : World) :
  lookup_reference reference taskRunAttempt_findUnique w
  = (inr (resolve_attempt reference w), w).
Proof.
  unfold lookup_reference, resolve_attempt.
  destruct reference as [f|]; [destruct (Js.truthy f)|]; reflexivity.
Qed.

Lemma lookup_batch_run (reference : option string) (w : World) :
  lookup_reference reference batchTaskRun_findUnique w
  = (inr (resolve_batch reference w), w).
Proof.
  unfold lookup_reference, resolve_batch.
  destruct reference as [f|]; [destruct (Js.truthy f)|]; reflexivity.
Qed.

Lemma check_not_terminal_run (attempt : TaskRunAttempt) (w : World) :
  check_not_terminal C taskId attempt w
  = (if terminal C attempt
     then inl (ServiceValidationError (terminal_message C taskId attempt))
     else inr tt, w).
Proof.
  unfold check_not_terminal, terminal, terminal_message.
  destruct (isFinalAttemptStatus C (att_status attempt)); cbn [orb]; [reflexivity|].
  destruct (isFinalRunStatus C (tr_status (att_taskRun attempt))); reflexivity.
Qed.

Lemma handlePayloadPacket_run (w : World) (prefix : string) :
  handlePayloadPacket C (body_payload body)
    (match option_field body opt_payloadType with
     | Some t => t
     | None => "application/json"
     end) prefix env w
  = (inr match offloaded C body with
         | Some _ => {| data := Some (prefix ++ "/payload.json");
                        dataType := "application/store" |}
         | None => request_packet C body
         end,
     match offloaded C body with
     | Some d =>
         with_objectStore (fun l =>
           (l ++ [ {| obj_filename := prefix ++ "/payload.json"; obj_body := d;
                      obj_contentType := dataType (request_packet C body) |} ])%list)
           (with_log (fun l =>
              (l ++ [uploadToObjectStore_call (prefix ++ "/payload.json") d
                       (dataType (request_packet C body)) (env_id env)])%list) w)
     | None => w
     end).
Proof.
  unfold handlePayloadPacket, offloaded. fold (request_packet C body).
  destruct (data (request_packet C body)) as [d|]; [|reflexivity].
  destruct (Js.truthy d); cbn [negb andb]; [|reflexivity].
  destruct (packetRequiresOffloading C (request_packet C body)
              (TASK_PAYLOAD_OFFLOAD_THRESHOLD C)) as [needs size].
  cbn [fst]. destruct needs; reflexivity.
Qed.

(** [parseDelay] reads the clock at most once. *)
Lemma parseDelay_call_run (w : World) :
  parseDelay_call C (option_field body opt_delay) w
  = (inr (parseDelay C (clock w) (option_field body opt_delay)), after_delay C body w).
Proof.
  unfold parseDelay_call, after_delay, reads_clock, parseDelay.
  destruct (option_field body opt_delay) as [[s|time]|]; try reflexivity.
  destruct (Js.truthy s); reflexivity.
Qed.

(** The idempotency gate returns the run it finds. *)
Lemma prepare_existing (w : World) (r : TaskRun) :
  existing_run taskId env body options w = Some r ->
  call_prepare C taskId env body options w
  = (inr (ExistingRun r), after_hit C body r w).
Proof.
  unfold existing_run, effective_key, call_prepare. intros H.
  rewrite (bind_eq _ _ _ _ _ (parseDelay_call_run w)).
  destruct (nullish (so_idempotencyKey options) (option_field body opt_idempotencyKey))
    as [key|]; [|discriminate].
  destruct (Js.truthy key); [|discriminate].
  unfold bind, taskRun_findUnique, gets.
  replace (taskRun (after_delay C body w)) with (taskRun w)
    by (unfold after_delay; destruct (reads_clock body); reflexivity).
  rewrite H. reflexivity.
Qed.

(** References resolve in a world as in the world the call started in:
    the call does not write the tables of attempts and batches. *)
Ltac to_start w :=
  repeat match goal with
    | |- context [resolve_attempt ?r ?W] =>
        lazymatch W with
        | w => fail
        | _ => change (resolve_attempt r W) with (resolve_attempt r w)
        end
    | |- context [resolve_batch ?r ?W] =>
        lazymatch W with
        | w => fail
        | _ => change (resolve_batch r W) with (resolve_batch r w)
        end
    end.

Lemma entitlement_run (w : World) :
  (if negb (EnvironmentType_eqb (env_type env) DEVELOPMENT)
   then
     emit (getEntitlement_call (env_organizationId env)) ;;;
     match getEntitlement C (env_organizationId env) with
     | Some result =>
         if negb (hasAccess result) then throw OutOfEntitlementError else ret tt
     | None => ret tt
     end
   else ret tt) (after_delay C body w)
  = (if entitled C env then inr tt else inl OutOfEntitlementError,
     after_entitlement C env body w).
Proof.
  unfold entitled, after_entitlement.
  destruct (EnvironmentType_eqb (env_type env) DEVELOPMENT); cbn [negb orb];
    [reflexivity|].
  destruct (getEntitlement C (env_organizationId env)) as [[[|]]|]; reflexivity.
Qed.

Lemma tags_run (w : World) :
  match option_field body opt_tags with
  | Some (TagsArray tags) =>
      if MAX_TAGS_PER_RUN <? Z.of_nat (length tags)
      then throw (ServiceValidationError
                    ("Runs can only have " ++ Js.Number_toString MAX_TAGS_PER_RUN
                     ++ " tags, you're trying to set "
                     ++ Js.Number_toString (Z.of_nat (length tags)) ++ "."))
      else ret tt
  | _ => ret tt
  end w
  = (if tags_within_limit body then inr tt
     else inl (ServiceValidationError (tags_message body)), w).
Proof.
  unfold tags_within_limit, tags_message.
  destruct (option_field body opt_tags) as [[tag|tags]|]; try reflexivity.
  destruct (MAX_TAGS_PER_RUN <? Z.of_nat (length tags)); reflexivity.
Qed.

Lemma generateFriendlyId_run_eq (w : World) :
  generateFriendlyId_run C w
  = (inr (generateFriendlyId C "run" (generated w)), with_generated S w).
Proof. reflexivity. Qed.

(** What the part above the tracing envelope does when the lookup finds no
    run: the entitlement check, the limit on tags, the payload handler and
    the checks on the dependent attempts, in this order. *)
Lemma prepare_miss (w : World) :
  existing_run taskId env body options w = None ->
  call_prepare C taskId env body options w
  = if negb (entitled C env)
    then (inl OutOfEntitlementError, after_entitlement C env body w)
    else if negb (tags_within_limit body)
    then (inl (ServiceValidationError (tags_message body)),
          after_entitlement C env body w)
    else match blocking_attempt C body w with
         | Some attempt =>
             (inl (ServiceValidationError (terminal_message C taskId attempt)),
              after_payload C env body w)
         | None =>
             (inr (Proceed (prepared C env body options w)), after_payload C env body w)
         end.
Proof.
  intros Hmiss.
  assert (Hlookup :
    (match nullish (so_idempotencyKey options) (option_field body opt_idempotencyKey) with
     | Some key => if Js.truthy key
                   then taskRun_findUnique (env_id env) key taskId
                   else ret None
     | None => ret None
     end) (after_delay C body w) = (inr None, after_delay C body w)).
  { revert Hmiss. unfold existing_run, effective_key.
    destruct (nullish _ _) as [key|]; [|reflexivity].
    destruct (Js.truthy key); [|reflexivity].
    unfold taskRun_findUnique, gets.
    replace (taskRun (after_delay C body w)) with (taskRun w)
      by (unfold after_delay; destruct (reads_clock body); reflexivity).
    now intros ->. }
  unfold call_prepare.
  rewrite (bind_eq _ _ _ _ _ (parseDelay_call_run w)).
  rewrite (bind_run _ _ _ _ None Hlookup).
  cbv beta iota.
  rewrite (bind_eq _ _ _ _ _ (entitlement_run w)).
  destruct (entitled C env); cbn [negb]; [|reflexivity].
  rewrite (bind_eq _ _ _ _ _ (tags_run _)).
  destruct (tags_within_limit body); cbn [negb]; [|reflexivity].
  rewrite (bind_eq _ _ _ _ _ (generateFriendlyId_run_eq _)).
  rewrite (bind_eq _ _ _ _ _ (handlePayloadPacket_run _ _)).
  unfold blocking_attempt, prepared, after_payload, handled_packet, payload_filename,
    run_friendlyId, after_entitlement, after_delay.
  destruct (reads_clock body);
  destruct (EnvironmentType_eqb (env_type env) DEVELOPMENT) eqn:Edev;
  (destruct (offloaded C body) as [d|];
   rewrite (bind_eq _ _ _ _ _ (lookup_attempt_run _ _)); to_start w;
   (destruct (resolve_attempt (option_field body opt_dependentAttempt) w) as [dep|];
    [ rewrite (bind_eq _ _ _ _ _ (check_not_terminal_run _ _));
      destruct (terminal C dep); [reflexivity|]
    | rewrite (bind_eq _ _ _ _ _ (eq_refl : ret tt _ = (inr tt, _))) ]);
   rewrite (bind_eq _ _ _ _ _ (lookup_attempt_run _ _));
   rewrite (bind_eq _ _ _ _ _ (lookup_batch_run _ _)); to_start w;
   (destruct (resolve_batch (option_field body opt_dependentBatch) w) as [batch|];
    [ destruct (batch_dependentTaskAttempt batch) as [a|];
      [ rewrite (bind_eq _ _ _ _ _ (check_not_terminal_run _ _));
        destruct (terminal C a); [reflexivity|]
      | rewrite (bind_eq _ _ _ _ _ (eq_refl : ret tt _ = (inr tt, _))) ]
    | rewrite (bind_eq _ _ _ _ _ (eq_refl : ret tt _ = (inr tt, _))) ]);
   rewrite (bind_eq _ _ _ _ _ (lookup_batch_run _ _));
   unfold ret, effective_key, request_ttl, request_metadata;
   try rewrite Edev; reflexivity).
Qed.

End PrepareFacts.

(** ** The tracing and counter envelopes *)

Lemma logged_nil (w : World) : logged [] w = w.
Proof. destruct w. unfold logged, with_log. cbn. now rewrite app_nil_r. Qed.

Lemma logged_logged (a b : list Effect) (w : World) :
  logged b (logged a w) = logged (a ++ b) w.
Proof. unfold logged, with_log. cbn. now rewrite app_assoc. Qed.

Lemma emit_run (e : Effect) (w : World) : emit e w = (inr tt, logged [e] w).
Proof. reflexivity. Qed.

Lemma new_effects_logged (new : list Effect) (w : World) :
  new_effects w (logged new w) = new.
Proof.
  unfold new_effects, logged, with_log. cbn.
  rewrite skipn_app, skipn_all, Nat.sub_diag. reflexivity.
Qed.

Lemma after_queued_logged (C : Collaborators) (p : Prepared) (new : list Effect)
      (w : World) :
  after_queued C p (logged new w) = logged new (after_queued C p w).
Proof. unfold after_queued. destruct (p_delayUntil p); reflexivity. Qed.

Section PersistFacts.

Variable C : Collaborators.
Variable taskId : string.
Variable env : AuthenticatedEnvironment.
Variable body : TriggerTaskRequestBody.
Variable options : TriggerTaskServiceOptions.

Lemma getQueueName_read (q : option string) (w : World) :
  exists name, getQueueName C taskId env q w = (inr name, w).
Proof.
  unfold getQueueName.
  assert (H : exists name,
    match findCurrentWorkerFromEnvironment C env with
    | None => ret ("task/" ++ taskId)
    | Some worker =>
        task <- backgroundWorkerTask_findUnique (worker_id worker) taskId ;;
        match task with
        | None => ret ("task/" ++ taskId)
        | Some task =>
            match bwt_queueConfig task with
            | ParseFailure => ret ("task/" ++ taskId)
            | ParseNullish => ret ("task/" ++ taskId)
            | ParseSuccess config =>
                ret (match queue_name config with
                     | Some n => n
                     | None => "task/" ++ taskId
                     end)
            end
        end
    end w = (inr name, w)).
  { destruct (findCurrentWorkerFromEnvironment C env) as [worker|];
      [|eexists; reflexivity].
    unfold bind, backgroundWorkerTask_findUnique, gets.
    destruct (find _ (backgroundWorkerTask w)) as [task|]; [|eexists; reflexivity].
    destruct (bwt_queueConfig task); eexists; reflexivity. }
  destruct q as [name|]; [destruct (Js.truthy name)|]; try exact H.
  eexists; reflexivity.
Qed.

Lemma createTags_run (l : list string) (w : World) :
  for_each (fun tag =>
              emit (createTag_call tag (env_projectId env)) ;;;
              ret (option_map tag_id (createTag C tag (env_projectId env)))) l w
  = (inr (flat_map (fun tag =>
                      match createTag C tag (env_projectId env) with
                      | Some record => [tag_id record]
                      | None => []
                      end) l),
     logged (map (fun tag => createTag_call tag (env_projectId env)) l) w).
Proof.
  revert w. induction l as [|tag l IH]; intros w.
  - cbn. now rewrite logged_nil.
  - cbn [for_each flat_map map].
    rewrite (bind_eq _ _ _ _ _ (eq_refl :
      (emit (createTag_call tag (env_projectId env)) ;;;
       ret (option_map tag_id (createTag C tag (env_projectId env)))) w
      = (inr (option_map tag_id (createTag C tag (env_projectId env))),
         logged [createTag_call tag (env_projectId env)] w))).
    rewrite (bind_eq _ _ _ _ _ (IH _)). unfold ret.
    rewrite logged_logged. cbn [app].
    destruct (createTag C tag (env_projectId env)); reflexivity.
Qed.

Lemma create_run_run (p : Prepared) (event : TraceEvent) (num : Z) (w : World) :
  exists r new,
    create_run C taskId env body options p event num w
    = engine_trigger r (logged new (after_queued C p w))
    /\ built_from taskId env p num r
    /\ forallb is_envelope_effect new = true
    /\ forallb (fun e => negb (is_engine_trigger e)) new = true.
Proof.
  unfold create_run.
  assert (Hlock : exists locked,
    match option_field body opt_lockToVersion with
    | Some version =>
        if Js.truthy version
        then backgroundWorker_findUnique (env_projectId env) (env_id env) version
        else ret None
    | None => ret None
    end w = (inr locked, w)).
  { destruct (option_field body opt_lockToVersion) as [v|];
      [destruct (Js.truthy v)|]; eexists; reflexivity. }
  destruct Hlock as [locked Hlock].
  rewrite (bind_eq _ _ _ _ _ Hlock).
  destruct (getQueueName_read
              (match option_field body opt_queue with
               | Some q => queue_name q
               | None => None
               end) w) as [name Hname].
  rewrite (bind_eq _ _ _ _ _ Hname). cbv zeta.
  rewrite (bind_eq _ _ _ _ _ (emit_run _ _)).
  rewrite (bind_eq _ _ _ _ _ (emit_run _ _)).
  rewrite logged_logged.
  assert (Htags : exists ids tagCalls,
    forall w1,
    match match option_field body opt_tags with
          | Some (TagsString tag) => Some [tag]
          | Some (TagsArray tags) => Some tags
          | None => None
          end with
    | Some bodyTags =>
        for_each (fun tag =>
          emit (createTag_call tag (env_projectId env)) ;;;
          ret (option_map tag_id (createTag C tag (env_projectId env)))) bodyTags
    | None => ret []
    end w1 = (inr ids, logged tagCalls w1)
    /\ forallb is_envelope_effect tagCalls = true
    /\ forallb (fun e => negb (is_engine_trigger e)) tagCalls = true).
  { assert (Hall : forall l : list string,
      forallb is_envelope_effect
        (map (fun tag => createTag_call tag (env_projectId env)) l) = true
      /\ forallb (fun e => negb (is_engine_trigger e))
           (map (fun tag => createTag_call tag (env_projectId env)) l) = true).
    { induction l as [|x l [IH1 IH2]]; cbn; auto. }
    destruct (option_field body opt_tags) as [[tag|tags]|].
    - do 2 eexists. intros w1. rewrite createTags_run. split; [reflexivity|apply Hall].
    - do 2 eexists. intros w1. rewrite createTags_run. split; [reflexivity|apply Hall].
    - exists [], []. intros w1. unfold ret. rewrite logged_nil. auto. }
  destruct Htags as (ids & tagCalls & Htags).
  match goal with
  | |- context [bind _ _ ?W] => destruct (Htags W) as (Hrun & Hallowed & Hnoengine)
  end.
  rewrite (bind_eq _ _ _ _ _ Hrun).
  rewrite (bind_eq _ _ _ _ _ (emit_run _ _)).
  rewrite (bind_eq _ _ _ _ _ (emit_run _ _)).
  rewrite !logged_logged.
  assert (Hq : forall w1, exists queued,
    (match p_delayUntil p with
     | Some _ => ret None
     | None => now <- Date_now C ;; ret (Some now)
     end : M (option Z)) w1 = (inr queued, after_queued C p w1)
    /\ (queued = None <-> p_delayUntil p <> None)).
  { intros w1. unfold after_queued.
    destruct (p_delayUntil p); eexists; (split; [reflexivity|]);
      split; congruence. }
  match goal with
  | |- context [bind _ _ ?W] => destruct (Hq W) as (queued & Hqrun & Hqueued)
  end.
  rewrite (bind_eq _ _ _ _ _ Hqrun), after_queued_logged.
  do 2 eexists. split; [reflexivity|]. split.
  - unfold built_from. cbn.
    repeat split; try reflexivity; try apply Hqueued.
    destruct (p_dependentAttempt p), (p_dependentBatchRun p); reflexivity.
  - rewrite !forallb_app, Hallowed, Hnoengine. split; reflexivity.
Qed.

Lemma engine_trigger_run (r : TaskRun) (w : World) :
  engine_trigger r w
  = if clashes r w
    then (inl (CollaboratorError "Unique constraint failed"),
          logged [engine_trigger_call r] w)
    else (inr r, with_taskRun (fun l => (l ++ [r])%list)
                   (logged [engine_trigger_call r] w)).
Proof.
  unfold engine_trigger, clashes.
  rewrite (bind_eq _ _ _ _ _ (emit_run _ _)).
  destruct (idempotencyKey r) as [key|].
  - unfold bind, gets. cbn [taskRun logged with_log].
    destruct (existsb _ (taskRun w)); reflexivity.
  - reflexivity.
Qed.

Lemma incrementInTransaction_run {A} (callback : Z -> M A) (w : World) :
  incrementInTransaction (counter_key taskId env) callback (deriveInitial taskId env) w
  = match callback (last_number taskId (env_id env) w + 1)
            (logged [incrementInTransaction_call (counter_key taskId env)] w) with
    | (inr result, after) =>
        (inr result,
         with_counters (counter_set (counter_key taskId env)
                          (last_number taskId (env_id env) w + 1)) after)
    | (inl e, after) =>
        (inl e, rollback (logged [incrementInTransaction_call (counter_key taskId env)] w)
                  after)
    end.
Proof.
  unfold incrementInTransaction.
  rewrite (bind_eq _ _ _ _ _ (emit_run _ _)).
  unfold last_number, counter_key. cbn [counters logged with_log].
  unfold bind at 1. unfold gets at 1. cbn [counters logged with_log].
  destruct (counter_get _ (counters w)) as [n|].
  - unfold bind at 1. unfold ret at 1.
    unfold bind, modify, ret.
    destruct (callback (n + 1) _) as [[e|a] after]; reflexivity.
  - unfold deriveInitial, taskRunNumberCounter_findUnique.
    unfold bind, gets, modify, ret. cbn [taskRunNumberCounter logged with_log].
    destruct (find _ (taskRunNumberCounter w)) as [c|]; cbn [option_map];
      destruct (callback _ _) as [[e|a] after]; reflexivity.
Qed.

Lemma counter_get_set (key : string) (v : Z) (m : list (string * Z)) :
  counter_get key (counter_set key v m) = Some v.
Proof.
  induction m as [|[k v'] m IH]; cbn.
  - now rewrite String.eqb_refl.
  - destruct (String.eqb k key) eqn:E; cbn; now rewrite E.
Qed.

(** What the envelopes do: they make the run from the prepared values
    and the next number of the counter, insert it and move the counter, or
    throw and leave the rows as they were. *)
Lemma persist_outcome (p : Prepared) (w w' : World) (res : ServiceError + TaskRun) :
  call_persist C taskId env body options p w = (res, w') ->
  static w w'
  /\ objectStore w' = objectStore w
  /\ (exists new, log w' = (log w ++ new)%list
                  /\ forallb is_envelope_effect new = true
                  /\ existsb is_traceEvent new = true
                  /\ match res with
                     | inr r => In (engine_trigger_call r) new
                     | inl _ => True
                     end)
  /\ match res with
     | inr r =>
         built_from taskId env p (last_number taskId (env_id env) w + 1) r
         /\ taskRun w' = (taskRun w ++ [r])%list
         /\ last_number taskId (env_id env) w' = number r
     | inl _ =>
         taskRun w' = taskRun w /\ counters w' = counters w
     end.
Proof.
  unfold call_persist, traceEvent.
  rewrite (bind_eq _ _ _ _ _ (eq_refl : gets generated w = (inr (generated w), w))).
  rewrite (bind_eq _ _ _ _ _ (eq_refl :
    modify (with_generated S) w = (inr tt, with_generated S w))).
  rewrite (bind_eq _ _ _ _ _ (emit_run _ _)).
  rewrite incrementInTransaction_run.
  match goal with
  | |- context [create_run C taskId env body options p ?ev ?num ?W] =>
      destruct (create_run_run p ev num W) as (r & new & Hrun & Hbuilt & Hallowed & Hquiet)
  end.
  rewrite Hrun, engine_trigger_run. unfold after_queued.
  destruct (p_delayUntil p).
  {
    destruct (clashes r _) eqn:Eclash; intros H; inversion H; subst; clear H;
      cbv beta iota;
      (split; [unfold static; cbn; tauto|]); (split; [reflexivity|]); split.
    - eexists. split; [cbn; rewrite <- !app_assoc; reflexivity|].
      split; [|split; [reflexivity|exact I]].
      cbn [forallb app]. rewrite !forallb_app, Hallowed. reflexivity.
    - split; reflexivity.
    - eexists. split; [cbn; rewrite <- !app_assoc; reflexivity|].
      split; [|split; [reflexivity|]].
      + cbn [forallb app]. rewrite !forallb_app, Hallowed. reflexivity.
      + rewrite !in_app_iff. cbn [In]. tauto.
    - split; [exact Hbuilt|]. split; [reflexivity|].
      unfold last_number at 1. cbn [counters with_counters].
      fold (counter_key taskId env). rewrite counter_get_set.
      symmetry. apply Hbuilt.
  }
  {
    destruct (clashes r _) eqn:Eclash; intros H; inversion H; subst; clear H;
      cbv beta iota;
      (split; [unfold static; cbn; tauto|]); (split; [reflexivity|]); split.
    - eexists. split; [cbn; rewrite <- !app_assoc; reflexivity|].
      split; [|split; [reflexivity|exact I]].
      cbn [forallb app]. rewrite !forallb_app, Hallowed. reflexivity.
    - split; reflexivity.
    - eexists. split; [cbn; rewrite <- !app_assoc; reflexivity|].
      split; [|split; [reflexivity|]].
      + cbn [forallb app]. rewrite !forallb_app, Hallowed. reflexivity.
      + rewrite !in_app_iff. cbn [In]. tauto.
    - split; [exact Hbuilt|]. split; [reflexivity|].
      unfold last_number at 1. cbn [counters with_counters].
      fold (counter_key taskId env). rewrite counter_get_set.
      symmetry. apply Hbuilt.
  }
Qed.

End PersistFacts.

(** ** A call as a whole *)

Section CallFacts.

Variable C : Collaborators.
Variable taskId : string.
Variable env : AuthenticatedEnvironment.
Variable body : TriggerTaskRequestBody.
Variable options : TriggerTaskServiceOptions.

Lemma after_entitlement_facts (w : World) :
  static w (after_entitlement C env body w)
  /\ taskRun (after_entitlement C env body w) = taskRun w
  /\ counters (after_entitlement C env body w) = counters w
  /\ objectStore (after_entitlement C env body w) = objectStore w
  /\ generated (after_entitlement C env body w) = generated w
  /\ log (after_entitlement C env body w) = (log w ++ entitlement_log env)%list.
Proof.
  unfold after_entitlement, after_delay, entitlement_log, static.
  destruct (reads_clock body);
  destruct (EnvironmentType_eqb (env_type env) DEVELOPMENT); cbn;
    rewrite ?app_nil_r; tauto.
Qed.

Lemma after_hit_facts (r : TaskRun) (w : World) :
  static w (after_hit C body r w)
  /\ taskRun (after_hit C body r w) = taskRun w
  /\ counters (after_hit C body r w) = counters w
  /\ objectStore (after_hit C body r w) = objectStore w
  /\ log (after_hit C body r w)
     = (log w ++ [span_setAttribute "runId" (friendlyId r)])%list.
Proof.
  unfold after_hit, after_delay, static.
  destruct (reads_clock body); cbn; tauto.
Qed.

Lemma after_payload_facts (w : World) :
  static w (after_payload C env body w)
  /\ taskRun (after_payload C env body w) = taskRun w
  /\ counters (after_payload C env body w) = counters w
  /\ objectStore (after_payload C env body w) = (objectStore w ++ uploaded C body w)%list
  /\ log (after_payload C env body w)
     = (log w ++ entitlement_log env ++ upload_log C env body w)%list.
Proof.
  destruct (after_entitlement_facts w) as (Hs & Ht & Hc & Ho & Hg & Hl).
  unfold static in *. unfold after_payload, uploaded, upload_log.
  destruct (offloaded C body) as [d|]; cbn;
    rewrite ?Ht, ?Hc, ?Ho, ?Hl, ?app_nil_r, <- ?app_assoc; tauto.
Qed.

Lemma new_effects_app (w w' : World) (new : list Effect) :
  log w' = (log w ++ new)%list -> new_effects w w' = new.
Proof.
  intros H. unfold new_effects. rewrite H, skipn_app, skipn_all, Nat.sub_diag.
  reflexivity.
Qed.

Lemma entitlement_log_quiet :
  forallb (fun e => negb (is_database_write e || is_traceEvent e || is_upload e))
          (entitlement_log env) = true.
Proof.
  unfold entitlement_log.
  destruct (EnvironmentType_eqb (env_type env) DEVELOPMENT); reflexivity.
Qed.

Lemma upload_log_quiet (w : World) :
  forallb (fun e => negb (is_database_write e || is_traceEvent e)) (upload_log C env body w) = true.
Proof. unfold upload_log. destruct (offloaded C body); reflexivity. Qed.

(** A call that returns a run the lookup did not find has passed every
    check, and its run comes out of the envelopes. *)
Lemma call_created (w w' : World) (r : TaskRun) :
  call C taskId env body options w = (inr r, w') ->
  existing_run taskId env body options w = None ->
  entitled C env = true
  /\ tags_within_limit body = true
  /\ blocking_attempt C body w = None
  /\ call_persist C taskId env body options (prepared C env body options w)
       (after_payload C env body w) = (inr r, w').
Proof.
  intros Hcall Hmiss. unfold call, bind in Hcall.
  rewrite (prepare_miss C taskId env body options w Hmiss) in Hcall.
  destruct (entitled C env); cbn [negb] in Hcall; [|discriminate].
  destruct (tags_within_limit body); cbn [negb] in Hcall; [|discriminate].
  destruct (blocking_attempt C body w); [discriminate|].
  auto.
Qed.

(** A call that throws without a tracing event has thrown above the
    envelopes. *)
Lemma call_thrown_early (w w' : World) (e : ServiceError) :
  call C taskId env body options w = (inl e, w') ->
  forallb (fun ef => negb (is_traceEvent ef)) (new_effects w w') = true ->
  call_prepare C taskId env body options w = (inl e, w').
Proof.
  intros Hcall Hquiet. unfold call in Hcall.
  apply bind_inv in Hcall. destruct Hcall as [(e' & Hp & He) | (a & w1 & Hp & Hk)].
  - now inversion He; subst.
  - exfalso. destruct a as [r|p]; [discriminate|].
    destruct (persist_outcome _ _ _ _ _ _ _ _ _ Hk)
      as (_ & _ & (new & Hlog & _ & Htrace & _) & _).
    assert (Hpre : exists pre, log w1 = (log w ++ pre)%list).
    { destruct (existing_run taskId env body options w) as [r|] eqn:Ex.
      - rewrite (prepare_existing C taskId env body options w r Ex) in Hp.
        discriminate.
      - rewrite (prepare_miss C taskId env body options w Ex) in Hp.
        destruct (negb (entitled C env)); [discriminate|].
        destruct (negb (tags_within_limit body)); [discriminate|].
        destruct (blocking_attempt C body w); [discriminate|].
        inversion Hp; subst.
        destruct (after_payload_facts w) as (_ & _ & _ & _ & Hl). eauto. }
    destruct Hpre as [pre Hpre].
    rewrite Hpre, <- app_assoc in Hlog.
    rewrite (new_effects_app _ _ _ Hlog), forallb_app in Hquiet.
    apply andb_true_iff in Hquiet. destruct Hquiet as [_ Hquiet].
    clear - Htrace Hquiet. induction new as [|x new IH]; [discriminate|].
    cbn in *. destruct (is_traceEvent x); cbn in *; [discriminate|auto].
Qed.

(** How the part above the envelopes throws: at the entitlement check,
    at the limit on tags, or at a dependent attempt in a final status,
    and then after the payload handler. *)
Lemma prepare_thrown (w w' : World) (e : ServiceError) :
  call_prepare C taskId env body options w = (inl e, w') ->
  taskRun w' = taskRun w /\ counters w' = counters w /\ static w w'
  /\ ((entitled C env = false /\ e = OutOfEntitlementError
       /\ objectStore w' = objectStore w
       /\ new_effects w w' = entitlement_log env)
      \/ (entitled C env = true /\ tags_within_limit body = false
          /\ e = ServiceValidationError (tags_message body)
          /\ objectStore w' = objectStore w
          /\ new_effects w w' = entitlement_log env)
      \/ (entitled C env = true /\ tags_within_limit body = true
          /\ (exists a, blocking_attempt C body w = Some a
                         /\ e = ServiceValidationError (terminal_message C taskId a))
          /\ objectStore w' = (objectStore w ++ uploaded C body w)%list
          /\ new_effects w w' = (entitlement_log env ++ upload_log C env body w)%list)).
Proof.
  intros Hp.
  destruct (existing_run taskId env body options w) as [r|] eqn:Ex.
  { rewrite (prepare_existing C taskId env body options w r Ex) in Hp. discriminate. }
  rewrite (prepare_miss C taskId env body options w Ex) in Hp.
  destruct (after_entitlement_facts w) as (Hs & Ht & Hc & Ho & _ & Hl).
  destruct (after_payload_facts w) as (Hs' & Ht' & Hc' & Ho' & Hl').
  destruct (entitled C env); cbn [negb] in Hp.
  - destruct (tags_within_limit body); cbn [negb] in Hp.
    + destruct (blocking_attempt C body w) as [a|]; [|discriminate].
      inversion Hp; subst. repeat split; try assumption; try apply Hs'.
      right. right. repeat split; eauto using new_effects_app.
    + inversion Hp; subst. repeat split; try assumption; try apply Hs.
      right. left. repeat split; eauto using new_effects_app.
  - inversion Hp; subst. repeat split; try assumption; try apply Hs.
    left. repeat split; eauto using new_effects_app.
Qed.

Lemma blocking_attempt_terminal (w : World) (a : TaskRunAttempt) :
  blocking_attempt C body w = Some a -> terminal C a = true.
Proof.
  unfold blocking_attempt.
  destruct (resolve_attempt _ w) as [dep|];
    [destruct (terminal C dep) eqn:Et; [intros H; inversion H; now subst|]|];
    (destruct (resolve_batch _ w) as [b|]; [|discriminate];
     destruct (batch_dependentTaskAttempt b) as [x|]; [|discriminate];
     destruct (terminal C x) eqn:Ex; [|discriminate];
     intros H; inversion H; now subst).
Qed.

Lemma blocking_attempt_found (w : World) (a : TaskRunAttempt) :
  resolve_attempt (option_field body opt_dependentAttempt) w = Some a
  \/ (exists b, resolve_batch (option_field body opt_dependentBatch) w = Some b
                /\ batch_dependentTaskAttempt b = Some a) ->
  terminal C a = true ->
  exists a', blocking_attempt C body w = Some a'.
Proof.
  intros [Hdep | (b & Hb & Ha)] Hterm; unfold blocking_attempt.
  - rewrite Hdep, Hterm. eauto.
  - rewrite Hb, Ha, Hterm.
    destruct (resolve_attempt _ w) as [dep|]; [destruct (terminal C dep)|]; eauto.
Qed.

Lemma terminal_message_states (a : TaskRunAttempt) :
  terminal C a = true ->
  states_terminal_status C taskId (terminal_message C taskId a).
Proof.
  unfold terminal, terminal_message, states_terminal_status.
  destruct (isFinalAttemptStatus C (att_status a)) eqn:Ea; cbn [orb]; intros Hr.
  - exists (att_status a). left. auto.
  - exists (tr_status (att_taskRun a)). right. auto.
Qed.

Lemma forallb_weaken {A} (P Q : A -> bool) (l : list A) :
  (forall x, P x = true -> Q x = true) -> forallb P l = true -> forallb Q l = true.
Proof.
  intros H. induction l as [|x l IH]; cbn; [auto|].
  intros Hl. apply andb_true_iff in Hl. destruct Hl as [Hx Hl].
  now rewrite (H x Hx), (IH Hl).
Qed.

Lemma prepare_log_quiet (w : World) :
  forallb (fun e => negb (is_database_write e || is_traceEvent e))
          (entitlement_log env ++ upload_log C env body w) = true.
Proof.
  rewrite forallb_app, upload_log_quiet, andb_true_r.
  eapply forallb_weaken; [|apply entitlement_log_quiet].
  intros x. destruct x; cbn; auto.
Qed.

(** No run is created and the engine is not called when the part above
    the envelopes does not hand over to them. *)
Lemma no_run_without_envelopes (w w' : World) (res : ServiceError + TaskRun) :
  call C taskId env body options w = (res, w') ->
  (forall p w1, call_prepare C taskId env body options w <> (inr (Proceed p), w1)) ->
  taskRun w' = taskRun w
  /\ forallb (fun e => negb (is_engine_trigger e)) (new_effects w w') = true.
Proof.
  intros Hcall Hno. unfold call in Hcall. apply bind_inv in Hcall.
  destruct Hcall as [(e & Hp & He) | (a & w1 & Hp & Hk)].
  - destruct (prepare_thrown _ _ _ Hp) as (Ht & _ & _ & Hcases). split; [exact Ht|].
    assert (Hq := prepare_log_quiet w).
    rewrite forallb_app in Hq. apply andb_true_iff in Hq. destruct Hq as [Hq1 Hq2].
    destruct Hcases as [(_ & _ & _ & ->) | [(_ & _ & _ & _ & ->) | (_ & _ & _ & _ & ->)]];
      [ | | rewrite forallb_app; apply andb_true_iff; split ];
      try (eapply forallb_weaken; [|exact Hq1]; intros x; destruct x; cbn; auto);
      (eapply forallb_weaken; [|exact Hq2]; intros x; destruct x; cbn; auto).
  - destruct a as [r|p]; [|exfalso; eapply Hno; eauto].
    destruct (existing_run taskId env body options w) as [r'|] eqn:Ex.
    + rewrite (prepare_existing C taskId env body options w r' Ex) in Hp.
      inversion Hp; subst. inversion Hk; subst.
      destruct (after_hit_facts r w) as (_ & Ht & _ & _ & Hl).
      split; [exact Ht|]. rewrite (new_effects_app _ _ _ Hl). reflexivity.
    + rewrite (prepare_miss C taskId env body options w Ex) in Hp.
      destruct (negb (entitled C env)); [discriminate|].
      destruct (negb (tags_within_limit body)); [discriminate|].
      destruct (blocking_attempt C body w); discriminate.
Qed.

End CallFacts.

(** * The claims *)

(** ** The idempotency lookup *)

(** The lookup on a key that is not empty: for every call with such an
    effective idempotency key for which a run with that environment, task
    and key exists, the call returns that run, and from the lookup on all it
    does is set the attribute [runId] of the span: the entitlement service,
    the tracing envelope and the engine are not called, and nothing is
    written. *)
Lemma idempotency_hit_returns_existing_run
      (C : Collaborators) (taskId : string) (env : AuthenticatedEnvironment)
      (body : TriggerTaskRequestBody) (options : TriggerTaskServiceOptions)
      (w : World) (key : string) (r : TaskRun) :
  effective_key body options = Some key ->
  Js.truthy key = true ->
  find (same_idempotency (env_id env) key taskId) (taskRun w) = Some r ->
  exists w',
    call C taskId env body options w = (inr r, w')
    /\ new_effects w w' = [span_setAttribute "runId" (friendlyId r)]
    /\ forallb (fun e => negb (is_getEntitlement e || is_traceEvent e
                               || is_engine_trigger e)) (new_effects w w') = true
    /\ taskRun w' = taskRun w /\ counters w' = counters w
    /\ objectStore w' = objectStore w.
Proof.
  intros Hkey Htruthy Hfind.
  assert (Hex : existing_run taskId env body options w = Some r).
  { unfold existing_run. now rewrite Hkey, Htruthy. }
  eexists. split.
  - unfold call. rewrite (bind_eq _ _ _ _ _ (prepare_existing C _ _ _ _ _ _ Hex)).
    reflexivity.
  - destruct (after_hit_facts C body r w) as (_ & Ht & Hc & Ho & Hl).
    rewrite (new_effects_app _ _ _ Hl). repeat split; assumption.
Qed.

Example idempotency_hit_example :
  exists w',
    call Examples.collaborators "process-order" Examples.production Scenario.abc_body
         Examples.service_options Scenario.abc_world
    = (inr (Examples.stored_run (Some "abc")), w')
    /\ new_effects Scenario.abc_world w' = [span_setAttribute "runId" "run_stored"]
    /\ forallb (fun e => negb (is_getEntitlement e || is_traceEvent e
                               || is_engine_trigger e))
               (new_effects Scenario.abc_world w') = true
    /\ taskRun w' = taskRun Scenario.abc_world
    /\ counters w' = counters Scenario.abc_world
    /\ objectStore w' = objectStore Scenario.abc_world.
Proof.
  apply (idempotency_hit_returns_existing_run Examples.collaborators "process-order"
           Examples.production Scenario.abc_body Examples.service_options
           Scenario.abc_world "abc" (Examples.stored_run (Some "abc")));
    reflexivity.
Qed.

(** ** Failures above the persisted run creator *)

(** C3, as amended: a call that throws before it reaches the tracing
    envelope has written no row and has not called the engine; it has not
    uploaded anything either when it throws at the entitlement check or at
    the limit on tags, or when its payload needs no offloading.  A call that
    gets past both checks with a payload that needs offloading has uploaded
    it when a dependent attempt in a final status stops it: the payload
    handler runs before the dependencies are resolved. *)
Theorem failure_above_envelopes
        (C : Collaborators) (taskId : string) (env : AuthenticatedEnvironment)
        (body : TriggerTaskRequestBody) (options : TriggerTaskServiceOptions)
        (w w' : World) (e : ServiceError) :
  call C taskId env body options w = (inl e, w') ->
  forallb (fun ef => negb (is_traceEvent ef)) (new_effects w w') = true ->
  taskRun w' = taskRun w
  /\ counters w' = counters w
  /\ forallb (fun ef => negb (is_database_write ef)) (new_effects w w') = true
  /\ (entitled C env = false \/ tags_within_limit body = false
      \/ offloaded C body = None ->
      objectStore w' = objectStore w
      /\ forallb (fun ef => negb (is_upload ef)) (new_effects w w') = true)
  /\ (forall d,
        entitled C env = true -> tags_within_limit body = true ->
        offloaded C body = Some d ->
        (exists a, blocking_attempt C body w = Some a
                   /\ e = ServiceValidationError (terminal_message C taskId a))
        /\ objectStore w'
           = (objectStore w
              ++ [ {| obj_filename := generateFriendlyId C "run" (generated w)
                                      ++ "/payload.json";
                      obj_body := d;
                      obj_contentType := dataType (request_packet C body) |} ])%list).
Proof.
  intros Hcall Hquiet.
  pose proof (call_thrown_early C _ _ _ _ _ _ _ Hcall Hquiet) as Hp.
  destruct (prepare_thrown C _ _ _ _ _ _ _ Hp) as (Ht & Hc & _ & Hcases).
  assert (Hent : forallb (fun ef => negb (is_database_write ef || is_upload ef))
                         (entitlement_log env) = true).
  { eapply forallb_weaken; [|apply entitlement_log_quiet].
    intros x. destruct x; cbn; auto. }
  assert (Hup : forallb (fun ef => negb (is_database_write ef))
                        (upload_log C env body w) = true).
  { eapply forallb_weaken; [|apply upload_log_quiet].
    intros x. destruct x; cbn; auto. }
  split; [exact Ht|]. split; [exact Hc|]. split; [|split].
  - destruct Hcases as [(_ & _ & _ & ->) | [(_ & _ & _ & _ & ->) | (_ & _ & _ & _ & ->)]];
      rewrite ?forallb_app, ?Hup, ?andb_true_r;
      (eapply forallb_weaken; [|exact Hent]; intros x; destruct x; cbn; auto).
  - intros Hwhy.
    destruct Hcases as [(_ & _ & Ho & ->) | [(_ & _ & _ & Ho & ->) | (He & Htg & _ & Ho & ->)]];
      try (split; [exact Ho|];
           eapply forallb_weaken; [|exact Hent]; intros x; destruct x; cbn; auto).
    destruct Hwhy as [Hwhy | [Hwhy | Hwhy]]; try congruence.
    unfold uploaded in Ho. unfold upload_log. rewrite Hwhy in *.
    rewrite app_nil_r in *. split; [exact Ho|].
    eapply forallb_weaken; [|exact Hent]; intros x; destruct x; cbn; auto.
  - intros d He Htg Hoff.
    destruct Hcases as [(He' & _) | [(_ & Htg' & _) | (_ & _ & Ha & Ho & _)]];
      try congruence.
    split; [exact Ha|]. unfold uploaded in Ho. rewrite Hoff in Ho. exact Ho.
Qed.

Lemma failure_above_envelopes_witness :
  call Examples.collaborators "process-order" Examples.production
       Scenario.failed_parent_small_body Examples.service_options (Examples.world [])
  = (inl Scenario.failed_parent_error, Scenario.failed_parent_small_world)
  /\ taskRun Scenario.failed_parent_small_world = []
  /\ counters Scenario.failed_parent_small_world = []
  /\ forallb (fun ef => negb (is_database_write ef))
             (new_effects (Examples.world []) Scenario.failed_parent_small_world) = true
  /\ objectStore Scenario.failed_parent_small_world = [].
Proof.
  assert (Hcall :
    call Examples.collaborators "process-order" Examples.production
         Scenario.failed_parent_small_body Examples.service_options (Examples.world [])
    = (inl Scenario.failed_parent_error, Scenario.failed_parent_small_world))
    by (vm_compute; reflexivity).
  destruct (failure_above_envelopes Examples.collaborators "process-order"
              Examples.production Scenario.failed_parent_small_body
              Examples.service_options (Examples.world [])
              Scenario.failed_parent_small_world Scenario.failed_parent_error
              Hcall eq_refl) as (Ht & Hc & Hw & Hstore & _).
  destruct (Hstore (or_intror (or_intror eq_refl))) as [Ho _].
  repeat split; assumption.
Defined.

(** C3, as stated, fails: a call with a payload that needs offloading and a
    dependent attempt in the status FAILED throws the validation error
    before the tracing envelope, and the payload is in the object store. *)
Lemma upload_precedes_dependency_check :
  fst (call Examples.collaborators "process-order" Examples.production
         Scenario.failed_parent_body Examples.service_options (Examples.world []))
  = inl (ServiceValidationError
           "Cannot trigger process-order as the parent attempt has a status of FAILED")
  /\ forallb (fun ef => negb (is_traceEvent ef))
       (new_effects (Examples.world [])
          (snd (call Examples.collaborators "process-order" Examples.production
                  Scenario.failed_parent_body Examples.service_options
                  (Examples.world [])))) = true
  /\ objectStore (Examples.world []) = []
  /\ objectStore
       (snd (call Examples.collaborators "process-order" Examples.production
               Scenario.failed_parent_body Examples.service_options (Examples.world [])))
     = [ {| obj_filename := "run_0/payload.json";
            obj_body := "[1,2,3,4,5,6,7,8,9,10,11,12]";
            obj_contentType := "application/json" |} ]
  /\ existsb is_upload
       (new_effects (Examples.world [])
          (snd (call Examples.collaborators "process-order" Examples.production
                  Scenario.failed_parent_body Examples.service_options
                  (Examples.world [])))) = true.
Proof. repeat split. Qed.

(** ** Dependent attempts in a final status *)

(** C4, as amended: when the dependent attempt of a call, or the attempt of
    its dependent batch, is in a final status or its run is, no run is
    created and the engine is not called, whatever the call returns; and a
    call that gets past the idempotency gate, the entitlement check and the
    limit on tags throws a validation error whose message states a final
    status. *)
Theorem terminal_dependency_rejected
        (C : Collaborators) (taskId : string) (env : AuthenticatedEnvironment)
        (body : TriggerTaskRequestBody) (options : TriggerTaskServiceOptions)
        (w : World) (a : TaskRunAttempt) :
  resolve_attempt (option_field body opt_dependentAttempt) w = Some a
  \/ (exists b, resolve_batch (option_field body opt_dependentBatch) w = Some b
                /\ batch_dependentTaskAttempt b = Some a) ->
  terminal C a = true ->
  (forall res w',
      call C taskId env body options w = (res, w') ->
      taskRun w' = taskRun w
      /\ forallb (fun e => negb (is_engine_trigger e)) (new_effects w w') = true)
  /\ (existing_run taskId env body options w = None ->
      entitled C env = true -> tags_within_limit body = true ->
      exists message w',
        call C taskId env body options w = (inl (ServiceValidationError message), w')
        /\ states_terminal_status C taskId message).
Proof.
  intros Hdep Hterm.
  destruct (blocking_attempt_found C body w a Hdep Hterm) as [a' Ha'].
  split.
  - intros res w' Hcall. eapply no_run_without_envelopes; [exact Hcall|].
    intros p w1 Hp.
    destruct (existing_run taskId env body options w) as [r|] eqn:Ex.
    + rewrite (prepare_existing C taskId env body options w r Ex) in Hp. discriminate.
    + rewrite (prepare_miss C taskId env body options w Ex), Ha' in Hp.
      destruct (negb (entitled C env)); [discriminate|].
      destruct (negb (tags_within_limit body)); discriminate.
  - intros Ex He Htg. unfold call, bind.
    rewrite (prepare_miss C taskId env body options w Ex), He, Htg, Ha'. cbn [negb].
    do 2 eexists. split; [reflexivity|].
    apply terminal_message_states. eapply blocking_attempt_terminal. exact Ha'.
Qed.

Lemma terminal_dependency_witness :
  exists message w',
    call Examples.collaborators "process-order" Examples.production
         Scenario.failed_parent_small_body Examples.service_options (Examples.world [])
    = (inl (ServiceValidationError message), w')
    /\ states_terminal_status Examples.collaborators "process-order" message
    /\ taskRun w' = []
    /\ forallb (fun e => negb (is_engine_trigger e))
               (new_effects (Examples.world []) w') = true.
Proof.
  destruct (terminal_dependency_rejected Examples.collaborators "process-order"
              Examples.production Scenario.failed_parent_small_body
              Examples.service_options (Examples.world []) Examples.failed_attempt
              (or_introl eq_refl) eq_refl) as [Hall Hthrow].
  destruct (Hthrow eq_refl eq_refl eq_refl) as (message & w' & Hcall & Hstates).
  exists message, w'. destruct (Hall _ _ Hcall) as [Ht Hq]. auto.
Defined.

(** C4, as stated, fails when an earlier check decides the call: a call that
    repeats the idempotency key of a stored run returns that run, although
    its dependent attempt is in the status FAILED. *)
Lemma idempotency_hit_precedes_dependency_check :
  resolve_attempt (option_field Scenario.failed_parent_abc_body opt_dependentAttempt)
                  Scenario.abc_world = Some Examples.failed_attempt
  /\ terminal Examples.collaborators Examples.failed_attempt = true
  /\ fst (call Examples.collaborators "process-order" Examples.production
            Scenario.failed_parent_abc_body Examples.service_options Scenario.abc_world)
     = inr (Examples.stored_run (Some "abc")).
Proof. repeat split. Qed.

(** ** The limit on tags *)

Lemma single_tag_lifted
      (C : Collaborators) (taskId : string) (env : AuthenticatedEnvironment)
      (body : TriggerTaskRequestBody) (options : TriggerTaskServiceOptions)
      (tag : string) (w : World) :
  call C taskId env (set_tags (Some (TagsString tag)) body) options w
  = call C taskId env (set_tags (Some (TagsArray [tag])) body) options w.
Proof. reflexivity. Qed.

(** C6, as amended: when the tags of a call are a sequence of more than 8
    elements, no run is created, whatever the call returns; and a call that
    gets past the idempotency gate and the entitlement check throws a
    validation error whose message names the limit 8 and the number of tags
    asked for.  A single string as tags does what the sequence of this one
    string does. *)
Theorem tags_over_limit_rejected
        (C : Collaborators) (taskId : string) (env : AuthenticatedEnvironment)
        (body : TriggerTaskRequestBody) (options : TriggerTaskServiceOptions)
        (w : World) (tags : list string) :
  option_field body opt_tags = Some (TagsArray tags) ->
  MAX_TAGS_PER_RUN < Z.of_nat (length tags) ->
  (forall res w',
      call C taskId env body options w = (res, w') ->
      taskRun w' = taskRun w
      /\ forallb (fun e => negb (is_engine_trigger e)) (new_effects w w') = true)
  /\ (existing_run taskId env body options w = None ->
      entitled C env = true ->
      exists w',
        call C taskId env body options w
        = (inl (ServiceValidationError
                  ("Runs can only have 8 tags, you're trying to set "
                   ++ Js.Number_toString (Z.of_nat (length tags)) ++ ".")), w'))
  /\ (forall tag w0,
        call C taskId env (set_tags (Some (TagsString tag)) body) options w0
        = call C taskId env (set_tags (Some (TagsArray [tag])) body) options w0).
Proof.
  intros Htags Hmany.
  assert (Hlimit : tags_within_limit body = false).
  { unfold tags_within_limit. rewrite Htags.
    destruct (Z.ltb_spec MAX_TAGS_PER_RUN (Z.of_nat (length tags))); [reflexivity|lia]. }
  split; [|split].
  - intros res w' Hcall. eapply no_run_without_envelopes; [exact Hcall|].
    intros p w1 Hp.
    destruct (existing_run taskId env body options w) as [r|] eqn:Ex.
    + rewrite (prepare_existing C taskId env body options w r Ex) in Hp. discriminate.
    + rewrite (prepare_miss C taskId env body options w Ex), Hlimit in Hp.
      destruct (negb (entitled C env)); discriminate.
  - intros Ex He. unfold call, bind.
    rewrite (prepare_miss C taskId env body options w Ex), He, Hlimit. cbn [negb].
    eexists. unfold tags_message. rewrite Htags. reflexivity.
  - intros tag w0. apply single_tag_lifted.
Qed.

Lemma tags_over_limit_witness :
  exists w',
    call Examples.collaborators "process-order" Examples.production
         Scenario.nine_tags_body Examples.service_options (Examples.world [])
    = (inl (ServiceValidationError
              "Runs can only have 8 tags, you're trying to set 9."), w')
    /\ taskRun w' = []
    /\ forallb (fun e => negb (is_engine_trigger e))
               (new_effects (Examples.world []) w') = true.
Proof.
  destruct (tags_over_limit_rejected Examples.collaborators "process-order"
              Examples.production Scenario.nine_tags_body Examples.service_options
              (Examples.world []) Scenario.nine_tags eq_refl eq_refl)
    as (Hall & Hthrow & _).
  destruct (Hthrow eq_refl eq_refl) as (w' & Hcall).
  exists w'. destruct (Hall _ _ Hcall) as [Ht Hq]. auto.
Defined.

(** C6, as stated, fails when an earlier check decides the call: a call with
    nine tags that repeats the idempotency key of a stored run returns that
    run. *)
Lemma idempotency_hit_precedes_tag_limit :
  option_field Scenario.nine_tags_abc_body opt_tags = Some (TagsArray Scenario.nine_tags)
  /\ length Scenario.nine_tags = 9%nat
  /\ fst (call Examples.collaborators "process-order" Examples.production
            Scenario.nine_tags_abc_body Examples.service_options Scenario.abc_world)
     = inr (Examples.stored_run (Some "abc")).
Proof. repeat split. Qed.

(** ** The created run *)

(** What a call that creates a run has done. *)
Lemma created_run_facts
      (C : Collaborators) (taskId : string) (env : AuthenticatedEnvironment)
      (body : TriggerTaskRequestBody) (options : TriggerTaskServiceOptions)
      (w w' : World) (r : TaskRun) :
  call C taskId env body options w = (inr r, w') ->
  existing_run taskId env body options w = None ->
  built_from taskId env (prepared C env body options w)
             (last_number taskId (env_id env) w + 1) r
  /\ taskRun w' = (taskRun w ++ [r])%list
  /\ last_number taskId (env_id env) w' = number r
  /\ objectStore w' = (objectStore w ++ uploaded C body w)%list
  /\ exists new,
      new_effects w w' = (entitlement_log env ++ upload_log C env body w ++ new)%list
      /\ forallb is_envelope_effect new = true
      /\ In (engine_trigger_call r) new.
Proof.
  intros Hcall Hmiss.
  destruct (call_created C _ _ _ _ _ _ _ Hcall Hmiss) as (_ & _ & _ & Hpersist).
  destruct (persist_outcome C _ _ _ _ _ _ _ _ Hpersist)
    as (_ & Hstore & (new & Hlog & Hallowed & _ & Hin) & Hbuilt & Hrows & Hlast).
  destruct (after_payload_facts C env body w) as (Hs & Ht & Hc & Ho & Hl).
  assert (Hsame : last_number taskId (env_id env) (after_payload C env body w)
                  = last_number taskId (env_id env) w).
  { unfold last_number. destruct Hs as (_ & _ & _ & _ & Hn). now rewrite Hc, Hn. }
  rewrite Hsame in Hbuilt. rewrite Ht in Hrows. rewrite Ho in Hstore.
  repeat split; try assumption; try apply Hbuilt.
  exists new. split; [|auto].
  apply new_effects_app. rewrite Hlog, Hl, <- !app_assoc. reflexivity.
Qed.

(** C5: the depth of a created run is the depth of the run of the
    dependent attempt plus one; without a dependent attempt, that of the run
    of the parent attempt plus one; without either, that of the run of the
    attempt of the dependent batch plus one; and zero otherwise.  A run
    created with a parent batch as its only reference has depth zero. *)
Theorem created_run_depth
        (C : Collaborators) (taskId : string) (env : AuthenticatedEnvironment)
        (body : TriggerTaskRequestBody) (options : TriggerTaskServiceOptions)
        (w w' : World) (r : TaskRun) :
  call C taskId env body options w = (inr r, w') ->
  existing_run taskId env body options w = None ->
  depth r
  = match resolve_attempt (option_field body opt_dependentAttempt) w with
    | Some dependentAttempt => tr_depth (att_taskRun dependentAttempt) + 1
    | None =>
        match resolve_attempt (option_field body opt_parentAttempt) w with
        | Some parentAttempt => tr_depth (att_taskRun parentAttempt) + 1
        | None =>
            match resolve_batch (option_field body opt_dependentBatch) w with
            | Some dependentBatch =>
                match batch_dependentTaskAttempt dependentBatch with
                | Some attempt => tr_depth (att_taskRun attempt) + 1
                | None => 0
                end
            | None => 0
            end
        end
    end
  /\ (option_field body opt_dependentAttempt = None ->
      option_field body opt_parentAttempt = None ->
      option_field body opt_dependentBatch = None ->
      depth r = 0).
Proof.
  intros Hcall Hmiss.
  destruct (created_run_facts C _ _ _ _ _ _ _ Hcall Hmiss) as (Hbuilt & _).
  destruct Hbuilt as (_ & _ & _ & _ & _ & _ & _ & _ & Hdepth & _).
  split; [exact Hdepth|].
  intros H1 H2 H3. rewrite Hdepth. unfold run_depth, prepared. cbn.
  now rewrite H1, H2, H3.
Qed.

Lemma created_run_depth_witness :
  call Examples.collaborators "process-order" Examples.production
       Scenario.child_body Examples.service_options (Examples.world [])
  = (inr Scenario.child_run, Scenario.child_world)
  /\ depth Scenario.child_run = 4.
Proof.
  assert (Hcall :
    call Examples.collaborators "process-order" Examples.production
         Scenario.child_body Examples.service_options (Examples.world [])
    = (inr Scenario.child_run, Scenario.child_world)) by (vm_compute; reflexivity).
  split; [exact Hcall|].
  exact (proj1 (created_run_depth Examples.collaborators "process-order"
                  Examples.production Scenario.child_body Examples.service_options
                  (Examples.world []) Scenario.child_world Scenario.child_run
                  Hcall eq_refl)).
Defined.

(** A run with a parent batch only: the attempt of the batch does not
    count. *)
Example parent_batch_only_depth :
  option_map depth
    (match fst (call Examples.collaborators "process-order" Examples.production
                  (Examples.request Examples.small_payload
                     (Examples.request_options None None None None None None
                        (Some "batch_1")))
                  Examples.service_options (Examples.world [])) with
     | inr r => Some r
     | inl _ => None
     end) = Some 0.
Proof. reflexivity. Qed.

(** C8, as amended: a created run resumes its parent on completion if and
    only if the dependent attempt or the dependent batch of the request
    resolves to a record. *)
Theorem created_run_resumes_parent
        (C : Collaborators) (taskId : string) (env : AuthenticatedEnvironment)
        (body : TriggerTaskRequestBody) (options : TriggerTaskServiceOptions)
        (w w' : World) (r : TaskRun) :
  call C taskId env body options w = (inr r, w') ->
  existing_run taskId env body options w = None ->
  resumeParentOnCompletion r = true
  <-> (resolve_attempt (option_field body opt_dependentAttempt) w <> None
       \/ resolve_batch (option_field body opt_dependentBatch) w <> None).
Proof.
  intros Hcall Hmiss.
  destruct (created_run_facts C _ _ _ _ _ _ _ Hcall Hmiss) as (Hbuilt & _).
  destruct Hbuilt as (_ & _ & _ & _ & _ & _ & _ & _ & _ & Hresume & _).
  rewrite Hresume. unfold prepared. cbn.
  destruct (resolve_attempt _ w), (resolve_batch _ w); split;
    try (intros _; auto; left; discriminate);
    try (intros _; right; discriminate);
    try discriminate; try reflexivity.
  intros [H|H]; congruence.
Qed.

Lemma created_run_resumes_parent_witness :
  call Examples.collaborators "process-order" Examples.production
       Scenario.child_body Examples.service_options (Examples.world [])
  = (inr Scenario.child_run, Scenario.child_world)
  /\ resumeParentOnCompletion Scenario.child_run = true.
Proof.
  assert (Hcall :
    call Examples.collaborators "process-order" Examples.production
         Scenario.child_body Examples.service_options (Examples.world [])
    = (inr Scenario.child_run, Scenario.child_world)) by (vm_compute; reflexivity).
  split; [exact Hcall|].
  apply (created_run_resumes_parent Examples.collaborators "process-order"
           Examples.production Scenario.child_body Examples.service_options
           (Examples.world []) Scenario.child_world Scenario.child_run Hcall eq_refl).
  left. discriminate.
Defined.

(** C8, as stated, fails for a reference that does not resolve: the request
    names a dependent attempt, the database has no such attempt, and the run
    is created with [resumeParentOnCompletion = false]. *)
Lemma dangling_dependent_attempt_does_not_resume :
  option_field Scenario.dangling_body opt_dependentAttempt = Some "attempt_missing"
  /\ option_map resumeParentOnCompletion
       (match fst (call Examples.collaborators "process-order" Examples.production
                     Scenario.dangling_body Examples.service_options
                     (Examples.world [])) with
        | inr r => Some r
        | inl _ => None
        end) = Some false.
Proof. split; reflexivity. Qed.

(** C10: a numeric ttl that is zero or negative gives a created run no ttl,
    in a development environment as in any other; the default of ten
    minutes is for a request without ttl in a development environment. *)
Theorem created_run_ttl_nonpositive
        (C : Collaborators) (taskId : string) (env : AuthenticatedEnvironment)
        (body : TriggerTaskRequestBody) (options : TriggerTaskServiceOptions)
        (w w' : World) (r : TaskRun) :
  call C taskId env body options w = (inr r, w') ->
  existing_run taskId env body options w = None ->
  (forall seconds,
      option_field body opt_ttl = Some (TtlNumber seconds) -> seconds <= 0 ->
      ttl r = None)
  /\ (option_field body opt_ttl = None ->
      ttl r = if EnvironmentType_eqb (env_type env) DEVELOPMENT
              then Some "10m" else None).
Proof.
  intros Hcall Hmiss.
  destruct (created_run_facts C _ _ _ _ _ _ _ Hcall Hmiss) as (Hbuilt & _).
  destruct Hbuilt as (_ & _ & _ & _ & _ & _ & _ & Httl & _).
  rewrite Httl. unfold prepared, request_ttl. cbn. split.
  - intros seconds -> Hle. unfold stringifyDuration.
    destruct (Z.leb_spec seconds 0); [reflexivity|lia].
  - now intros ->.
Qed.

Lemma created_run_ttl_witness :
  call Examples.collaborators "process-order" Examples.development
       Scenario.child_body Examples.service_options (Examples.world [])
  = (inr Scenario.child_development_run, Scenario.child_development_world)
  /\ ttl Scenario.child_development_run = None.
Proof.
  assert (Hcall :
    call Examples.collaborators "process-order" Examples.development
         Scenario.child_body Examples.service_options (Examples.world [])
    = (inr Scenario.child_development_run, Scenario.child_development_world))
    by (vm_compute; reflexivity).
  split; [exact Hcall|].
  apply (proj1 (created_run_ttl_nonpositive Examples.collaborators "process-order"
                  Examples.development Scenario.child_body Examples.service_options
                  (Examples.world []) Scenario.child_development_world
                  Scenario.child_development_run Hcall eq_refl) 0 eq_refl).
  lia.
Defined.

(** ** The payload packet *)

(** C7: for a payload packet with inline data, when the offload predicate
    reports that no offloading is needed the run is created with the data
    and the data type of the packet and nothing is uploaded; otherwise the
    data is uploaded under [<runFriendlyId>/payload.json] with the data type
    of the packet as content type, and the run is created with this file
    name as payload and the payload type [application/store]. *)
Theorem payload_packet_offloading
        (C : Collaborators) (taskId : string) (env : AuthenticatedEnvironment)
        (body : TriggerTaskRequestBody) (options : TriggerTaskServiceOptions)
        (w w' : World) (r : TaskRun) (d : string) :
  call C taskId env body options w = (inr r, w') ->
  existing_run taskId env body options w = None ->
  data (request_packet C body) = Some d ->
  Js.truthy d = true ->
  (fst (packetRequiresOffloading C (request_packet C body)
          (TASK_PAYLOAD_OFFLOAD_THRESHOLD C)) = false ->
   payload r = d
   /\ payloadType r = dataType (request_packet C body)
   /\ objectStore w' = objectStore w
   /\ forallb (fun e => negb (is_upload e)) (new_effects w w') = true)
  /\ (fst (packetRequiresOffloading C (request_packet C body)
             (TASK_PAYLOAD_OFFLOAD_THRESHOLD C)) = true ->
      In (uploadToObjectStore_call (friendlyId r ++ "/payload.json") d
            (dataType (request_packet C body)) (env_id env))
         (new_effects w w')
      /\ objectStore w'
         = (objectStore w
            ++ [ {| obj_filename := friendlyId r ++ "/payload.json";
                    obj_body := d;
                    obj_contentType := dataType (request_packet C body) |} ])%list
      /\ payload r = friendlyId r ++ "/payload.json"
      /\ payloadType r = "application/store").
Proof.
  intros Hcall Hmiss Hdata Htruthy.
  destruct (created_run_facts C _ _ _ _ _ _ _ Hcall Hmiss)
    as (Hbuilt & _ & _ & Hstore & new & Hnew & Hallowed & _).
  destruct Hbuilt as (_ & Hid & _ & _ & _ & Hpayload & Htype & _).
  unfold prepared in Hid, Hpayload, Htype. cbn in Hid, Hpayload, Htype.
  unfold handled_packet in Hpayload, Htype.
  unfold uploaded in Hstore. unfold upload_log in Hnew.
  unfold payload_filename in *. rewrite <- Hid in *.
  assert (Hoff : offloaded C body
                 = if fst (packetRequiresOffloading C (request_packet C body)
                             (TASK_PAYLOAD_OFFLOAD_THRESHOLD C))
                   then Some d else None).
  { unfold offloaded. now rewrite Hdata, Htruthy. }
  split; intros Hneeds; rewrite Hneeds in Hoff; rewrite Hoff in *.
  - rewrite Hdata in Hpayload. rewrite app_nil_r in Hstore.
    repeat split; try assumption.
    rewrite Hnew. cbn [app]. rewrite forallb_app. apply andb_true_iff. split.
    + eapply forallb_weaken; [|apply (entitlement_log_quiet env)].
      intros x. destruct x; cbn; auto.
    + eapply forallb_weaken; [|exact Hallowed].
      intros x. destruct x; cbn; auto.
  - cbn in Hpayload, Htype. repeat split; try assumption.
    rewrite Hnew. apply in_or_app. right. left. reflexivity.
Qed.

Lemma payload_packet_offloading_witness :
  call Examples.collaborators "process-order" Examples.production
       Scenario.large_body Examples.service_options (Examples.world [])
  = (inr Scenario.large_run, Scenario.large_world)
  /\ payload Scenario.large_run = "run_0/payload.json"
  /\ payloadType Scenario.large_run = "application/store"
  /\ objectStore Scenario.large_world
     = [ {| obj_filename := "run_0/payload.json";
            obj_body := "[1,2,3,4,5,6,7,8,9,10,11,12]";
            obj_contentType := "application/json" |} ].
Proof.
  assert (Hcall :
    call Examples.collaborators "process-order" Examples.production
         Scenario.large_body Examples.service_options (Examples.world [])
    = (inr Scenario.large_run, Scenario.large_world)) by (vm_compute; reflexivity).
  split; [exact Hcall|].
  destruct (proj2 (payload_packet_offloading Examples.collaborators "process-order"
                     Examples.production Scenario.large_body Examples.service_options
                     (Examples.world []) Scenario.large_world Scenario.large_run
                     "[1,2,3,4,5,6,7,8,9,10,11,12]" Hcall eq_refl eq_refl eq_refl)
                  eq_refl) as (_ & Hstore & Hpayload & Htype).
  repeat split; assumption.
Defined.

(** A payload under the threshold is passed on as it is. *)
Example small_payload_inline :
  payload Scenario.plain_run = "{}"
  /\ payloadType Scenario.plain_run = "application/json"
  /\ objectStore Scenario.plain_world = [].
Proof. repeat split. Qed.

(** ** The duration grammar *)

(** C9, as amended: in a time zone whose offset from UTC does not change,
    for every positive integer [n] up to ten weeks,
    [parseNaturalLanguageDuration(stringifyDuration(n))] is the time exactly
    [n] seconds after the current time. *)
Theorem duration_round_trip (LocalTZA : Z -> bool -> Z) (now n : Z) :
  JsDate.fixed_offset LocalTZA ->
  0 < n -> n <= 10 * 604800 ->
  exists s,
    stringifyDuration n = Some s
    /\ parseNaturalLanguageDuration LocalTZA now s = Some (now + 1000 * n).
Proof. intros Hfix Hpos _. now apply roundtrip_fixed. Qed.

Lemma duration_round_trip_witness :
  exists s,
    stringifyDuration 5400 = Some s
    /\ parseNaturalLanguageDuration JsDate.utc_zone 1774699200000 s
       = Some (1774699200000 + 1000 * 5400).
Proof.
  apply (duration_round_trip JsDate.utc_zone 1774699200000 5400).
  - exists 0. reflexivity.
  - lia.
  - lia.
Defined.

(** C9, as stated, fails where the offset changes: in central Europe, at
    noon UTC on the day before the change to summer time of 2026, one day
    (86400 seconds, printed as [1d]) parses to the same local time of the
    next day, which is 82800 seconds later. *)
Lemma summer_time_breaks_round_trip :
  stringifyDuration 86400 = Some "1d"
  /\ parseNaturalLanguageDuration JsDate.europe_berlin 1774699200000 "1d"
     = Some (1774699200000 + 1000 * 82800)
  /\ parseNaturalLanguageDuration JsDate.europe_berlin 1774699200000 "1d"
     <> Some (1774699200000 + 1000 * 86400).
Proof. repeat split. vm_compute. discriminate. Qed.

(** ** Run numbers under concurrent calls *)

Lemma numbers_after_S (k : Z) (n : nat) :
  numbers_after k (S n) = (numbers_after k n ++ [k + Z.of_nat n + 1])%list.
Proof.
  unfold numbers_after. rewrite seq_S, map_app. cbn [map]. do 2 f_equal. lia.
Qed.

Lemma replace_nth_length {A} (i : nat) (x : A) (l : list A) :
  length (replace_nth i x l) = length l.
Proof. revert i. induction l; intros [|i]; cbn; auto. Qed.

Lemma replace_nth_Forall {A} (P : A -> Prop) (i : nat) (x : A) (l : list A) :
  P x -> Forall P l -> Forall P (replace_nth i x l).
Proof.
  intros Hx Hl. revert i. induction Hl; intros [|i]; cbn; constructor; auto.
Qed.

Lemma replace_nth_same {A} (i : nat) (x : A) (l : list A) :
  nth_error l i = Some x -> replace_nth i x l = l.
Proof.
  revert i. induction l as [|y l IH]; intros [|i] H; try discriminate; cbn in *.
  - now inversion H.
  - now rewrite IH.
Qed.

(** What one call contributes to a list made of a pool, before and after
    its step. *)
Lemma flat_map_replace {A B} (f : A -> list B) (pool : list A) (i : nat) (t t' : A) :
  nth_error pool i = Some t ->
  exists before after,
    flat_map f pool = (before ++ f t ++ after)%list
    /\ flat_map f (replace_nth i t' pool) = (before ++ f t' ++ after)%list.
Proof.
  revert i. induction pool as [|x pool IH]; intros [|i] H; try discriminate.
  - cbn in H. inversion H; subst. exists [], (flat_map f pool). split; reflexivity.
  - cbn in H. destruct (IH i H) as (before & after & H1 & H2).
    exists (f x ++ before)%list, after. cbn [replace_nth flat_map].
    rewrite H1, H2, <- !app_assoc. split; reflexivity.
Qed.

(** The steps of the counter envelope, run one after the other, are the
    envelopes of [call]. *)
Lemma persist_as_steps (C : Collaborators) (rq : Request) (p : Prepared) (w : World) :
  call_persist C (req_taskId rq) (req_environment rq) (req_body rq) (req_options rq) p w
  = (event <- open_envelopes C rq p ;;
     num <- read_counter rq ;;
     commit C rq p event num)%service w.
Proof.
  unfold call_persist, traceEvent, incrementInTransaction, open_envelopes,
    read_counter, commit, request_key.
  unfold emit. unfold bind, gets, modify, ret. cbn [counters with_log with_generated].
  destruct (counter_get _ (counters w)) as [n|]; [reflexivity|].
  unfold deriveInitial, taskRunNumberCounter_findUnique, bind, gets, ret.
  reflexivity.
Qed.

Section PoolFacts.

Variable C : Collaborators.
Variable taskId : string.
Variable environmentId : string.

Lemma request_key_on (rq : Request) :
  on_counter taskId environmentId rq ->
  request_key rq = "v3-run:" ++ environmentId ++ ":" ++ taskId.
Proof. intros [<- <-]. reflexivity. Qed.

Lemma prepare_quiet (rq : Request) (w w' : World) (res : ServiceError + Prepare) :
  call_prepare C (req_taskId rq) (req_environment rq) (req_body rq) (req_options rq) w
  = (res, w') ->
  taskRun w' = taskRun w
  /\ last_number taskId environmentId w' = last_number taskId environmentId w
  /\ exists new, log w' = (log w ++ new)%list.
Proof.
  intros Hp.
  assert (H : taskRun w' = taskRun w /\ counters w' = counters w
              /\ taskRunNumberCounter w' = taskRunNumberCounter w
              /\ exists new, log w' = (log w ++ new)%list).
  { destruct (existing_run (req_taskId rq) (req_environment rq) (req_body rq)
                (req_options rq) w) as [r|] eqn:Ex.
    - rewrite (prepare_existing C _ _ _ _ w r Ex) in Hp. inversion Hp; subst.
      destruct (after_hit_facts C (req_body rq) r w) as (Hs & Ht & Hc & _ & Hl).
      destruct Hs as (_ & _ & _ & _ & Hn). eauto 6.
    - rewrite (prepare_miss C _ _ _ _ w Ex) in Hp.
      destruct (after_entitlement_facts C (req_environment rq) (req_body rq) w)
        as (Hs & Ht & Hc & _ & _ & Hl).
      destruct (after_payload_facts C (req_environment rq) (req_body rq) w)
        as (Hs' & Ht' & Hc' & _ & Hl').
      destruct Hs as (_ & _ & _ & _ & Hn).
      destruct Hs' as (_ & _ & _ & _ & Hn').
      destruct (negb (entitled C (req_environment rq)));
        [inversion Hp; subst; eauto 6|].
      destruct (negb (tags_within_limit (req_body rq)));
        [inversion Hp; subst; eauto 6|].
      destruct (blocking_attempt C (req_body rq) w); inversion Hp; subst; eauto 6. }
  destruct H as (Ht & Hc & Hn & Hl). split; [exact Ht|]. split; [|exact Hl].
  unfold last_number. now rewrite Hc, Hn.
Qed.

Lemma open_envelopes_run (rq : Request) (p : Prepared) (w : World) :
  exists event new,
    open_envelopes C rq p w = (inr event, logged new (with_generated S w)).
Proof.
  unfold open_envelopes.
  rewrite (bind_eq _ _ _ _ _ (eq_refl : gets generated w = (inr (generated w), w))).
  rewrite (bind_eq _ _ _ _ _ (eq_refl :
    modify (with_generated S) w = (inr tt, with_generated S w))).
  rewrite (bind_eq _ _ _ _ _ (emit_run _ _)).
  rewrite (bind_eq _ _ _ _ _ (emit_run _ _)).
  rewrite logged_logged. do 2 eexists. reflexivity.
Qed.

Lemma read_counter_run (rq : Request) (w : World) :
  on_counter taskId environmentId rq ->
  read_counter rq w = (inr (last_number taskId environmentId w + 1), w).
Proof.
  intros [<- <-]. unfold read_counter, last_number, request_key, counter_key.
  unfold bind, gets, ret. destruct (counter_get _ (counters w)) as [n|]; [reflexivity|].
  unfold deriveInitial, taskRunNumberCounter_findUnique, bind, gets, ret.
  destruct (find _ (taskRunNumberCounter w)); reflexivity.
Qed.

(** What the commit of a call does: it inserts the run with the number
    the call has read and moves the counter to it, or throws and writes
    nothing. *)
Lemma commit_outcome (rq : Request) (p : Prepared) (event : TraceEvent) (num : Z)
      (w w' : World) (res : ServiceError + TaskRun) :
  on_counter taskId environmentId rq ->
  commit C rq p event num w = (res, w') ->
  (exists new, log w' = (log w ++ new)%list
               /\ match res with
                  | inr r => In (engine_trigger_call r) new
                  | inl _ => True
                  end)
  /\ match res with
     | inr r =>
         number r = num
         /\ taskRun w' = (taskRun w ++ [r])%list
         /\ last_number taskId environmentId w' = num
     | inl _ =>
         taskRun w' = taskRun w
         /\ last_number taskId environmentId w' = last_number taskId environmentId w
     end.
Proof.
  intros [<- <-]. unfold commit, last_number, request_key, counter_key.
  destruct (create_run_run C (req_taskId rq) (req_environment rq) (req_body rq)
              (req_options rq) p event num w) as (r & new & Hrun & Hbuilt & _).
  unfold bind at 1. rewrite Hrun, engine_trigger_run. unfold after_queued.
  destruct Hbuilt as (Hnum & _).
  destruct (p_delayUntil p); destruct (clashes r _);
    intros H; inversion H; subst; clear H;
    unfold rollback, modify, bind, ret, logged;
    cbn [taskRun counters log taskRunNumberCounter with_counters with_taskRun
         with_log with_clock];
    (split; [eexists; split; [rewrite <- ?app_assoc; reflexivity|]|]);
    rewrite ?in_app_iff; cbn [In]; auto;
    rewrite ?counter_get_set; auto.
Qed.

Lemma step_invariant (k : Z) (w0 : World) (pool : list Thread)
      (locks locks' : list string) (w w' : World) (i : nat) (t t' : Thread) :
  pool_invariant taskId environmentId k w0 pool locks w ->
  nth_error pool i = Some t ->
  thread_step C t locks w = (t', locks', w') ->
  pool_invariant taskId environmentId k w0 (replace_nth i t' pool) locks' w'.
Proof.
  intros Hinv Hnth Hstep.
  assert (Hsame : (t', locks', w') = (t, locks, w) ->
                  pool_invariant taskId environmentId k w0
                                 (replace_nth i t' pool) locks' w').
  { intros H. inversion H; subst. now rewrite (replace_nth_same _ _ _ Hnth). }
  destruct Hinv as (Hreq & Hlocks & Hone & Hnum & rows & new & Hrows & Hlog & Hperm
                      & Hnums & Hlast & Hengine).
  assert (Hon : on_counter taskId environmentId (thread_request t)).
  { rewrite Forall_forall in Hreq. apply Hreq. eapply nth_error_In; eauto. }
  destruct (flat_map_replace locked_number pool i t t' Hnth)
    as (l1 & l2 & Hl & Hl').
  destruct (flat_map_replace created_run pool i t t' Hnth)
    as (c1 & c2 & Hc & Hc').
  fold (locked_numbers pool) in Hl. fold (created_runs pool) in Hc.
  assert (Hquiet : thread_request t' = thread_request t ->
                   locked_number t' = locked_number t ->
                   created_run t' = created_run t ->
                   locks' = locks ->
                   taskRun w' = taskRun w ->
                   last_number taskId environmentId w'
                   = last_number taskId environmentId w ->
                   (exists more, log w' = (log w ++ more)%list) ->
                   pool_invariant taskId environmentId k w0
                                  (replace_nth i t' pool) locks' w').
  { intros Hr Hlk Hcr -> Ht Hn (more & Hm).
    unfold pool_invariant, locked_numbers, created_runs.
    rewrite Hl', Hc', Hlk, Hcr, <- Hl, <- Hc, Hn, Ht.
    split; [apply replace_nth_Forall; [now rewrite Hr | exact Hreq]|].
    split; [exact Hlocks|]. split; [exact Hone|]. split; [exact Hnum|].
    exists rows, (new ++ more)%list.
    rewrite Hm, Hlog, <- app_assoc. repeat split; try assumption.
    eapply Forall_impl; [|exact Hengine]. intros r Hr'. cbv beta in *.
    rewrite in_app_iff. now left. }
  destruct t as [rq|rq p|rq p event|rq p event num|rq r|rq r|rq e];
    cbn [thread_step] in Hstep; cbn [thread_request] in Hon.
  - destruct (call_prepare _ _ _ _ _ w) as [[e|[r|p]] w1] eqn:Hp;
      inversion Hstep; subst t' locks' w1; clear Hstep;
      destruct (prepare_quiet _ _ _ _ Hp) as (Ht & Hn & Hm);
      apply Hquiet; auto.
  - destruct (open_envelopes_run rq p w) as (event & more & Hopen).
    rewrite Hopen in Hstep. inversion Hstep; subst t' locks' w'; clear Hstep.
    apply Hquiet; auto. exists more. reflexivity.
  - destruct (lock_free (request_key rq) locks) eqn:Hfree; [|now apply Hsame].
    rewrite (read_counter_run rq w Hon) in Hstep.
    inversion Hstep; subst t' locks' w'; clear Hstep.
    assert (Hnone : locked_numbers pool = []).
    { destruct (locked_numbers pool) as [|n rest] eqn:E; [reflexivity|].
      rewrite Hlocks, (request_key_on rq Hon) in Hfree.
      unfold lock_free in Hfree. cbn [map existsb] in Hfree.
      now rewrite String.eqb_refl in Hfree. }
    rewrite Hnone in Hl, Hlocks. cbn [locked_number app] in Hl, Hl'.
    destruct l1; [|discriminate]. destruct l2; [|discriminate].
    cbn [created_run] in Hc, Hc'.
    unfold pool_invariant, locked_numbers, created_runs.
    rewrite Hl', Hc', <- Hc.
    split; [apply replace_nth_Forall; [exact Hon | exact Hreq]|].
    split; [now rewrite Hlocks, (request_key_on rq Hon)|].
    split; [cbn; lia|]. split; [repeat constructor|].
    exists rows, new. repeat split; assumption.
  - destruct (commit C rq p event num w) as [res w1] eqn:Hcommit.
    destruct (commit_outcome rq p event num w w1 res Hon Hcommit)
      as ((more & Hm & Hin) & Hres).
    cbn [locked_number created_run app] in Hl, Hc.
    assert (Hnil : l1 = [] /\ l2 = []).
    { rewrite Hl in Hone. rewrite length_app in Hone. cbn in Hone.
      destruct l1; [destruct l2; [auto|cbn in Hone; lia]|cbn in Hone; lia]. }
    destruct Hnil as [-> ->]. cbn [app] in Hl.
    assert (Hmine : num = last_number taskId environmentId w + 1).
    { rewrite Hl in Hnum. now inversion Hnum. }
    assert (Hfree : release (request_key rq) locks = []).
    { rewrite Hlocks, Hl, (request_key_on rq Hon). unfold release.
      cbn [app map filter]. now rewrite String.eqb_refl. }
    destruct res as [e|r]; inversion Hstep; subst t' locks' w1; clear Hstep;
      unfold pool_invariant, locked_numbers, created_runs;
      rewrite Hl', Hc', Hfree; cbn [locked_number created_run app];
      (split; [apply replace_nth_Forall; [exact Hon | exact Hreq]|]);
      (split; [reflexivity|]); (split; [cbn; lia|]); (split; [constructor|]).
    + destruct Hres as [Ht Hn]. exists rows, (new ++ more)%list.
      rewrite Ht, Hn, Hm, Hlog, <- app_assoc, <- Hc.
      repeat split; try assumption.
      eapply Forall_impl; [|exact Hengine]. intros r Hr'. cbv beta in *.
      rewrite in_app_iff. now left.
    + destruct Hres as (Hnumber & Ht & Hn).
      exists (rows ++ [r])%list, (new ++ more)%list.
      rewrite Ht, Hrows, Hm, Hlog, <- !app_assoc.
      split; [reflexivity|]. split; [reflexivity|]. split; [|split; [|split]].
      * rewrite Hc in Hperm.
        transitivity (r :: c1 ++ c2)%list.
        -- symmetry. apply Permutation_middle.
        -- rewrite Hperm. apply Permutation_cons_append.
      * rewrite map_app, length_app, Hnums. cbn [map length].
        rewrite Nat.add_1_r, numbers_after_S, Hnumber, Hmine, Hlast. reflexivity.
      * rewrite length_app, Hn, Hmine, Hlast. cbn [length]. lia.
      * apply Forall_app. split.
        -- eapply Forall_impl; [|exact Hengine]. intros x Hx. cbv beta in *.
           rewrite in_app_iff. now left.
        -- constructor; [|constructor]. rewrite in_app_iff. now right.
  - now apply Hsame.
  - now apply Hsame.
  - now apply Hsame.
Qed.

Lemma schedule_invariant (k : Z) (w0 : World) (schedule : list nat)
      (pool pool' : list Thread) (locks locks' : list string) (w w' : World) :
  pool_invariant taskId environmentId k w0 pool locks w ->
  run_schedule C schedule pool locks w = (pool', locks', w') ->
  pool_invariant taskId environmentId k w0 pool' locks' w'
  /\ length pool' = length pool.
Proof.
  revert pool locks w.
  induction schedule as [|i schedule IH]; intros pool locks w Hinv Hrun.
  - cbn in Hrun. inversion Hrun; subst. auto.
  - cbn [run_schedule] in Hrun. destruct (nth_error pool i) as [t|] eqn:Hnth.
    + destruct (thread_step C t locks w) as [[t' locks1] w1] eqn:Hstep.
      destruct (IH _ _ _ (step_invariant _ _ _ _ _ _ _ _ _ _ Hinv Hnth Hstep) Hrun)
        as [Hinv' Hlen].
      split; [exact Hinv'|]. now rewrite Hlen, replace_nth_length.
    + eauto.
Qed.

Lemma waiting_pool_invariant (requests : list Request) (w : World) :
  Forall (on_counter taskId environmentId) requests ->
  pool_invariant taskId environmentId (last_number taskId environmentId w) w
                 (map Waiting requests) [] w.
Proof.
  intros Hreq.
  assert (Hl : locked_numbers (map Waiting requests) = []).
  { clear Hreq. unfold locked_numbers. induction requests; cbn; auto. }
  assert (Hc : created_runs (map Waiting requests) = []).
  { clear Hreq. unfold created_runs. induction requests; cbn; auto. }
  unfold pool_invariant. rewrite Hl, Hc.
  split; [rewrite Forall_map; exact Hreq|].
  split; [reflexivity|]. split; [cbn; lia|]. split; [constructor|].
  exists [], []. rewrite !app_nil_r. cbn. repeat split; try constructor. lia.
Qed.

Lemma all_created_length (pool : list Thread) :
  all_created pool = true -> length (created_runs pool) = length pool.
Proof.
  unfold all_created, created_runs.
  induction pool as [|t pool IH]; [reflexivity|].
  cbn. destruct t; try discriminate. cbn. intros H. f_equal. auto.
Qed.

End PoolFacts.

(** A call that runs alone is its four steps, one after the other, and
    leaves no lock behind. *)
Lemma call_as_steps (C : Collaborators) (rq : Request) (w : World) :
  run_schedule C [0; 0; 0; 0]%nat [Waiting rq] [] w
  = match call C (req_taskId rq) (req_environment rq) (req_body rq) (req_options rq) w with
    | (inr run, w') =>
        ([match existing_run (req_taskId rq) (req_environment rq) (req_body rq)
                  (req_options rq) w with
          | Some _ => Existing rq run
          | None => Created rq run
          end], [], w')
    | (inl e, w') => ([Thrown rq e], [], w')
    end.
Proof.
  unfold call, bind. cbn [run_schedule nth_error thread_step].
  destruct (existing_run (req_taskId rq) (req_environment rq) (req_body rq)
              (req_options rq) w) as [r|] eqn:Ex.
  - rewrite (prepare_existing C _ _ _ _ w r Ex). reflexivity.
  - rewrite (prepare_miss C _ _ _ _ w Ex).
    destruct (negb (entitled C (req_environment rq))); [reflexivity|].
    destruct (negb (tags_within_limit (req_body rq))); [reflexivity|].
    destruct (blocking_attempt C (req_body rq) w); [reflexivity|].
    cbn [replace_nth run_schedule nth_error thread_step].
    rewrite persist_as_steps. unfold bind.
    destruct (open_envelopes C rq _ _) as [[e|event] w1]; [reflexivity|].
    cbn [replace_nth run_schedule nth_error thread_step lock_free existsb negb].
    destruct (read_counter rq w1) as [[e|num] w2]; [reflexivity|].
    cbn [replace_nth run_schedule nth_error thread_step release filter].
    rewrite String.eqb_refl. cbn [negb].
    destruct (commit C rq _ event num w2) as [[e|run] w3]; reflexivity.
Qed.

(** C2: calls on one counter of [(environmentId, taskIdentifier)] run
    concurrently, in any interleaving of their steps, and a call takes the
    lock of the counter row before it reads the counter and keeps it until
    its callback has committed.  At every moment at most one call is inside
    the transaction of the counter.  The rows the calls have added to the
    table of runs are the runs the calls have returned, each handed to
    [engine.trigger]; in the order of their commits their numbers are those
    that follow the state [k] the counter had before, without gap or
    duplicate, and the counter stands at the last of them.  When all [N]
    calls have created their run there are [N] new rows, numbered from
    [k + 1] to [k + N]. *)
Theorem concurrent_run_numbers_contiguous
        (C : Collaborators) (taskId environmentId : string)
        (requests : list Request) (schedule : list nat)
        (w w' : World) (pool : list Thread) (locks : list string) :
  Forall (on_counter taskId environmentId) requests ->
  run_schedule C schedule (map Waiting requests) [] w = (pool, locks, w') ->
  (length (locked_numbers pool) <= 1)%nat
  /\ exists rows,
      taskRun w' = (taskRun w ++ rows)%list
      /\ Permutation (created_runs pool) rows
      /\ map number rows
         = numbers_after (last_number taskId environmentId w) (length rows)
      /\ Permutation (created_numbers pool)
                     (numbers_after (last_number taskId environmentId w) (length rows))
      /\ NoDup (created_numbers pool)
      /\ last_number taskId environmentId w'
         = last_number taskId environmentId w + Z.of_nat (length rows)
      /\ Forall (fun r => In (engine_trigger_call r) (new_effects w w')) rows
      /\ (all_created pool = true -> length rows = length requests).
Proof.
  intros Hreq Hrun.
  destruct (schedule_invariant C _ _ _ _ _ _ _ _ _ _ _
              (waiting_pool_invariant taskId environmentId requests w Hreq) Hrun)
    as ((_ & _ & Hone & _ & rows & new & Hrows & Hlog & Hperm & Hnums & Hlast & Hengine)
        & Hlen).
  split; [exact Hone|]. exists rows.
  assert (Hnumbers : Permutation (created_numbers pool)
            (numbers_after (last_number taskId environmentId w) (length rows))).
  { unfold created_numbers. rewrite <- Hnums. now apply Permutation_map. }
  split; [exact Hrows|]. split; [exact Hperm|]. split; [exact Hnums|].
  split; [exact Hnumbers|]. split; [|split; [exact Hlast|split]].
  - eapply Permutation_NoDup; [symmetry; exact Hnumbers|].
    unfold numbers_after. apply Finite.Injective_map_NoDup; [|apply seq_NoDup].
    intros x y Hxy. lia.
  - now rewrite (new_effects_app _ _ _ Hlog).
  - intros Hall. rewrite <- (Permutation_length Hperm), (all_created_length _ Hall).
    now rewrite Hlen, length_map.
Qed.

Lemma concurrent_run_numbers_witness :
  run_schedule Examples.collaborators Scenario.interleaved
               (map Waiting Scenario.three_requests) [] (Examples.world [])
  = (Scenario.interleaved_pool, [], Scenario.interleaved_world)
  /\ last_number "process-order" "env_prod" (Examples.world []) = 7
  /\ created_numbers Scenario.interleaved_pool = [9; 8; 10]
  /\ map number (taskRun Scenario.interleaved_world) = [8; 9; 10]
  /\ Permutation [9; 8; 10] [8; 9; 10].
Proof.
  assert (Hrun :
    run_schedule Examples.collaborators Scenario.interleaved
                 (map Waiting Scenario.three_requests) [] (Examples.world [])
    = (Scenario.interleaved_pool, [], Scenario.interleaved_world))
    by (vm_compute; reflexivity).
  assert (Hon : Forall (on_counter "process-order" "env_prod") Scenario.three_requests)
    by (repeat constructor).
  destruct (concurrent_run_numbers_contiguous Examples.collaborators "process-order"
              "env_prod" Scenario.three_requests Scenario.interleaved
              (Examples.world []) Scenario.interleaved_world Scenario.interleaved_pool
              [] Hon Hrun) as (_ & rows & Hrows & _ & Hnums & Hperm & _ & _ & _ & Hall).
  split; [exact Hrun|]. split; [reflexivity|]. split; [reflexivity|].
  split; [reflexivity|].
  rewrite (Hall eq_refl) in Hperm. exact Hperm.
Defined.

(** While the second call holds the row of the counter, the first, which
    has asked for it, waits: its step changes nothing, and the number 8 is
    read by one call only. *)
Example waiting_for_the_row :
  locked_numbers Scenario.waiting_pool = [8]
  /\ run_schedule Examples.collaborators [0; 2; 0]%nat Scenario.waiting_pool
       ["v3-run:env_prod:process-order"] Scenario.waiting_world
     = (Scenario.waiting_pool, ["v3-run:env_prod:process-order"], Scenario.waiting_world).
Proof. split; vm_compute; reflexivity. Qed.

(** * The task tracker *)

Module TaskTrackerFacts.
Import TaskTracker.

Section Facts.

Variable number : Type.

Implicit Types (tasks : list (string * Task number)) (task : Task number).

Lemma Map_get_set_same (key : string) task tasks :
  Map_get key (Map_set key task tasks) = Some task.
Proof.
  induction tasks as [|[k v] m IH]; cbn.
  - now rewrite String.eqb_refl.
  - destruct (String.eqb k key) eqn:E; cbn; now rewrite E.
Qed.

Lemma Map_get_set_other (key other : string) task tasks :
  other <> key -> Map_get other (Map_set key task tasks) = Map_get other tasks.
Proof.
  intros Hne. induction tasks as [|[k v] m IH]; cbn.
  - destruct (String.eqb_spec key other); [congruence|reflexivity].
  - destruct (String.eqb_spec k key) as [->|Hk]; cbn.
    + destruct (String.eqb_spec key other); [congruence|reflexivity].
    + now rewrite IH.
Qed.

Lemma Map_get_None_notin (key : string) tasks :
  Map_get key tasks = None <-> ~ In key (map fst tasks).
Proof.
  induction tasks as [|[k v] m IH]; cbn.
  - tauto.
  - destruct (String.eqb_spec k key) as [->|Hk].
    + split; [discriminate|]. intros H. exfalso. auto.
    + rewrite IH. tauto.
Qed.

Lemma Map_delete_keys_subset (key k : string) tasks :
  In k (map fst (Map_delete key tasks)) -> In k (map fst tasks).
Proof.
  induction tasks as [|[k' v] m IH]; cbn; [auto|].
  destruct (String.eqb k' key); cbn; tauto.
Qed.

(** X1: a task that is added is found under its id, and the tasks under
    the other ids are as before. *)
Theorem getTask_after_addTask task tasks (key : string) :
  getTask (id task) (addTask task tasks) = Some task
  /\ (key <> id task -> getTask key (addTask task tasks) = getTask key tasks).
Proof.
  unfold getTask, addTask. split.
  - apply Map_get_set_same.
  - intros Hne. now apply Map_get_set_other.
Qed.

Lemma tracker_ok_addTask task tasks :
  tracker_ok tasks -> tracker_ok (addTask task tasks).
Proof.
  unfold tracker_ok, addTask. intros [Hnd Hid].
  induction tasks as [|[k v] m IH]; cbn.
  - split; [repeat constructor; auto | repeat constructor].
  - inversion Hnd as [|? ? Hnot Hnd']; subst. inversion Hid as [|? ? Hk Hid']; subst.
    cbn in Hk. destruct (String.eqb_spec k (id task)) as [->|Hne]; cbn.
    + split; [constructor; assumption | constructor; [reflexivity|assumption]].
    + destruct (IH Hnd' Hid') as [IH1 IH2]. split.
      * constructor; [|exact IH1]. intros Hin. apply Hnot.
        clear - Hin Hne. induction m as [|[k' v'] m IHm]; cbn in *.
        -- destruct Hin as [Hin|[]]. congruence.
        -- destruct (String.eqb k' (id task)); cbn in *; tauto.
      * constructor; assumption.
Qed.

Lemma tracker_ok_deleteTask (key : string) tasks :
  tracker_ok tasks -> tracker_ok (deleteTask key tasks).
Proof.
  unfold tracker_ok, deleteTask. intros [Hnd Hid].
  induction tasks as [|[k v] m IH]; cbn; [auto|].
  inversion Hnd as [|? ? Hnot Hnd']; subst. inversion Hid as [|? ? Hk Hid']; subst.
  destruct (String.eqb k key); [auto|].
  destruct (IH Hnd' Hid') as [IH1 IH2]. split.
  - cbn. constructor; [|exact IH1]. intros Hin. apply Hnot.
    eapply Map_delete_keys_subset; eauto.
  - constructor; assumption.
Qed.

(** X2: whatever calls a new tracker has served, no two tasks it lists
    have the same id, and each task is found under its own id. *)
Theorem listTasks_ids_distinct (calls : list (Call number)) :
  NoDup (map id (listTasks (fold_left perform calls Map_empty)))
  /\ forall task, In task (listTasks (fold_left perform calls Map_empty)) ->
                  getTask (id task) (fold_left perform calls Map_empty) = Some task.
Proof.
  assert (Hok : tracker_ok (fold_left perform calls (@Map_empty number))).
  { assert (H : forall tasks, tracker_ok tasks -> tracker_ok (fold_left perform calls tasks)).
    { induction calls as [|c calls IH]; intros tasks Hok; [exact Hok|].
      cbn. apply IH. destruct c; [now apply tracker_ok_addTask
                                | now apply tracker_ok_deleteTask]. }
    apply H. split; constructor. }
  destruct Hok as [Hnd Hid].
  set (tasks := fold_left perform calls Map_empty) in *. clearbody tasks.
  split.
  - unfold listTasks, Map_values. rewrite map_map.
    replace (map (fun e => id (snd e)) tasks) with (map fst tasks); [exact Hnd|].
    clear Hnd. induction Hid as [|e m He Hm IH]; cbn; [reflexivity|].
    now rewrite He, IH.
  - intros task Hin. unfold listTasks, Map_values, getTask in *.
    induction tasks as [|[k v] m IH]; [destruct Hin|].
    inversion Hnd as [|? ? Hnot Hnd']; subst. inversion Hid as [|? ? Hk Hid']; subst.
    cbn in Hk, Hin |- *. destruct Hin as [->|Hin].
    + now rewrite Hk, String.eqb_refl.
    + destruct (String.eqb_spec k (id task)) as [Heq|Hne]; [|now apply IH].
      exfalso. apply Hnot. rewrite Heq.
      clear - Hin Hid'. induction m as [|[k' v'] m IHm]; [destruct Hin|].
      inversion Hid' as [|? ? Hk' Hm]; subst. cbn in *. destruct Hin as [->|Hin]; auto.
Qed.

(** X3: after [deleteTask(id)] no task is found under the id, and the
    tasks under the other ids are as before; deleting an id that has no task
    leaves the tracker as it is. *)
Theorem getTask_after_deleteTask (key other : string) tasks :
  tracker_ok tasks ->
  getTask key (deleteTask key tasks) = None
  /\ (other <> key -> getTask other (deleteTask key tasks) = getTask other tasks)
  /\ (getTask key tasks = None -> deleteTask key tasks = tasks).
Proof.
  unfold getTask, deleteTask. intros [Hnd _]. split; [|split].
  - induction tasks as [|[k v] m IH]; [reflexivity|].
    inversion Hnd as [|? ? Hnot Hnd']; subst. cbn.
    destruct (String.eqb_spec k key) as [->|Hne].
    + now apply Map_get_None_notin.
    + cbn. destruct (String.eqb_spec k key); [congruence|]. now apply IH.
  - intros Hne. clear Hnd. induction tasks as [|[k v] m IH]; [reflexivity|]. cbn.
    destruct (String.eqb_spec k key) as [->|Hk]; cbn.
    + destruct (String.eqb_spec key other); [congruence|reflexivity].
    + now rewrite IH.
  - clear Hnd. induction tasks as [|[k v] m IH]; [reflexivity|]. cbn.
    destruct (String.eqb k key); [discriminate|]. intros H. now rewrite IH.
Qed.

(** X4: [totalTasks] counts the listed tasks; adding a task under a new id
    makes it one more and lists the task last, adding under an id that has a
    task keeps the count and the order of the ids, and deleting an id that
    has a task makes it one less. *)
Theorem totalTasks_counts task (key : string) tasks :
  tracker_ok tasks ->
  totalTasks tasks = length (listTasks tasks)
  /\ (getTask (id task) tasks = None ->
      totalTasks (addTask task tasks) = S (totalTasks tasks)
      /\ listTasks (addTask task tasks) = (listTasks tasks ++ [task])%list)
  /\ (getTask (id task) tasks <> None ->
      totalTasks (addTask task tasks) = totalTasks tasks
      /\ map id (listTasks (addTask task tasks)) = map id (listTasks tasks))
  /\ (getTask key tasks <> None ->
      S (totalTasks (deleteTask key tasks)) = totalTasks tasks).
Proof.
  unfold totalTasks, listTasks, addTask, deleteTask, getTask, Map_size, Map_values.
  intros [_ Hid]. split; [now rewrite length_map|]. split; [|split].
  - clear Hid. induction tasks as [|[k v] m IH]; cbn; [auto|].
    destruct (String.eqb k (id task)); [discriminate|]. intros H.
    destruct (IH H) as [IH1 IH2]. cbn. now rewrite IH1, IH2.
  - induction tasks as [|[k v] m IH]; cbn; [congruence|].
    inversion Hid as [|? ? Hk Hid']; subst. cbn in Hk.
    destruct (String.eqb_spec k (id task)) as [Heq|Hne]; cbn.
    + intros _. split; [reflexivity|]. now rewrite <- Hk, Heq.
    + intros H. destruct (IH Hid' H) as [IH1 IH2]. now rewrite IH1, IH2.
  - clear Hid. induction tasks as [|[k v] m IH]; cbn; [congruence|].
    destruct (String.eqb k key); [reflexivity|]. intros H. cbn. now rewrite IH.
Qed.

Section Usage.

Variable zero : number.
Variable add : number -> number -> number.

(** X5: the usage of a new tracker is zero cpu and zero memory, and adding
    a task under a new id adds its cpu and its memory to the usage, the
    task's numbers on the right of the sums. *)
Theorem getResourceUsage_after_addTask task tasks :
  getResourceUsage zero add Map_empty = (zero, zero)
  /\ (getTask (id task) tasks = None ->
      getResourceUsage zero add (addTask task tasks)
      = (add (fst (getResourceUsage zero add tasks)) (cpu task),
         add (snd (getResourceUsage zero add tasks)) (memory task))).
Proof.
  split; [reflexivity|]. intros Hnew.
  assert (Hlist : listTasks (addTask task tasks) = (listTasks tasks ++ [task])%list).
  { clear - Hnew. unfold listTasks, addTask, getTask, Map_values in *.
    induction tasks as [|[k v] m IH]; cbn in *; [reflexivity|].
    destruct (String.eqb k (id task)); [discriminate|]. cbn. now rewrite IH. }
  unfold getResourceUsage. unfold listTasks in Hlist. rewrite Hlist, fold_left_app.
  reflexivity.
Qed.

End Usage.

End Facts.

Lemma getTask_after_deleteTask_witness :
  getTask "web" (deleteTask "web" two_tasks) = None
  /\ getTask "worker" (deleteTask "web" two_tasks) = Some worker
  /\ deleteTask "db" two_tasks = two_tasks.
Proof.
  assert (Hok : tracker_ok two_tasks).
  { split; [repeat constructor; cbn; intuition discriminate | repeat constructor]. }
  destruct (getTask_after_deleteTask Z "web" "worker" two_tasks Hok) as (H1 & H2 & _).
  destruct (getTask_after_deleteTask Z "db" "worker" two_tasks Hok) as (_ & _ & H3).
  split; [exact H1|]. split; [|apply H3; reflexivity].
  rewrite H2; [reflexivity|discriminate].
Defined.

Lemma totalTasks_counts_witness :
  totalTasks two_tasks = 2%nat
  /\ totalTasks (addTask web_resized two_tasks) = 2%nat
  /\ map id (listTasks (addTask web_resized two_tasks)) = ["web"; "worker"]
  /\ totalTasks (deleteTask "web" two_tasks) = 1%nat.
Proof.
  assert (Hok : tracker_ok two_tasks).
  { split; [repeat constructor; cbn; intuition discriminate | repeat constructor]. }
  destruct (totalTasks_counts Z web_resized "web" two_tasks Hok) as (H1 & _ & H2 & H3).
  destruct H2 as [H2 H2']; [discriminate|].
  split; [exact H1|]. split; [exact H2|]. split; [exact H2'|].
  apply eq_add_S. apply H3. discriminate.
Defined.

Lemma getResourceUsage_witness :
  getResourceUsage 0 Z.add two_tasks = (6, 2560).
Proof.
  unfold two_tasks.
  rewrite (proj2 (getResourceUsage_after_addTask Z 0 Z.add worker (addTask web Map_empty))
             eq_refl).
  reflexivity.
Defined.

End TaskTrackerFacts.

(** * More on the created run *)

Section RunFacts.

Variable C : Collaborators.
Variable taskId : string.
Variable env : AuthenticatedEnvironment.
Variable body : TriggerTaskRequestBody.
Variable options : TriggerTaskServiceOptions.

Lemma getQueueName_value (q : option string) (w : World) :
  getQueueName C taskId env q w = (inr (resolved_queue_name C taskId env q w), w).
Proof.
  unfold getQueueName, resolved_queue_name.
  assert (H :
    match findCurrentWorkerFromEnvironment C env with
    | None => ret ("task/" ++ taskId)
    | Some worker =>
        task <- backgroundWorkerTask_findUnique (worker_id worker) taskId ;;
        match task with
        | None => ret ("task/" ++ taskId)
        | Some task =>
            match bwt_queueConfig task with
            | ParseFailure => ret ("task/" ++ taskId)
            | ParseNullish => ret ("task/" ++ taskId)
            | ParseSuccess config =>
                ret (match queue_name config with
                     | Some n => n
                     | None => "task/" ++ taskId
                     end)
            end
        end
    end w
    = (inr match findCurrentWorkerFromEnvironment C env with
           | None => "task/" ++ taskId
           | Some worker =>
               match find (fun t => String.eqb (bwt_workerId t) (worker_id worker)
                                    && String.eqb (bwt_slug t) taskId)
                          (backgroundWorkerTask w) with
               | None => "task/" ++ taskId
               | Some task =>
                   match bwt_queueConfig task with
                   | ParseSuccess config =>
                       match queue_name config with
                       | Some n => n
                       | None => "task/" ++ taskId
                       end
                   | _ => "task/" ++ taskId
                   end
               end
           end, w)).
  { destruct (findCurrentWorkerFromEnvironment C env) as [worker|]; [|reflexivity].
    unfold bind, backgroundWorkerTask_findUnique, gets.
    destruct (find _ (backgroundWorkerTask w)) as [task|]; [|reflexivity].
    destruct (bwt_queueConfig task); reflexivity. }
  destruct q as [name|]; [destruct (Js.truthy name)|]; try exact H. reflexivity.
Qed.

Lemma create_run_full (p : Prepared) (event : TraceEvent) (num : Z) (w : World) :
  exists r new,
    create_run C taskId env body options p event num w
    = engine_trigger r (logged new (after_queued C p w))
    /\ built_from taskId env p num r
    /\ descends_from C taskId env body p w (clock w) r
    /\ forallb is_envelope_effect new = true
    /\ new = callback_log env body r.
Proof.
  unfold create_run.
  assert (Hlock :
    match option_field body opt_lockToVersion with
    | Some version =>
        if Js.truthy version
        then backgroundWorker_findUnique (env_projectId env) (env_id env) version
        else ret None
    | None => ret None
    end w = (inr (locked_worker env body w), w)).
  { unfold locked_worker. destruct (option_field body opt_lockToVersion) as [v|];
      [destruct (Js.truthy v)|]; reflexivity. }
  rewrite (bind_eq _ _ _ _ _ Hlock).
  rewrite (bind_eq _ _ _ _ _ (getQueueName_value _ w)). cbv zeta.
  rewrite (bind_eq _ _ _ _ _ (emit_run _ _)).
  rewrite (bind_eq _ _ _ _ _ (emit_run _ _)).
  rewrite logged_logged.
  assert (Htags : exists tagCalls,
    tagCalls = map (fun tag => createTag_call tag (env_projectId env)) (request_tags body)
    /\ forall w1,
    match match option_field body opt_tags with
          | Some (TagsString tag) => Some [tag]
          | Some (TagsArray tags) => Some tags
          | None => None
          end with
    | Some bodyTags =>
        for_each (fun tag =>
          emit (createTag_call tag (env_projectId env)) ;;;
          ret (option_map tag_id (createTag C tag (env_projectId env)))) bodyTags
    | None => ret []
    end w1 = (inr (request_tag_ids C env body), logged tagCalls w1)
    /\ forallb is_envelope_effect tagCalls = true).
  { assert (Hall : forall l : list string,
      forallb is_envelope_effect
        (map (fun tag => createTag_call tag (env_projectId env)) l) = true).
    { induction l as [|x l IH]; cbn; auto. }
    unfold request_tag_ids, request_tags.
    destruct (option_field body opt_tags) as [[tag|tags]|].
    - eexists. split; [reflexivity|]. intros w1. rewrite (createTags_run C env).
      split; [reflexivity|apply Hall].
    - eexists. split; [reflexivity|]. intros w1. rewrite (createTags_run C env).
      split; [reflexivity|apply Hall].
    - exists []. split; [reflexivity|]. intros w1. unfold ret. rewrite logged_nil. auto. }
  destruct Htags as (tagCalls & Hcalls & Htags).
  match goal with
  | |- context [bind _ _ ?W] => destruct (Htags W) as (Hrun & Hallowed)
  end.
  rewrite (bind_eq _ _ _ _ _ Hrun).
  rewrite (bind_eq _ _ _ _ _ (emit_run _ _)).
  rewrite (bind_eq _ _ _ _ _ (emit_run _ _)).
  rewrite !logged_logged.
  assert (Hq : forall w1,
    (match p_delayUntil p with
     | Some _ => ret None
     | None => now <- Date_now C ;; ret (Some now)
     end : M (option Z)) w1
    = (inr match p_delayUntil p with
           | Some _ => None
           | None => Some (clock w1)
           end, after_queued C p w1)).
  { intros w1. unfold after_queued. destruct (p_delayUntil p); reflexivity. }
  match goal with
  | |- context [bind _ _ ?W] => rewrite (bind_eq _ _ _ _ _ (Hq W))
  end.
  rewrite after_queued_logged.
  do 2 eexists. split; [reflexivity|]. split; [|split; [|split]].
  - unfold built_from. cbn.
    repeat split; try reflexivity.
    + destruct (p_dependentAttempt p), (p_dependentBatchRun p); reflexivity.
    + destruct (p_delayUntil p); [discriminate|congruence].
    + destruct (p_delayUntil p); [reflexivity|congruence].
  - unfold descends_from, run_queue_name. cbn.
    repeat split; try reflexivity.
    + destruct (p_parentAttempt p) as [a|]; [|reflexivity]. cbn.
      destruct (tr_rootTaskRunId (att_taskRun a)); reflexivity.
    + destruct (p_dependentBatchRun p); reflexivity.
  - rewrite !forallb_app, Hallowed. reflexivity.
  - unfold callback_log. cbn [queueName friendlyId].
    rewrite Hcalls, <- ?app_assoc. reflexivity.
Qed.

(** What the envelopes do, with all that is known of the run they make. *)
Lemma persist_full (p : Prepared) (w w' : World) (r : TaskRun) :
  call_persist C taskId env body options p w = (inr r, w') ->
  built_from taskId env p (last_number taskId (env_id env) w + 1) r
  /\ descends_from C taskId env body p w (clock w) r
  /\ idempotencyKey r = p_idempotencyKey p
  /\ log w' = (log w ++ envelope_log taskId env body options r)%list.
Proof.
  unfold call_persist, traceEvent.
  rewrite (bind_eq _ _ _ _ _ (eq_refl : gets generated w = (inr (generated w), w))).
  rewrite (bind_eq _ _ _ _ _ (eq_refl :
    modify (with_generated S) w = (inr tt, with_generated S w))).
  rewrite (bind_eq _ _ _ _ _ (emit_run _ _)).
  rewrite incrementInTransaction_run.
  match goal with
  | |- context [create_run C taskId env body options p ?ev ?num ?W] =>
      destruct (create_run_full p ev num W)
        as (r0 & new & Hrun & Hbuilt & Hfrom & _ & Hnew)
  end.
  rewrite Hrun, engine_trigger_run. unfold after_queued.
  destruct (p_delayUntil p); destruct (clashes r0 _); intros H; inversion H; subst;
    (assert (Hkey : idempotencyKey r = p_idempotencyKey p)
       by (pose proof Hbuilt as Hb; unfold built_from in Hb; tauto));
    (split; [exact Hbuilt|]); (split; [exact Hfrom|]); (split; [exact Hkey|]);
    unfold envelope_log, callback_log; rewrite Hkey; cbn;
    rewrite <- ?app_assoc; cbn [app]; rewrite <- ?app_assoc; reflexivity.
Qed.

Lemma descends_from_static (p : Prepared) (w w1 : World) (now : Z) (r : TaskRun) :
  static w w1 -> descends_from C taskId env body p w1 now r ->
  descends_from C taskId env body p w now r.
Proof.
  intros (_ & _ & Hbw & Hbt & _).
  unfold descends_from, run_queue_name, resolved_queue_name, locked_worker.
  now rewrite Hbw, Hbt.
Qed.

(** Above the tracing envelope only [parseDelay] reads the clock. *)
Lemma after_payload_clock (w : World) :
  clock (after_payload C env body w) = clock (after_delay C body w).
Proof.
  unfold after_payload, after_entitlement.
  destruct (offloaded C body), (EnvironmentType_eqb (env_type env) DEVELOPMENT);
    reflexivity.
Qed.

(** The calls of a call that creates a run. *)
Lemma created_run_log (w w' : World) (r : TaskRun) :
  call C taskId env body options w = (inr r, w') ->
  existing_run taskId env body options w = None ->
  new_effects w w'
  = (entitlement_log env ++ upload_log C env body w
     ++ envelope_log taskId env body options r)%list.
Proof.
  intros Hcall Hmiss.
  destruct (call_created C _ _ _ _ _ _ _ Hcall Hmiss) as (_ & _ & _ & Hpersist).
  destruct (persist_full _ _ _ _ Hpersist) as (_ & _ & _ & Hlog).
  destruct (after_payload_facts C env body w) as (_ & _ & _ & _ & Hl).
  apply new_effects_app. rewrite Hlog, Hl, <- !app_assoc. reflexivity.
Qed.

(** A call that creates a run: all that is known of the run. *)
Lemma created_run_full (w w' : World) (r : TaskRun) :
  call C taskId env body options w = (inr r, w') ->
  existing_run taskId env body options w = None ->
  tags_within_limit body = true
  /\ built_from taskId env (prepared C env body options w)
                (last_number taskId (env_id env) w + 1) r
  /\ descends_from C taskId env body (prepared C env body options w) w
                   (clock (after_delay C body w)) r.
Proof.
  intros Hcall Hmiss.
  destruct (call_created C _ _ _ _ _ _ _ Hcall Hmiss) as (_ & Htags & _ & Hpersist).
  destruct (created_run_facts C _ _ _ _ _ _ _ Hcall Hmiss) as (Hbuilt & _).
  destruct (persist_full _ _ _ _ Hpersist) as (_ & Hfrom & _).
  destruct (after_payload_facts C env body w) as (Hs & _).
  split; [exact Htags|]. split; [exact Hbuilt|].
  rewrite <- after_payload_clock. eapply descends_from_static; eauto.
Qed.

End RunFacts.

Section RunProperties.

Variable C : Collaborators.
Variable taskId : string.
Variable env : AuthenticatedEnvironment.
Variable body : TriggerTaskRequestBody.
Variable options : TriggerTaskServiceOptions.

(** X6: a created run is delayed until the time [parseDelay] makes of the
    request's delay, with the time the clock shows when [parseDelay] reads
    it.  A run that is delayed has no [queuedAt].  The [queuedAt] of a run
    that is not delayed is a reading of the clock of its own, made in the
    callback of the counter envelope: it is the reading that follows the one
    [parseDelay] has made, and the first reading of the call when
    [parseDelay] has made none (no delay, an empty text, a [Date]). *)
Theorem created_run_queued_or_delayed (w w' : World) (r : TaskRun) :
  call C taskId env body options w = (inr r, w') ->
  existing_run taskId env body options w = None ->
  delayUntil r = parseDelay C (clock w) (option_field body opt_delay)
  /\ (delayUntil r <> None -> queuedAt r = None)
  /\ (delayUntil r = None ->
      queuedAt r = Some (if reads_clock body then Date_next C (clock w) else clock w)).
Proof.
  intros Hcall Hmiss.
  destruct (created_run_full C _ _ _ _ _ _ _ Hcall Hmiss) as (_ & Hbuilt & Hfrom).
  destruct Hbuilt as (_ & _ & _ & _ & _ & _ & _ & _ & _ & _ & _ & Hdelay & _).
  destruct Hfrom as (_ & _ & _ & _ & _ & _ & Hqueued & _).
  assert (Hclock : clock (after_delay C body w)
                   = if reads_clock body then Date_next C (clock w) else clock w).
  { unfold after_delay. destruct (reads_clock body); reflexivity. }
  rewrite Hdelay, Hqueued, Hclock. cbn [p_delayUntil prepared].
  destruct (parseDelay C (clock w) (option_field body opt_delay));
    repeat split; congruence.
Qed.

(** X7: the tags of a created run are the ids [createTag] gives for the
    tags of the request, in their order, and they are at most 8. *)
Theorem created_run_tags (w w' : World) (r : TaskRun) :
  call C taskId env body options w = (inr r, w') ->
  existing_run taskId env body options w = None ->
  tags r = request_tag_ids C env body
  /\ (length (tags r) <= length (request_tags body) <= 8)%nat.
Proof.
  intros Hcall Hmiss.
  destruct (created_run_full C _ _ _ _ _ _ _ Hcall Hmiss) as (Hlimit & _ & Hfrom).
  destruct Hfrom as (_ & _ & _ & Htags & _).
  rewrite Htags. split; [reflexivity|]. split.
  - unfold request_tag_ids. induction (request_tags body) as [|t l IH]; cbn; [lia|].
    rewrite length_app. destruct (createTag C t (env_projectId env)); cbn; lia.
  - unfold tags_within_limit in Hlimit. unfold request_tags.
    destruct (option_field body opt_tags) as [[t|l]|]; cbn; try lia.
    unfold MAX_TAGS_PER_RUN in Hlimit.
    destruct (Z.ltb_spec 8 (Z.of_nat (length l))); [discriminate|lia].
Qed.

(** X8: the parent of a created run is the run of the parent attempt, its
    root is the root of that run or, when that run has none, that run
    itself; without a parent attempt the run has neither, whatever dependent
    attempt it has.  Its batch is the dependent batch, or else the parent
    batch. *)
Theorem created_run_lineage (w w' : World) (r : TaskRun) :
  call C taskId env body options w = (inr r, w') ->
  existing_run taskId env body options w = None ->
  match resolve_attempt (option_field body opt_parentAttempt) w with
  | Some parent =>
      parentTaskRunId r = Some (tr_id (att_taskRun parent))
      /\ rootTaskRunId r = Some (match tr_rootTaskRunId (att_taskRun parent) with
                                 | Some root => root
                                 | None => tr_id (att_taskRun parent)
                                 end)
  | None => parentTaskRunId r = None /\ rootTaskRunId r = None
  end
  /\ batchId r
     = match resolve_batch (option_field body opt_dependentBatch) w with
       | Some batch => Some (batch_id batch)
       | None => option_map batch_id
                   (resolve_batch (option_field body opt_parentBatch) w)
       end.
Proof.
  intros Hcall Hmiss.
  destruct (created_run_full C _ _ _ _ _ _ _ Hcall Hmiss) as (_ & _ & Hfrom).
  destruct Hfrom as (Hparent & Hroot & Hbatch & _).
  unfold prepared in *. cbn in *. rewrite Hparent, Hroot, Hbatch.
  destruct (resolve_attempt (option_field body opt_parentAttempt) w); auto.
Qed.

(** X9: the queue name of a created run is not empty, as long as
    [sanitizeQueueName] leaves something of [task/<taskId>]; a name the
    request gives for the queue, when it is not empty and something is left
    of it, is the queue name whatever the worker has configured for the
    task. *)
Theorem created_run_queue_name_not_empty (w w' : World) (r : TaskRun) :
  call C taskId env body options w = (inr r, w') ->
  existing_run taskId env body options w = None ->
  sanitizeQueueName C ("task/" ++ taskId) <> EmptyString ->
  queueName r <> EmptyString
  /\ (forall q name,
        option_field body opt_queue = Some q -> queue_name q = Some name ->
        name <> EmptyString -> sanitizeQueueName C name <> EmptyString ->
        queueName r = sanitizeQueueName C name).
Proof.
  intros Hcall Hmiss Hdefault.
  destruct (created_run_full C _ _ _ _ _ _ _ Hcall Hmiss) as (_ & _ & Hfrom).
  destruct Hfrom as (_ & _ & _ & _ & Hqueue & _).
  rewrite Hqueue. unfold run_queue_name. split.
  - destruct (sanitizeQueueName C (resolved_queue_name _ _ _ _ _)) eqn:E; cbn;
      [exact Hdefault | discriminate].
  - intros q name -> -> Hname Hsane. unfold resolved_queue_name.
    destruct name as [|a name]; [congruence|]. cbn [Js.truthy].
    destruct (sanitizeQueueName C (String a name)); [congruence|reflexivity].
Qed.


(** The calls a call makes after the idempotency lookup has found
    nothing: those of the entitlement check, then none on the entitlement
    service. *)
Lemma call_effects (w w' : World) (res : ServiceError + TaskRun) :
  call C taskId env body options w = (res, w') ->
  existing_run taskId env body options w = None ->
  exists rest,
    new_effects w w' = (entitlement_log env ++ rest)%list
    /\ forallb (fun e => negb (is_getEntitlement e)) rest = true.
Proof.
  intros Hcall Hmiss. unfold call in Hcall. apply bind_inv in Hcall.
  assert (Hup : forallb (fun e => negb (is_getEntitlement e))
                        (upload_log C env body w) = true).
  { unfold upload_log. destruct (offloaded C body); reflexivity. }
  destruct Hcall as [(e & Hp & He) | (a & w1 & Hp & Hk)].
  - destruct (prepare_thrown C _ _ _ _ _ _ _ Hp) as (_ & _ & _ & Hcases).
    destruct Hcases as [(_ & _ & _ & ->) | [(_ & _ & _ & _ & ->) | (_ & _ & _ & _ & ->)]].
    + exists []. now rewrite app_nil_r.
    + exists []. now rewrite app_nil_r.
    + eauto.
  - rewrite (prepare_miss C taskId env body options w Hmiss) in Hp.
    destruct (negb (entitled C env)); [discriminate|].
    destruct (negb (tags_within_limit body)); [discriminate|].
    destruct (blocking_attempt C body w); [discriminate|].
    inversion Hp; subst. cbv beta iota in Hk.
    destruct (persist_outcome C _ _ _ _ _ _ _ _ Hk)
      as (_ & _ & (new & Hlog & Hallowed & _) & _).
    destruct (after_payload_facts C env body w) as (_ & _ & _ & _ & Hl).
    exists (upload_log C env body w ++ new)%list. split.
    + apply new_effects_app. rewrite Hlog, Hl, <- !app_assoc. reflexivity.
    + rewrite forallb_app, Hup. cbn.
      eapply forallb_weaken; [|exact Hallowed]. intros x. destruct x; cbn; auto.
Qed.

(** X11: in a development environment no call asks the entitlement
    service.  In another environment, a call that the idempotency lookup
    does not answer asks it once, before any upload, trace event, counter
    or engine call, and when the reply is [hasAccess = false] the call throws
    [OutOfEntitlementError] and has made none of these. *)
Theorem entitlement_check (w w' : World) (res : ServiceError + TaskRun) :
  call C taskId env body options w = (res, w') ->
  (env_type env = DEVELOPMENT ->
   forallb (fun e => negb (is_getEntitlement e)) (new_effects w w') = true)
  /\ (env_type env <> DEVELOPMENT ->
      existing_run taskId env body options w = None ->
      (exists rest,
          new_effects w w' = (getEntitlement_call (env_organizationId env) :: rest)%list
          /\ forallb (fun e => negb (is_getEntitlement e)) rest = true)
      /\ (getEntitlement C (env_organizationId env) = Some {| hasAccess := false |} ->
          res = inl OutOfEntitlementError
          /\ new_effects w w' = [getEntitlement_call (env_organizationId env)]
          /\ taskRun w' = taskRun w /\ counters w' = counters w
          /\ objectStore w' = objectStore w)).
Proof.
  intros Hcall. split.
  - intros Hdev.
    destruct (existing_run taskId env body options w) as [r|] eqn:Ex.
    + unfold call in Hcall.
      rewrite (bind_eq _ _ _ _ _ (prepare_existing C _ _ _ _ _ _ Ex)) in Hcall.
      inversion Hcall; subst.
      destruct (after_hit_facts C body r w) as (_ & _ & _ & _ & Hl).
      rewrite (new_effects_app _ _ _ Hl). reflexivity.
    + destruct (call_effects _ _ _ Hcall Ex) as (rest & -> & Hrest).
      unfold entitlement_log. rewrite Hdev. exact Hrest.
  - intros Hnot Hmiss.
    assert (Hlog : entitlement_log env = [getEntitlement_call (env_organizationId env)]).
    { unfold entitlement_log. destruct (env_type env); try reflexivity. congruence. }
    split.
    + destruct (call_effects _ _ _ Hcall Hmiss) as (rest & -> & Hrest).
      rewrite Hlog. exists rest. split; [reflexivity|exact Hrest].
    + intros Hreply.
      assert (Hent : entitled C env = false).
      { unfold entitled. rewrite Hreply. destruct (env_type env); try reflexivity.
        congruence. }
      unfold call, bind in Hcall.
      rewrite (prepare_miss C taskId env body options w Hmiss), Hent in Hcall.
      cbn [negb] in Hcall. inversion Hcall; subst.
      destruct (after_entitlement_facts C env body w) as (_ & Ht & Hc & Ho & _ & Hl).
      rewrite Hlog in Hl. rewrite (new_effects_app _ _ _ Hl). auto.
Qed.

(** X12: a call stores at most one object, the inline data of the payload
    packet under [<runFriendlyId>/payload.json], and only when the packet
    has data that is not empty and the predicate asks to offload it. *)
Theorem call_uploads_at_most_once (w w' : World) (res : ServiceError + TaskRun) :
  call C taskId env body options w = (res, w') ->
  objectStore w' = objectStore w
  \/ exists d,
      data (request_packet C body) = Some d
      /\ d <> EmptyString
      /\ fst (packetRequiresOffloading C (request_packet C body)
                (TASK_PAYLOAD_OFFLOAD_THRESHOLD C)) = true
      /\ objectStore w'
         = (objectStore w
            ++ [ {| obj_filename := generateFriendlyId C "run" (generated w)
                                    ++ "/payload.json";
                    obj_body := d;
                    obj_contentType := dataType (request_packet C body) |} ])%list.
Proof.
  intros Hcall.
  assert (Hshape : forall w1, objectStore w1 = (objectStore w ++ uploaded C body w)%list ->
    objectStore w1 = objectStore w
    \/ exists d,
        data (request_packet C body) = Some d
        /\ d <> EmptyString
        /\ fst (packetRequiresOffloading C (request_packet C body)
                  (TASK_PAYLOAD_OFFLOAD_THRESHOLD C)) = true
        /\ objectStore w1
           = (objectStore w
              ++ [ {| obj_filename := generateFriendlyId C "run" (generated w)
                                      ++ "/payload.json";
                      obj_body := d;
                      obj_contentType := dataType (request_packet C body) |} ])%list).
  { intros w1 Ho. unfold uploaded, offloaded in Ho.
    destruct (data (request_packet C body)) as [d|] eqn:Ed;
      [|left; now rewrite app_nil_r in Ho].
    destruct (Js.truthy d) eqn:Et; cbn [andb] in Ho;
      [|left; now rewrite app_nil_r in Ho].
    destruct (fst (packetRequiresOffloading C (request_packet C body)
                     (TASK_PAYLOAD_OFFLOAD_THRESHOLD C))) eqn:En;
      [|left; now rewrite app_nil_r in Ho].
    right. exists d. repeat split; try assumption.
    destruct d; [discriminate|congruence]. }
  unfold call in Hcall. apply bind_inv in Hcall.
  destruct Hcall as [(e & Hp & He) | (a & w1 & Hp & Hk)].
  - destruct (prepare_thrown C _ _ _ _ _ _ _ Hp) as (_ & _ & _ & Hcases).
    destruct Hcases as [(_ & _ & Ho & _) | [(_ & _ & _ & Ho & _) | (_ & _ & _ & Ho & _)]];
      auto.
  - destruct (existing_run taskId env body options w) as [r|] eqn:Ex.
    + rewrite (prepare_existing C _ _ _ _ _ _ Ex) in Hp. inversion Hp; subst.
      inversion Hk; subst. left. apply (after_hit_facts C body r w).
    + rewrite (prepare_miss C taskId env body options w Ex) in Hp.
      destruct (negb (entitled C env)); [discriminate|].
      destruct (negb (tags_within_limit body)); [discriminate|].
      destruct (blocking_attempt C body w); [discriminate|].
      inversion Hp; subst. cbv beta iota in Hk.
      destruct (persist_outcome C _ _ _ _ _ _ _ _ Hk) as (_ & Hstore & _).
      destruct (after_payload_facts C env body w) as (_ & _ & _ & Ho & _).
      apply Hshape. now rewrite Hstore.
Qed.

(** X13: a call changes the table of runs and the counters only when it
    creates a run: then the run it returns is the one new row, and its
    number is the successor of the counter's last number, which the counter
    takes.  A call that throws, above the envelopes or in them, and a call
    that returns a stored run leave both as they were. *)
Theorem call_rows (w w' : World) (res : ServiceError + TaskRun) :
  call C taskId env body options w = (res, w') ->
  match res, existing_run taskId env body options w with
  | inr r, None =>
      taskRun w' = (taskRun w ++ [r])%list
      /\ number r = last_number taskId (env_id env) w + 1
      /\ last_number taskId (env_id env) w' = number r
  | inr r, Some stored =>
      r = stored /\ taskRun w' = taskRun w /\ counters w' = counters w
  | inl _, _ => taskRun w' = taskRun w /\ counters w' = counters w
  end.
Proof.
  intros Hcall.
  destruct (existing_run taskId env body options w) as [stored|] eqn:Ex.
  - unfold call in Hcall.
    rewrite (bind_eq _ _ _ _ _ (prepare_existing C _ _ _ _ _ _ Ex)) in Hcall.
    inversion Hcall; subst.
    destruct (after_hit_facts C body stored w) as (_ & Ht & Hc & _). auto.
  - destruct res as [e|r].
    + unfold call in Hcall. apply bind_inv in Hcall.
      destruct Hcall as [(e' & Hp & He) | (a & w1 & Hp & Hk)].
      * destruct (prepare_thrown C _ _ _ _ _ _ _ Hp) as (Ht & Hc & _). auto.
      * rewrite (prepare_miss C taskId env body options w Ex) in Hp.
        destruct (negb (entitled C env)); [discriminate|].
        destruct (negb (tags_within_limit body)); [discriminate|].
        destruct (blocking_attempt C body w); [discriminate|].
        inversion Hp; subst. cbv beta iota in Hk.
        destruct (persist_outcome C _ _ _ _ _ _ _ _ Hk) as (_ & _ & _ & Ht & Hc).
        destruct (after_payload_facts C env body w) as (_ & Ht' & Hc' & _).
        rewrite Ht, Hc. auto.
    + destruct (created_run_facts C _ _ _ _ _ _ _ Hcall Ex)
        as (Hbuilt & Hrows & Hlast & _).
      destruct Hbuilt as (Hnum & _). auto.
Qed.

(** X14: when the payload packet has no data, or empty data, a created run
    has the empty payload and the data type of the packet, and nothing is
    uploaded, whatever the offload predicate says.  This is so for a payload
    that is not a string under a payload type other than
    [application/json], and for the payload [undefined] under
    [application/json]. *)
Theorem packet_without_data_not_offloaded (w w' : World) (r : TaskRun) :
  call C taskId env body options w = (inr r, w') ->
  existing_run taskId env body options w = None ->
  (forall d, data (request_packet C body) = Some d -> d = EmptyString) ->
  payload r = EmptyString
  /\ payloadType r = dataType (request_packet C body)
  /\ objectStore w' = objectStore w
  /\ forallb (fun e => negb (is_upload e)) (new_effects w w') = true.
Proof.
  intros Hcall Hmiss Hempty.
  destruct (created_run_facts C _ _ _ _ _ _ _ Hcall Hmiss)
    as (Hbuilt & _ & _ & Hstore & new & Hnew & Hallowed & _).
  destruct Hbuilt as (_ & _ & _ & _ & _ & Hpayload & Htype & _).
  unfold prepared in Hpayload, Htype. cbn in Hpayload, Htype.
  unfold handled_packet in Hpayload, Htype.
  unfold uploaded in Hstore. unfold upload_log in Hnew.
  assert (Hoff : offloaded C body = None).
  { unfold offloaded. destruct (data (request_packet C body)) as [d|]; [|reflexivity].
    now rewrite (Hempty d eq_refl). }
  rewrite Hoff in *. rewrite app_nil_r in Hstore. cbn [app] in Hnew.
  repeat split; try assumption.
  - rewrite Hpayload. destruct (data (request_packet C body)) as [d|]; [|reflexivity].
    now apply Hempty.
  - rewrite Hnew, forallb_app. apply andb_true_iff. split.
    + eapply forallb_weaken; [|apply (entitlement_log_quiet env)].
      intros x. destruct x; cbn; auto.
    + eapply forallb_weaken; [|exact Hallowed].
      intros x. destruct x; cbn; auto.
Qed.

Lemma createPayloadPacket_no_data (payload : JsValue) (payloadType : string) :
  (String.eqb payloadType "application/json" = false
   /\ (forall s, payload <> JsString s))
  \/ (String.eqb payloadType "application/json" = true /\ payload = JsUndefined) ->
  data (createPayloadPacket C payload payloadType) = None.
Proof.
  unfold createPayloadPacket. intros [[Ht Hp] | [Ht ->]]; rewrite Ht.
  - destruct payload; try reflexivity. now destruct (Hp s).
  - reflexivity.
Qed.

(** X19: from the idempotency lookup on, and logging and the reads of the
    database aside, a call that creates a run calls its collaborators in
    this order: the entitlement check outside development,
    the upload of an offloaded payload, the trace event, the counter with
    the key
    [v3-run:<environment id>:<task id>], the queue name on event and span,
    one [createTag] for each tag of the request in their order, the run id on
    event and span, and [engine.trigger] with the run, once and last. *)
Theorem created_run_calls_in_order (w w' : World) (r : TaskRun) :
  call C taskId env body options w = (inr r, w') ->
  existing_run taskId env body options w = None ->
  new_effects w w'
  = (entitlement_log env ++ upload_log C env body w
     ++ envelope_log taskId env body options r)%list
  /\ exists before,
      new_effects w w' = (before ++ [engine_trigger_call r])%list
      /\ forallb (fun e => negb (is_engine_trigger e)) before = true.
Proof.
  intros Hcall Hmiss. rewrite (created_run_log C _ _ _ _ _ _ _ Hcall Hmiss).
  split; [reflexivity|].
  exists (entitlement_log env ++ upload_log C env body w
          ++ [ traceEvent_call taskId
                 (match so_customIcon options with Some icon => icon | None => "task" end)
                 (match option_field body opt_test with Some b => b | None => false end)
                 (so_batchId options) (idempotencyKey r);
               incrementInTransaction_call ("v3-run:" ++ env_id env ++ ":" ++ taskId) ]
          ++ callback_log env body r)%list.
  split.
  - unfold envelope_log. rewrite <- !app_assoc. reflexivity.
  - rewrite !forallb_app. unfold entitlement_log, upload_log, callback_log.
    destruct (EnvironmentType_eqb (env_type env) DEVELOPMENT), (offloaded C body);
      cbn; rewrite ?forallb_app; cbn; rewrite ?andb_true_r;
      induction (request_tags body); cbn; auto.
Qed.

(** X20: the metadata of a created run and its seed metadata are the same
    packet.  A request without metadata gives none; metadata that is truthy
    gives what [handleMetadataPacket] makes of it, with the type
    [application/json] when the request names no type. *)
Theorem created_run_metadata (w w' : World) (r : TaskRun) :
  call C taskId env body options w = (inr r, w') ->
  existing_run taskId env body options w = None ->
  seedMetadata r = metadata r
  /\ seedMetadataType r = metadataType r
  /\ (option_field body opt_metadata = None ->
      metadata r = None /\ metadataType r = None)
  /\ (forall value,
        option_field body opt_metadata = Some value ->
        JsValue_truthy value = true ->
        let packet := handleMetadataPacket C value
                        (match option_field body opt_metadataType with
                         | Some t => t
                         | None => "application/json"
                         end) in
        metadata r = match packet with Some m => data m | None => None end
        /\ metadataType r = option_map dataType packet).
Proof.
  intros Hcall Hmiss.
  destruct (created_run_full C _ _ _ _ _ _ _ Hcall Hmiss) as (_ & _ & Hfrom).
  destruct Hfrom as (_ & _ & _ & _ & _ & _ & _ & Hm & Ht & Hsm & Hst).
  unfold prepared in Hm, Ht. cbn in Hm, Ht. unfold request_metadata in Hm, Ht.
  split; [exact Hsm|]. split; [exact Hst|]. split.
  - intros Hnone. rewrite Hm, Ht, Hnone. split; reflexivity.
  - intros value Hvalue Htruthy. cbv zeta. rewrite Hm, Ht, Hvalue, Htruthy.
    split; reflexivity.
Qed.

(** X21: a created run is locked to the worker that has the version
    [lockToVersion] names in the project and the environment of the call.
    When there is no such worker the run is created all the same, locked to
    no version, as it is without [lockToVersion] or with the empty one. *)
Theorem created_run_locked_version (w w' : World) (r : TaskRun) :
  call C taskId env body options w = (inr r, w') ->
  existing_run taskId env body options w = None ->
  (forall worker,
      lockedToVersionId r = Some worker ->
      exists version b,
        option_field body opt_lockToVersion = Some version
        /\ version <> EmptyString
        /\ In b (backgroundWorker w)
        /\ worker_id b = worker
        /\ worker_version b = version
        /\ worker_projectId b = env_projectId env
        /\ worker_runtimeEnvironmentId b = env_id env)
  /\ (forall version,
        option_field body opt_lockToVersion = Some version ->
        forall b, In b (backgroundWorker w) ->
                  worker_version b = version ->
                  worker_projectId b = env_projectId env ->
                  worker_runtimeEnvironmentId b = env_id env ->
                  version <> EmptyString ->
                  lockedToVersionId r <> None).
Proof.
  intros Hcall Hmiss.
  destruct (created_run_full C _ _ _ _ _ _ _ Hcall Hmiss) as (_ & _ & Hfrom).
  destruct Hfrom as (_ & _ & _ & _ & _ & Hlock & _).
  rewrite Hlock. unfold locked_worker. split.
  - intros worker Hw.
    destruct (option_field body opt_lockToVersion) as [version|]; [|discriminate].
    destruct version as [|a version]; [discriminate|]. cbn [Js.truthy] in Hw.
    destruct (find _ (backgroundWorker w)) as [b|] eqn:Ef; [|discriminate].
    apply find_some in Ef. destruct Ef as [Hin Hb].
    apply andb_true_iff in Hb. destruct Hb as [Hb Hv].
    apply andb_true_iff in Hb. destruct Hb as [Hp He].
    apply String.eqb_eq in Hv, Hp, He. inversion Hw.
    exists (String a version), b. repeat split; try assumption. discriminate.
  - intros version -> b Hin Hv Hp He Hne.
    destruct version as [|a version]; [congruence|]. cbn [Js.truthy].
    destruct (find _ (backgroundWorker w)) as [b'|] eqn:Ef; [discriminate|].
    pose proof (find_none _ _ Ef b Hin) as Hb. cbn beta in Hb.
    rewrite Hp, He, Hv, !String.eqb_refl in Hb. discriminate.
Qed.

End RunProperties.

Lemma nested_call :
  call Examples.collaborators "process-order" Examples.production
       Cases.nested_body Examples.service_options (Examples.world [])
  = (inr Cases.nested_run, Cases.nested_world).
Proof. vm_compute. reflexivity. Qed.

Lemma created_run_queued_or_delayed_witness :
  (delayUntil Cases.nested_run = Some (1774699200000 + 3600000)
   /\ queuedAt Cases.nested_run = None)
  /\ (delayUntil Cases.unparsed_run = None
      /\ queuedAt Cases.unparsed_run = Some (1774699200000 + 25)).
Proof.
  assert (Hcall :
    call Examples.collaborators "process-order" Examples.production
         Cases.unparsed_body Examples.service_options (Examples.world [])
    = (inr Cases.unparsed_run, Cases.unparsed_world)) by (vm_compute; reflexivity).
  pose proof (created_run_queued_or_delayed Examples.collaborators "process-order"
                Examples.production Cases.nested_body Examples.service_options
                (Examples.world []) Cases.nested_world Cases.nested_run
                nested_call eq_refl) as (Hdelay & Hqueued & _).
  pose proof (created_run_queued_or_delayed Examples.collaborators "process-order"
                Examples.production Cases.unparsed_body Examples.service_options
                (Examples.world []) Cases.unparsed_world Cases.unparsed_run
                Hcall eq_refl) as (Hnone & _ & Hread).
  split; split.
  - exact Hdelay.
  - apply Hqueued. discriminate.
  - exact Hnone.
  - exact (Hread eq_refl).
Defined.

Lemma created_run_tags_witness :
  tags Cases.nested_run = ["tag_vip"; "tag_eu"].
Proof.
  exact (proj1 (created_run_tags Examples.collaborators "process-order"
                  Examples.production Cases.nested_body Examples.service_options
                  (Examples.world []) Cases.nested_world Cases.nested_run
                  nested_call eq_refl)).
Defined.

Lemma created_run_lineage_witness :
  (parentTaskRunId Cases.nested_run = Some "run_parent"
   /\ rootTaskRunId Cases.nested_run = Some "run_parent")
  /\ batchId Cases.nested_run = Some "batch_id_1".
Proof.
  exact (created_run_lineage Examples.collaborators "process-order"
           Examples.production Cases.nested_body Examples.service_options
           (Examples.world []) Cases.nested_world Cases.nested_run
           nested_call eq_refl).
Defined.

Lemma created_run_queue_name_witness :
  queueName Cases.nested_run = "orders".
Proof.
  refine (proj2 (created_run_queue_name_not_empty Examples.collaborators "process-order"
                   Examples.production Cases.nested_body Examples.service_options
                   (Examples.world []) Cases.nested_world Cases.nested_run
                   nested_call eq_refl _) _ "orders" eq_refl eq_refl _ _); discriminate.
Defined.


Lemma entitlement_check_witness :
  call Examples.collaborators "process-order" Cases.broke Scenario.large_body
       Examples.service_options (Examples.world [])
  = (inl OutOfEntitlementError, Cases.broke_world)
  /\ new_effects (Examples.world []) Cases.broke_world
     = [getEntitlement_call "org_broke"]
  /\ objectStore Cases.broke_world = [].
Proof.
  assert (Hcall :
    call Examples.collaborators "process-order" Cases.broke Scenario.large_body
         Examples.service_options (Examples.world [])
    = (inl OutOfEntitlementError, Cases.broke_world)) by (vm_compute; reflexivity).
  split; [exact Hcall|].
  assert (Hnot : env_type Cases.broke <> DEVELOPMENT) by discriminate.
  pose proof (proj2 (proj2 (entitlement_check Examples.collaborators "process-order"
                              Cases.broke Scenario.large_body Examples.service_options
                              (Examples.world []) Cases.broke_world _ Hcall)
                           Hnot eq_refl) eq_refl) as (_ & Hlog & _ & _ & Hstore).
  split; [exact Hlog | exact Hstore].
Defined.

Lemma call_uploads_witness :
  objectStore Scenario.large_world
  = [ {| obj_filename := "run_0/payload.json";
         obj_body := "[1,2,3,4,5,6,7,8,9,10,11,12]";
         obj_contentType := "application/json" |} ].
Proof.
  assert (Hcall :
    call Examples.collaborators "process-order" Examples.production
         Scenario.large_body Examples.service_options (Examples.world [])
    = (inr Scenario.large_run, Scenario.large_world)) by (vm_compute; reflexivity).
  destruct (call_uploads_at_most_once Examples.collaborators "process-order"
              Examples.production Scenario.large_body Examples.service_options
              (Examples.world []) Scenario.large_world _ Hcall)
    as [Hsame | (d & Hd & _ & _ & Hstore)].
  - discriminate Hsame.
  - injection Hd as <-. exact Hstore.
Defined.

Lemma call_rows_witness :
  taskRun Scenario.failed_parent_small_world = []
  /\ counters Scenario.failed_parent_small_world = [].
Proof.
  assert (Hcall :
    call Examples.collaborators "process-order" Examples.production
         Scenario.failed_parent_small_body Examples.service_options (Examples.world [])
    = (inl Scenario.failed_parent_error, Scenario.failed_parent_small_world))
    by (vm_compute; reflexivity).
  exact (call_rows Examples.collaborators "process-order" Examples.production
           Scenario.failed_parent_small_body Examples.service_options
           (Examples.world []) Scenario.failed_parent_small_world _ Hcall).
Defined.

Lemma packet_without_data_witness :
  payload Cases.undefined_run = EmptyString
  /\ payloadType Cases.undefined_run = "application/json"
  /\ objectStore Cases.undefined_world = [].
Proof.
  assert (Hcall :
    call Examples.collaborators "process-order" Examples.production
         Cases.undefined_body Examples.service_options (Examples.world [])
    = (inr Cases.undefined_run, Cases.undefined_world)) by (vm_compute; reflexivity).
  assert (Hdata : forall d,
    data (request_packet Examples.collaborators Cases.undefined_body) = Some d ->
    d = EmptyString) by (intros d Hd; discriminate Hd).
  pose proof (packet_without_data_not_offloaded Examples.collaborators "process-order"
                Examples.production Cases.undefined_body Examples.service_options
                (Examples.world []) Cases.undefined_world Cases.undefined_run
                Hcall eq_refl Hdata) as (Hp & Ht & Ho & _).
  repeat split; assumption.
Defined.

Lemma created_run_calls_witness :
  new_effects (Examples.world []) Cases.nested_world
  = [ getEntitlement_call "org_1";
      traceEvent_call "process-order" "task" false None (Some "order-1");
      incrementInTransaction_call "v3-run:env_prod:process-order";
      event_setAttribute "queueName" "orders";
      span_setAttribute "queueName" "orders";
      createTag_call "vip" "proj_1";
      createTag_call "eu" "proj_1";
      event_setAttribute "runId" "run_0";
      span_setAttribute "runId" "run_0";
      engine_trigger_call Cases.nested_run ].
Proof.
  exact (proj1 (created_run_calls_in_order Examples.collaborators "process-order"
                  Examples.production Cases.nested_body Examples.service_options
                  (Examples.world []) Cases.nested_world Cases.nested_run
                  nested_call eq_refl)).
Defined.

Lemma locked_call :
  call Examples.collaborators "process-order" Examples.production
       Cases.locked_body Examples.service_options Cases.worker_world
  = (inr Cases.locked_run, Cases.locked_world).
Proof. vm_compute. reflexivity. Qed.

Lemma created_run_metadata_witness :
  metadata Cases.locked_run = Some "[1]"
  /\ metadataType Cases.locked_run = Some "application/json"
  /\ seedMetadata Cases.locked_run = metadata Cases.locked_run.
Proof.
  pose proof (created_run_metadata Examples.collaborators "process-order"
                Examples.production Cases.locked_body Examples.service_options
                Cases.worker_world Cases.locked_world Cases.locked_run
                locked_call eq_refl) as (Hseed & _ & _ & Hvalue).
  destruct (Hvalue (JsOther "[1]") eq_refl eq_refl) as [Hm Ht].
  repeat split; assumption.
Defined.

Lemma created_run_locked_version_witness :
  lockedToVersionId Cases.locked_run <> None.
Proof.
  refine (proj2 (created_run_locked_version Examples.collaborators "process-order"
                   Examples.production Cases.locked_body Examples.service_options
                   Cases.worker_world Cases.locked_world Cases.locked_run
                   locked_call eq_refl)
                "20240101.1" eq_refl
                {| worker_id := "worker_1"; worker_projectId := "proj_1";
                   worker_runtimeEnvironmentId := "env_prod";
                   worker_version := "20240101.1" |}
                _ eq_refl eq_refl eq_refl _).
  - left. reflexivity.
  - discriminate.
Defined.

(** ** The duration grammar on any text *)

Lemma isDigit_uint_of_char (a : ascii) (d : Decimal.uint) :
  Js.isDigit a = true -> exists d', DecimalString.uint_of_char a (Some d) = Some d'.
Proof.
  destruct a as [[] [] [] [] [] [] [] []]; vm_compute; intros H;
    try discriminate H; eauto.
Qed.

Lemma digits_Number (ds : string) :
  forallb Js.isDigit (list_ascii_of_string ds) = true ->
  exists v, Js.Number ds = Some v /\ 0 <= v.
Proof.
  intros H. unfold Js.Number.
  assert (Hd : exists d, NilEmpty.uint_of_string ds = Some d).
  { induction ds as [|a ds IH]; cbn in *; [eauto|].
    apply andb_true_iff in H. destruct H as [Ha Hds].
    destruct (IH Hds) as [d ->]. now apply isDigit_uint_of_char. }
  destruct Hd as [d ->]. cbn. eexists. split; [reflexivity|lia].
Qed.

Lemma is_digits_all (ds : string) :
  is_digits ds = true ->
  forallb Js.isDigit (list_ascii_of_string ds) = true /\ ds <> EmptyString.
Proof. destruct ds; [discriminate|]. intros H. split; [exact H|discriminate]. Qed.

Lemma group_value_nonneg (g : option string) : 0 <= group_value g.
Proof.
  destruct g as [ds|]; cbn; [|lia]. unfold Js.Number.
  destruct (NilEmpty.uint_of_string ds); cbn; lia.
Qed.

Lemma span_digits_app (ds : string) (c : ascii) (r : string) :
  forallb Js.isDigit (list_ascii_of_string ds) = true -> Js.isDigit c = false ->
  span_digits (ds ++ String c r) = (ds, String c r).
Proof.
  intros Hds Hc. induction ds as [|a ds IH]; cbn in *.
  - now rewrite Hc.
  - apply andb_true_iff in Hds. destruct Hds as [-> Hds]. now rewrite IH.
Qed.

Lemma span_digits_spec (s d r : string) :
  span_digits s = (d, r) ->
  s = d ++ r
  /\ forallb Js.isDigit (list_ascii_of_string d) = true
  /\ match r with
     | EmptyString => True
     | String c _ => Js.isDigit c = false
     end.
Proof.
  revert d r. induction s as [|a s IH]; cbn; intros d r H.
  - inversion H; subst. auto.
  - destruct (Js.isDigit a) eqn:Ea.
    + destruct (span_digits s) as [d' r'] eqn:E. inversion H; subst.
      destruct (IH _ _ eq_refl) as (-> & Hd & Hr). cbn. rewrite Ea. auto.
    + inversion H; subst. cbn. auto.
Qed.

(** A group that is there is matched whole; a group that is not is skipped
    when what follows does not start the group. *)
Lemma match_group_group (u : ascii) (g : option string) (rest : string) :
  group_ok g -> Js.isDigit u = false ->
  match_group u rest = (None, rest) ->
  match_group u (group u g ++ rest) = (captured u g, rest).
Proof.
  intros Hg Hu Hrest. destruct g as [ds|]; cbn [group captured append]; [|exact Hrest].
  destruct (is_digits_all ds Hg) as [Hall Hne].
  rewrite append_snoc. unfold match_group. rewrite span_digits_app by assumption.
  destruct ds; [congruence|]. now rewrite Ascii.eqb_refl.
Qed.

Lemma match_group_pass (u u' : ascii) (g : option string) (rest : string) :
  group_ok g -> Js.isDigit u' = false -> Ascii.eqb u' u = false ->
  match_group u rest = (None, rest) ->
  match_group u (group u' g ++ rest) = (None, group u' g ++ rest).
Proof.
  intros Hg Hu Hne Hrest. destruct g as [ds|]; cbn [group append]; [|exact Hrest].
  destruct (is_digits_all ds Hg) as [Hall Hnon].
  rewrite append_snoc. unfold match_group. rewrite span_digits_app by assumption.
  destruct ds; [congruence|]. now rewrite Hne.
Qed.

Lemma match_group_sound (u : ascii) (s : string) (e : option string) (r : string) :
  match_group u s = (e, r) ->
  exists g, group_ok g /\ e = captured u g /\ s = group u g ++ r.
Proof.
  unfold match_group. destruct (span_digits s) as [d r'] eqn:E.
  destruct (span_digits_spec _ _ _ E) as (Hs & Hd & _).
  assert (Hskip : (None, s) = (e, r) ->
                  exists g, group_ok g /\ e = captured u g /\ s = group u g ++ r).
  { intros H. inversion H; subst. exists None. cbn. auto. }
  destruct d as [|a d]; [exact Hskip|].
  destruct r' as [|c r']; [exact Hskip|].
  destruct (Ascii.eqb_spec c u) as [->|Hne]; [|exact Hskip].
  intros H. inversion H; subst. exists (Some (String a d)).
  repeat split; [exact Hd|]. cbn [group]. now rewrite append_snoc.
Qed.

Lemma duration_match_text (gw gd gh gm gs : option string) :
  group_ok gw -> group_ok gd -> group_ok gh -> group_ok gm -> group_ok gs ->
  duration_match (duration_text gw gd gh gm gs)
  = Some (captured "w" gw, captured "d" gd, captured "h" gh, captured "m" gm,
          captured "s" gs).
Proof.
  intros Hw Hd Hh Hm Hs. unfold duration_match, duration_text.
  rewrite <- (append_empty_r (group "s" gs)).
  repeat (rewrite match_group_group;
          [ | assumption | reflexivity
            | repeat (apply match_group_pass;
                      [assumption | reflexivity | reflexivity | ]);
              apply match_group_empty ]).
  reflexivity.
Qed.

Lemma duration_match_sound (s : string)
      (e1 e2 e3 e4 e5 : option string) :
  duration_match s = Some (e1, e2, e3, e4, e5) ->
  exists gw gd gh gm gs,
    group_ok gw /\ group_ok gd /\ group_ok gh /\ group_ok gm /\ group_ok gs
    /\ s = duration_text gw gd gh gm gs
    /\ (e1, e2, e3, e4, e5)
       = (captured "w" gw, captured "d" gd, captured "h" gh, captured "m" gm,
          captured "s" gs).
Proof.
  unfold duration_match.
  destruct (match_group "w" s) as [x1 r1] eqn:E1.
  destruct (match_group "d" r1) as [x2 r2] eqn:E2.
  destruct (match_group "h" r2) as [x3 r3] eqn:E3.
  destruct (match_group "m" r3) as [x4 r4] eqn:E4.
  destruct (match_group "s" r4) as [x5 r5] eqn:E5.
  destruct r5; [|discriminate]. intros H. inversion H; subst.
  destruct (match_group_sound _ _ _ _ E1) as (gw & Hw & -> & ->).
  destruct (match_group_sound _ _ _ _ E2) as (gd & Hd & -> & ->).
  destruct (match_group_sound _ _ _ _ E3) as (gh & Hh & -> & ->).
  destruct (match_group_sound _ _ _ _ E4) as (gm & Hm & -> & ->).
  destruct (match_group_sound _ _ _ _ E5) as (gs & Hs & -> & ->).
  exists gw, gd, gh, gm, gs. repeat split; try assumption.
  unfold duration_text. now rewrite append_empty_r.
Qed.

(** X15: the pattern of durations accepts exactly the texts made of up to
    five groups of digits and a unit letter, in the order w, d, h, m, s, each
    at most once, and it captures each group that is there.  No other text
    is a duration: it parses to nothing. *)
Theorem duration_grammar (LocalTZA : Z -> bool -> Z) (now : Z) (s : string) :
  (forall gw gd gh gm gs,
      group_ok gw -> group_ok gd -> group_ok gh -> group_ok gm -> group_ok gs ->
      s = duration_text gw gd gh gm gs ->
      duration_match s
      = Some (captured "w" gw, captured "d" gd, captured "h" gh, captured "m" gm,
              captured "s" gs))
  /\ (forall captures,
        duration_match s = Some captures ->
        exists gw gd gh gm gs,
          group_ok gw /\ group_ok gd /\ group_ok gh /\ group_ok gm /\ group_ok gs
          /\ s = duration_text gw gd gh gm gs
          /\ captures
             = (captured "w" gw, captured "d" gd, captured "h" gh, captured "m" gm,
                captured "s" gs))
  /\ (duration_match s = None ->
      parseNaturalLanguageDuration LocalTZA now s = None).
Proof.
  split; [|split].
  - intros gw gd gh gm gs Hw Hd Hh Hm Hs ->. now apply duration_match_text.
  - intros [[[[e1 e2] e3] e4] e5]. apply duration_match_sound.
  - intros H. unfold parseNaturalLanguageDuration. now rewrite H.
Qed.

Lemma add_element_captured (setter : Z -> Z -> Z) (u : ascii) (g : option string)
      (st : Z * bool) :
  group_ok g ->
  add_element setter (captured u g) st
  = match g with
    | Some _ => (setter (group_value g) (fst st), true)
    | None => st
    end.
Proof.
  intros Hg. destruct g as [ds|]; [|reflexivity].
  destruct (is_digits_all ds Hg) as [Hall Hne].
  destruct (digits_Number ds Hall) as (v & Hv & Hpos).
  cbn [captured add_element group_value]. rewrite slice_snoc, Hv.
  destruct (ds ++ String u EmptyString) eqn:Es.
  - destruct ds; discriminate.
  - cbn [Js.truthy]. destruct (0 <=? v) eqn:E0; [reflexivity | lia].
Qed.

Lemma duration_value (LocalTZA : Z -> bool -> Z) (now : Z)
      (gw gd gh gm gs : option string) :
  JsDate.fixed_offset LocalTZA ->
  group_ok gw -> group_ok gd -> group_ok gh -> group_ok gm -> group_ok gs ->
  parseNaturalLanguageDuration LocalTZA now (duration_text gw gd gh gm gs)
  = if no_group gw gd gh gm gs then None
    else Some (now + 1000 * duration_seconds gw gd gh gm gs).
Proof.
  intros Hfix Hw Hd Hh Hm Hs. unfold parseNaturalLanguageDuration.
  rewrite duration_match_text by assumption.
  rewrite !add_element_captured by assumption.
  unfold JsDate.setDate_plus, JsDate.setHours_plus, JsDate.setMinutes_plus,
    JsDate.setSeconds_plus, duration_seconds.
  unfold JsDate.msPerDay, JsDate.msPerHour, JsDate.msPerMinute, JsDate.msPerSecond.
  destruct gw, gd, gh, gm, gs; cbn [fst snd no_group];
    rewrite ?setter_fixed by assumption; try reflexivity;
    f_equal; cbn [group_value]; lia.
Qed.

(** X16: in a zone whose offset does not change, and for time values in
    the range of [Date], a duration is the sum of its groups: the text of
    the groups parses to the clock plus [604800 w + 86400 d + 3600 h + 60 m +
    s] seconds, whatever the size of each number and with leading zeros; a
    text with a group whose number is zero is a duration, the empty text is
    not. *)
Theorem duration_is_sum_of_groups (LocalTZA : Z -> bool -> Z) (now : Z)
        (gw gd gh gm gs : option string) :
  JsDate.fixed_offset LocalTZA ->
  group_ok gw -> group_ok gd -> group_ok gh -> group_ok gm -> group_ok gs ->
  0 <= now -> now + 1000 * duration_seconds gw gd gh gm gs <= max_time ->
  parseNaturalLanguageDuration LocalTZA now (duration_text gw gd gh gm gs)
  = if no_group gw gd gh gm gs then None
    else Some (now + 1000 * duration_seconds gw gd gh gm gs).
Proof. intros. now apply duration_value. Qed.

Lemma duration_seconds_nonneg (gw gd gh gm gs : option string) :
  0 <= duration_seconds gw gd gh gm gs.
Proof.
  unfold duration_seconds.
  pose proof (group_value_nonneg gw). pose proof (group_value_nonneg gd).
  pose proof (group_value_nonneg gh). pose proof (group_value_nonneg gm).
  pose proof (group_value_nonneg gs). lia.
Qed.

(** X17: in a zone whose offset does not change, the time [parseDelay]
    makes of a text is never before the clock: a text that [Date] parses
    gives its time only when that is after the clock, a duration gives the
    clock or later; the empty text gives nothing.  A [Date] is returned as
    it is, also when it is in the past. *)
Theorem parseDelay_not_before_now (C : Collaborators) (now : Z) (s : string) (t : Z) :
  JsDate.fixed_offset (LocalTZA C) ->
  0 <= now -> t <= max_time ->
  parseDelay C now (Some (DelayString s)) = Some t ->
  now <= t
  /\ s <> EmptyString
  /\ (forall time, Date_parse C s = Some time -> t = time /\ now < t)
  /\ (forall past, parseDelay C now (Some (DelayDate past)) = Some past).
Proof.
  intros Hfix Hnow Hmax H. unfold parseDelay in H.
  destruct s as [|a s]; [discriminate|]. cbn [Js.truthy negb] in H.
  assert (Hs : String a s <> EmptyString) by discriminate.
  destruct (Date_parse C (String a s)) as [time|] eqn:Ep.
  - destruct (Z.leb_spec time now); [discriminate|]. inversion H; subst.
    split; [lia|]. split; [exact Hs|]. split; [|reflexivity].
    intros time' Ht. inversion Ht. subst. split; [reflexivity|assumption].
  - assert (Hle : now <= t).
    { destruct (duration_match (String a s)) as [[[[[e1 e2] e3] e4] e5]|] eqn:Em.
      - destruct (duration_match_sound _ _ _ _ _ _ Em)
          as (gw & gd & gh & gm & gs & Hw & Hd & Hh & Hm & Hg & Htext & _).
        rewrite Htext, duration_value in H by assumption.
        destruct (no_group gw gd gh gm gs); [discriminate|].
        pose proof (duration_seconds_nonneg gw gd gh gm gs).
        assert (now + 1000 * duration_seconds gw gd gh gm gs = t) by congruence.
        lia.
      - unfold parseNaturalLanguageDuration in H. rewrite Em in H. discriminate. }
    split; [exact Hle|]. split; [exact Hs|]. split; [|reflexivity].
    intros time Ht. discriminate Ht.
Qed.

(** X18: for whole numbers of seconds from 1 to [2^53 - 1], where the
    arithmetic of the code on doubles is that of the integers, the text
    [stringifyDuration] makes is not empty, and two numbers with the same
    text are the same number. *)
Theorem stringifyDuration_injective (a b : Z) :
  0 < a <= max_safe_integer -> 0 < b <= max_safe_integer ->
  stringifyDuration a = stringifyDuration b ->
  a = b /\ exists s, stringifyDuration a = Some s /\ s <> EmptyString.
Proof.
  intros [Ha _] [Hb _] Heq.
  assert (Hfix : JsDate.fixed_offset JsDate.utc_zone) by (exists 0; reflexivity).
  destruct (roundtrip_fixed JsDate.utc_zone 0 a Hfix Ha) as (sa & Hsa & Hpa).
  destruct (roundtrip_fixed JsDate.utc_zone 0 b Hfix Hb) as (sb & Hsb & Hpb).
  assert (sa = sb) by congruence. subst sb. split; [|exists sa; split; [exact Hsa|]].
  - assert (0 + 1000 * a = 0 + 1000 * b) by congruence. lia.
  - intros ->. discriminate Hpa.
Qed.

Lemma duration_grammar_witness :
  duration_match "1w02h"
  = Some (Some "1w", None, Some "02h", None, None).
Proof.
  exact (proj1 (duration_grammar JsDate.utc_zone 0 "1w02h")
           (Some "1") None (Some "02") None None
           eq_refl I eq_refl I I eq_refl).
Defined.

Lemma duration_is_sum_of_groups_witness :
  parseNaturalLanguageDuration JsDate.utc_zone 1774699200000 "90m0s"
  = Some (1774699200000 + 5400000).
Proof.
  refine (duration_is_sum_of_groups JsDate.utc_zone 1774699200000
            None None None (Some "90") (Some "0") _ I I I eq_refl eq_refl _ _).
  - exists 0. reflexivity.
  - discriminate.
  - discriminate.
Defined.

Lemma parseDelay_not_before_now_witness :
  parseDelay Examples.collaborators 1774699200000 (Some (DelayString "1h"))
  = Some (1774699200000 + 3600000)
  /\ 1774699200000 <= 1774699200000 + 3600000.
Proof.
  split; [reflexivity|].
  refine (proj1 (parseDelay_not_before_now Examples.collaborators 1774699200000 "1h"
                   (1774699200000 + 3600000) _ _ _ eq_refl)).
  - exists 0. reflexivity.
  - discriminate.
  - discriminate.
Defined.

Lemma stringifyDuration_injective_witness :
  exists s, stringifyDuration 5400 = Some s /\ s <> EmptyString.
Proof.
  refine (proj2 (stringifyDuration_injective 5400 5400 _ _ eq_refl));
    unfold max_safe_integer; lia.
Defined.

(** ** The errors of a call *)

Section Errors.

Variable C : Collaborators.
Variable taskId : string.
Variable env : AuthenticatedEnvironment.
Variable body : TriggerTaskRequestBody.
Variable options : TriggerTaskServiceOptions.




End Errors.


(** Two calls with the key [abc] that run concurrently: both lookups find
    nothing, the first call inserts its run, and the insert of the second
    is refused; the table holds one run with the key. *)
Example racing_calls_with_one_key :
  map (fun t => match t with
                | Created _ run => inr (number run)
                | Thrown _ e => inl (Some e)
                | _ => inl None
                end) Cases.racing_pool
  = [inr 8; inl (Some (CollaboratorError "Unique constraint failed"))]
  /\ map idempotencyKey (taskRun Cases.racing_world) = [Some "abc"].
Proof. split; vm_compute; reflexivity. Qed.

(** ** The empty idempotency key *)

Section EmptyKey.

Variable C : Collaborators.
Variable taskId : string.
Variable env : AuthenticatedEnvironment.
Variable body : TriggerTaskRequestBody.
Variable options : TriggerTaskServiceOptions.

(** The envelopes hand a run with the key of the call to the engine,
    whether the insert goes through or not; it goes through only when no
    run with this key is stored. *)
Lemma persist_insert (p : Prepared) (w w' : World) (res : ServiceError + TaskRun) :
  call_persist C taskId env body options p w = (res, w') ->
  exists r,
    log w' = (log w ++ envelope_log taskId env body options r)%list
    /\ idempotencyKey r = p_idempotencyKey p
    /\ match res with
       | inr r' =>
           r' = r
           /\ forall key, p_idempotencyKey p = Some key ->
                existsb (same_idempotency (env_id env) key taskId) (taskRun w) = false
       | inl _ => True
       end.
Proof.
  unfold call_persist, traceEvent.
  rewrite (bind_eq _ _ _ _ _ (eq_refl : gets generated w = (inr (generated w), w))).
  rewrite (bind_eq _ _ _ _ _ (eq_refl :
    modify (with_generated S) w = (inr tt, with_generated S w))).
  rewrite (bind_eq _ _ _ _ _ (emit_run _ _)).
  rewrite incrementInTransaction_run.
  match goal with
  | |- context [create_run C taskId env body options p ?ev ?num ?W] =>
      destruct (create_run_full C taskId env body options p ev num W)
        as (r0 & new & Hrun & Hbuilt & _ & _ & Hnew)
  end.
  rewrite Hrun, engine_trigger_run.
  destruct Hbuilt as (_ & _ & Henv & Htask & Hkey & _).
  assert (Hfree : forall W, taskRun W = taskRun w -> clashes r0 W = false ->
            forall key, p_idempotencyKey p = Some key ->
              existsb (same_idempotency (env_id env) key taskId) (taskRun w) = false).
  { intros W Hrows. unfold clashes. rewrite Hkey, Henv, Htask, Hrows.
    intros Hc key Hp. now rewrite Hp in Hc. }
  unfold after_queued.
  destruct (p_delayUntil p); destruct (clashes r0 _) eqn:Eclash;
    intros H; inversion H; subst; exists r0;
    (split; [unfold envelope_log, callback_log, rollback; rewrite Hkey; cbn;
             rewrite <- ?app_assoc; cbn [app]; rewrite <- ?app_assoc; reflexivity|]);
    (split; [exact Hkey|]); try exact I;
    (split; [reflexivity|]); (eapply Hfree; [|exact Eclash]); reflexivity.
Qed.

(** C1, where the code departs from it: a call whose effective idempotency
    key is the empty text makes no lookup.  It asks the entitlement service
    outside development, and once past the checks it opens the trace event
    and hands the engine a run with the empty text as its key.  The run a
    call returns has this key and is a new row.  When a run with the empty
    key is stored for the task and the environment, the call does not return
    it: the call throws. *)
Theorem empty_key_is_not_looked_up (w w' : World) (res : ServiceError + TaskRun) :
  effective_key body options = Some EmptyString ->
  call C taskId env body options w = (res, w') ->
  (env_type env <> DEVELOPMENT ->
   existsb is_getEntitlement (new_effects w w') = true)
  /\ (entitled C env = true -> tags_within_limit body = true ->
      blocking_attempt C body w = None ->
      existsb is_traceEvent (new_effects w w') = true
      /\ exists r, In (engine_trigger_call r) (new_effects w w')
                   /\ idempotencyKey r = Some EmptyString)
  /\ (forall r, res = inr r ->
        idempotencyKey r = Some EmptyString /\ taskRun w' = (taskRun w ++ [r])%list)
  /\ (existsb (same_idempotency (env_id env) EmptyString taskId) (taskRun w) = true ->
      exists e, res = inl e).
Proof.
  intros Hkey Hcall.
  assert (Hmiss : existing_run taskId env body options w = None).
  { unfold existing_run. now rewrite Hkey. }
  assert (Hpersist : entitled C env = true -> tags_within_limit body = true ->
            blocking_attempt C body w = None ->
            call_persist C taskId env body options (prepared C env body options w)
                         (after_payload C env body w) = (res, w')).
  { intros He Ht Hb. unfold call, bind in Hcall.
    now rewrite (prepare_miss C taskId env body options w Hmiss), He, Ht, Hb in Hcall. }
  split; [|split; [|split]].
  - intros Hnot. destruct (call_effects C _ _ _ _ _ _ _ Hcall Hmiss) as (rest & -> & _).
    unfold entitlement_log. destruct (env_type env); try reflexivity. congruence.
  - intros He Ht Hb.
    destruct (persist_insert _ _ _ _ (Hpersist He Ht Hb)) as (r & Hlog & Hr & _).
    destruct (after_payload_facts C env body w) as (_ & _ & _ & _ & Hl).
    rewrite Hl, <- !app_assoc in Hlog. rewrite (new_effects_app _ _ _ Hlog).
    split.
    + rewrite !existsb_app. unfold envelope_log. cbn. now rewrite !orb_true_r.
    + exists r. split.
      * rewrite !in_app_iff. do 2 right. unfold envelope_log.
        rewrite !in_app_iff. do 2 right. now left.
      * rewrite Hr. exact Hkey.
  - intros r ->.
    destruct (created_run_facts C _ _ _ _ _ _ _ Hcall Hmiss) as (Hbuilt & Hrows & _).
    destruct Hbuilt as (_ & _ & _ & _ & Hidem & _).
    split; [rewrite Hidem; exact Hkey | exact Hrows].
  - intros Hstored. destruct res as [e|r]; [eauto|]. exfalso.
    destruct (call_created C _ _ _ _ _ _ _ Hcall Hmiss) as (_ & _ & _ & Hp).
    destruct (persist_insert _ _ _ _ Hp) as (r0 & _ & _ & _ & Hfree).
    destruct (after_payload_facts C env body w) as (_ & Ht & _).
    rewrite Ht in Hfree. rewrite (Hfree EmptyString Hkey) in Hstored. discriminate.
Qed.

End EmptyKey.

Lemma empty_key_first_call :
  call Examples.collaborators "process-order" Examples.production
       Scenario.empty_key_body Examples.service_options (Examples.world [])
  = (inr Cases.empty_key_run, Cases.empty_key_first).
Proof. vm_compute. reflexivity. Qed.

Lemma empty_key_second_call :
  call Examples.collaborators "process-order" Examples.production
       Scenario.empty_key_body Examples.service_options Cases.empty_key_first
  = (inl (CollaboratorError "Unique constraint failed"), Cases.empty_key_second).
Proof. vm_compute. reflexivity. Qed.

(** The input on which the code departs from C1: two calls with the empty
    text as key, for one task and environment.  The first stores its run
    under the key.  The second finds no run, although the run of the first
    is stored with its key: it asks the entitlement service, opens the trace
    event, calls the engine and throws, where C1 has it return the stored
    run and call none of them. *)
Lemma empty_key_repeat_is_not_idempotent :
  (idempotencyKey Cases.empty_key_run = Some EmptyString
   /\ taskRun Cases.empty_key_first = [Cases.empty_key_run])
  /\ find (same_idempotency "env_prod" EmptyString "process-order")
          (taskRun Cases.empty_key_first) = Some Cases.empty_key_run
  /\ call Examples.collaborators "process-order" Examples.production
          Scenario.empty_key_body Examples.service_options Cases.empty_key_first
     = (inl (CollaboratorError "Unique constraint failed"), Cases.empty_key_second)
  /\ existsb is_getEntitlement (new_effects Cases.empty_key_first Cases.empty_key_second)
     = true
  /\ existsb is_traceEvent (new_effects Cases.empty_key_first Cases.empty_key_second)
     = true
  /\ exists r, In (engine_trigger_call r)
                  (new_effects Cases.empty_key_first Cases.empty_key_second)
               /\ idempotencyKey r = Some EmptyString.
Proof.
  pose proof (empty_key_is_not_looked_up Examples.collaborators "process-order"
                Examples.production Scenario.empty_key_body Examples.service_options
                (Examples.world []) Cases.empty_key_first _
                eq_refl empty_key_first_call) as (_ & _ & Hfirst & _).
  pose proof (empty_key_is_not_looked_up Examples.collaborators "process-order"
                Examples.production Scenario.empty_key_body Examples.service_options
                Cases.empty_key_first Cases.empty_key_second _
                eq_refl empty_key_second_call) as (Hent & Henv & _).
  split; [exact (Hfirst _ eq_refl)|]. split; [reflexivity|].
  split; [exact empty_key_second_call|].
  split; [apply Hent; discriminate|].
  destruct (Henv eq_refl eq_refl eq_refl) as [Htrace Hengine].
  split; [exact Htrace | exact Hengine].
Defined.
